(** * dev-connector: a shallow embedding of the REST back end

    The development follows the layout of the repository:
    - [Js]      : the JavaScript built-ins the handlers rely on
                  (truthiness, [indexOf], [splice], [split], [trim]);
    - the data model of the three collections and the in-memory store;
    - [Env]     : the external collaborators (jsonwebtoken, bcryptjs,
                  gravatar, express-validator, the ObjectId cast of the
                  persistence layer), taken as parameters;
    - middleware/auth, routes/api/users, routes/api/auth,
      routes/api/profile and routes/api/posts, one definition per handler;
    - the theorems, one per checked property. *)

From Stdlib Require Import ZArith Ascii String List Lia Bool.
From stdpp Require Import base option list gmap strings fin_maps.

Open Scope string_scope.
Open Scope Z_scope.

(** ** JavaScript built-ins *)

Module Js.

(** Truthiness of a possibly [undefined] string: [undefined] and the
    empty string are falsy, every other string is truthy. *)
Definition truthy (v : option string) : bool :=
  match v with
  | None => false
  | Some s => negb (String.eqb s "")
  end.

(** [Array.prototype.indexOf] on an array of strings, with [===] as the
    comparison: the first index holding [x], or [-1]. *)
Fixpoint indexOf (l : list string) (x : string) : Z :=
  match l with
  | [] => -1
  | y :: l' =>
      if String.eqb y x then 0
      else let i := indexOf l' x in
           if i <? 0 then -1 else i + 1
  end.

(** [Array.prototype.splice(start, deleteCount)], the array left behind.
    A negative [start] counts from the end of the array (clamped at 0), a
    [start] past the end is clamped to the length, and at most the
    elements that remain after [start] are deleted. *)
Definition splice {A} (l : list A) (start deleteCount : Z) : list A :=
  let len := Z.of_nat (length l) in
  let actualStart :=
    if start <? 0 then Z.max (len + start) 0 else Z.min start len in
  let actualDeleteCount :=
    Z.min (Z.max deleteCount 0) (len - actualStart) in
  take (Z.to_nat actualStart) l
    ++ drop (Z.to_nat (actualStart + actualDeleteCount)) l.

(** [String.prototype.split] with a one-character separator. *)
Fixpoint split (sep : ascii) (s : string) : list string :=
  match s with
  | EmptyString => [EmptyString]
  | String c s' =>
      if Ascii.eqb c sep then EmptyString :: split sep s'
      else match split sep s' with
           | seg :: rest => String c seg :: rest
           | [] => [String c EmptyString]
           end
  end.

(** White space and line terminators of ECMAScript that fit in one
    8-bit code unit: TAB, LF, VT, FF, CR, SP and NBSP. *)
Definition isWhiteSpace (c : ascii) : bool :=
  let n := N_of_ascii c in
  (((9 <=? n) && (n <=? 13)) || (n =? 32) || (n =? 160))%N.

Fixpoint trimStart (s : string) : string :=
  match s with
  | EmptyString => EmptyString
  | String c s' => if isWhiteSpace c then trimStart s' else s
  end.

Fixpoint trimEnd (s : string) : string :=
  match s with
  | EmptyString => EmptyString
  | String c s' =>
      match trimEnd s' with
      | EmptyString => if isWhiteSpace c then EmptyString
                       else String c EmptyString
      | t => String c t
      end
  end.

(** [String.prototype.trim]. *)
Definition trim (s : string) : string := trimEnd (trimStart s).

(** [Array.prototype.join] with a one-character separator. *)
Fixpoint join (sep : ascii) (l : list string) : string :=
  match l with
  | [] => EmptyString
  | [s] => s
  | s :: l' => s ++ String sep (join sep l')
  end.

End Js.

(** ** Data model *)

(** Modelled from the spec: models/User is not part of the sources. A user
    document without its [_id], which is the key of the collection, and
    without the creation timestamp, which no handler below reads. *)
Record User := mkUser {
  user_name : string;
  user_email : string;
  user_avatar : string;
  user_password : string
}.

(** Modelled from the spec: models/Post is not part of the sources. A like
    entry is a user reference. *)
Record Like := mkLike { like_user : string }.

(** Modelled from the spec: a comment of models/Post, with the identifier
    that the persistence layer gives it and the author's name and avatar
    copied in when it is written. *)
Record Comment := mkComment {
  comment_id : string;
  comment_user : string;
  comment_text : string;
  comment_name : string;
  comment_avatar : string
}.

(** Modelled from the spec: a post document of models/Post without its
    [_id], which is the key of the collection. Likes and comments are
    most recent first. *)
Record Post := mkPost {
  post_user : string;
  post_text : string;
  post_name : string;
  post_avatar : string;
  post_likes : list Like;
  post_comments : list Comment
}.

(** Modelled from the spec: models/Profile is not part of the sources. An
    experience entry with its generated identifier. *)
Record Experience := mkExperience {
  exp_id : string;
  exp_title : string;
  exp_company : string;
  exp_location : option string;
  exp_from : string;
  exp_to : option string;
  exp_current : option bool;
  exp_description : option string
}.

(** Modelled from the spec: an education entry of models/Profile. *)
Record Education := mkEducation {
  edu_id : string;
  edu_school : string;
  edu_degree : string;
  edu_fieldofstudy : string;
  edu_from : string;
  edu_to : option string;
  edu_current : option bool;
  edu_description : option string
}.

(** Modelled from the spec: the [social] object of models/Profile, in
    which each link is a key that is present or not. *)
Record Social := mkSocial {
  youtube : option string;
  twitter : option string;
  facebook : option string;
  linkedin : option string;
  instagram : option string
}.

(** Modelled from the spec: a profile document of models/Profile without
    its [_id]; [profile_user] is the [user] reference. *)
Record Profile := mkProfile {
  profile_user : string;
  company : option string;
  website : option string;
  location : option string;
  bio : option string;
  status : option string;
  githubusername : option string;
  skills : option (list string);
  social : Social;
  experience : list Experience;
  education : list Education
}.

(** The persisted state: three collections keyed by [_id]. An identifier
    is the string that [toString()] and the [id] getter answer for it, the
    form in which the handlers compare identifiers. *)
Record Store := mkStore {
  users : gmap string User;
  profiles : gmap string Profile;
  posts : gmap string Post
}.

Definition emptyStore : Store := mkStore ∅ ∅ ∅.

(** ** HTTP responses and exceptions *)

Inductive Body :=
| Msg (msg : string)                      (* { msg } *)
| Errors (errors : list string)           (* { errors: [{ msg }, ...] } *)
| Text (text : string)                    (* res.send(text) *)
| TokenBody (token : string)              (* { token } *)
| ProfileBody (id : string) (p : Profile)
| PostBody (id : string) (p : Post)
| LikesBody (likes : list Like)
| CommentsBody (comments : list Comment).

(** What the client observes: a status with a body, or nothing at all when
    an exception escapes the handler. *)
Inductive Response :=
| Reply (status : Z) (body : Body)
| Unhandled.

(** [res.json(body)] without [res.status] answers 200. *)
Definition json (body : Body) : Response := Reply 200 body.

Definition statusOf (r : Response) : option Z :=
  match r with
  | Reply s _ => Some s
  | Unhandled => None
  end.

(** The exceptions a handler body can raise: a property read on [null],
    the cast error of the persistence layer with its [kind], and the plain
    error that a library throws on an argument it does not accept. *)
Inductive Exn :=
| TypeError
| CastError (kind : string)
| JsError (message : string).

Definition kind (e : Exn) : option string :=
  match e with
  | TypeError => None
  | CastError k => Some k
  | JsError _ => None
  end.

Inductive Try (A : Type) :=
| Ok (a : A)
| Throw (e : Exn).
Arguments Ok {A} a.
Arguments Throw {A} e.

#[global] Instance Try_ret : MRet Try := fun _ a => Ok a.
#[global] Instance Try_bind : MBind Try := fun _ _ f m =>
  match m with
  | Ok a => f a
  | Throw e => Throw e
  end.

(** [try { body } catch (err) { handler }]. *)
Definition try_catch {A} (body : Try A) (handler : Exn -> A) : A :=
  match body with
  | Ok a => a
  | Throw e => handler e
  end.

(** Reading a property of a value that may be [null]. *)
Definition deref {A} (o : option A) : Try A :=
  match o with
  | Some a => Ok a
  | None => Throw TypeError
  end.

(** ** External collaborators *)

Record TokenUser := mkTokenUser { tu_id : string }.
Record Payload := mkPayload { payload_user : TokenUser }.

Record Env := mkEnv {
  (** [config.get('jwtSecret')] *)
  jwtSecret : string;
  (** [jwt.sign(payload, secret, { expiresIn }, callback)] called at the
      time given last, which the token carries as its issue time: the
      token, or [None] when the callback receives an error. *)
  jwt_sign : Payload -> string -> Z -> Z -> option string;
  (** [jwt.verify(token, secret)]: the decoded payload, or [None] when it
      throws. *)
  jwt_verify : string -> string -> option Payload;
  (** [bcrypt.hash(password, salt)] and [bcrypt.compare(password, hash)]. *)
  bcrypt_hash : string -> string -> string;
  bcrypt_compare : string -> string -> bool;
  (** [gravatar.url(email, { s: '200', r: 'pg', d: 'mm' })]. *)
  gravatar_url : string -> string;
  (** [isEmail] of express-validator. *)
  isEmail : string -> bool;
  (** Whether the persistence layer casts a string to an [ObjectId]. *)
  isObjectId : string -> bool
}.

(** A value of the request body where the handler expects a string: a
    string, or a value of another JSON type (a number, a boolean, [null],
    an array, an object), kept with the string that express-validator
    checks in its place. *)
Inductive Field :=
| Str (s : string)
| NotStr (shown : string).

(** ** express-validator *)

Module Validator.

(** The string that the checks see for a field. *)
Definition shown (v : option Field) : option string :=
  match v with
  | Some (Str s) => Some s
  | Some (NotStr text) => Some text
  | None => None
  end.

(** A missing field is validated as the empty string. *)
Definition value (v : option string) : string := default "" v.

(** [check(field, msg).not().isEmpty()] *)
Definition notEmpty (v : option string) : bool :=
  negb (String.eqb (value v) "").

(** [check(field, msg).exists()] *)
Definition exists_ (v : option string) : bool :=
  match v with
  | Some _ => true
  | None => false
  end.

(** [check(field, msg).isLength({ min })] *)
Definition isLength (min : nat) (v : option string) : bool :=
  (min <=? String.length (value v))%nat.

(** [validationResult(req).array()]: the messages of the checks that
    failed, in the order the checks are declared. *)
Definition validationResult (checks : list (bool * string)) : list string :=
  List.map snd (List.filter (fun c => negb (fst c)) checks).

Definition isEmpty (errors : list string) : bool :=
  match errors with
  | [] => true
  | _ => false
  end.

End Validator.

(** ** Persistence *)

Section Persistence.
Context {A : Type}.

(** [Model.findOne(query)]: a document matching the query with its
    [_id], or [null]. *)
Definition findOne (query : A -> bool) (c : gmap string A)
  : option (string * A) :=
  List.find (fun kv => query (snd kv)) (map_to_list c).

End Persistence.

(** [Post.findById(id)]: the cast of a malformed id throws. *)
Definition Post_findById (E : Env) (st : Store) (id : string)
  : Try (option Post) :=
  if isObjectId E id then Ok (posts st !! id)
  else Throw (CastError "ObjectId").

(** [post.save()] of a document read from, or created for, the store. *)
Definition Post_save (st : Store) (id : string) (p : Post) : Store :=
  mkStore (users st) (profiles st) (<[id := p]> (posts st)).

(** [post.remove()] *)
Definition Post_remove (st : Store) (id : string) : Store :=
  mkStore (users st) (profiles st) (delete id (posts st)).

Definition User_findOne_email (st : Store) (email : string)
  : option (string * User) :=
  findOne (fun u => String.eqb (user_email u) email) (users st).

Definition User_save (st : Store) (id : string) (u : User) : Store :=
  mkStore (<[id := u]> (users st)) (profiles st) (posts st).

Definition Profile_findOne_user (st : Store) (user : string)
  : option (string * Profile) :=
  findOne (fun p => String.eqb (profile_user p) user) (profiles st).

Definition Profile_save (st : Store) (id : string) (p : Profile) : Store :=
  mkStore (users st) (<[id := p]> (profiles st)) (posts st).

(** ** middleware/auth *)

Record Request := mkRequest {
  (** The request headers, by lower-case name. *)
  req_headers : gmap string string
}.

Definition header (req : Request) (name : string) : option string :=
  req_headers req !! name.

Inductive AuthOutcome :=
| Rejected (r : Response)
| Next (user : TokenUser).

Definition auth (E : Env) (req : Request) : AuthOutcome :=
  let token := header req "x-auth-token" in
  if negb (Js.truthy token) then
    Rejected (Reply 401 (Msg "No token, authorization denied"))
  else
    match jwt_verify E (default "" token) (jwtSecret E) with
    | Some decoded => Next (payload_user decoded)
    | None => Rejected (Reply 401 (Msg "Token is not valid"))
    end.

(** A private route: the handler runs only after [auth] called [next()],
    with [req.user] set to the decoded user. *)
Definition private (E : Env)
    (handler : TokenUser -> Store -> Response * Store)
    (req : Request) (st : Store) : Response * Store :=
  match auth E req with
  | Rejected r => (r, st)
  | Next user => handler user st
  end.

(** Identifiers carried by a verified token were minted from a stored
    [_id]; only identifiers taken from the URL go through the cast that
    can fail. *)
Definition User_findById (st : Store) (id : string) : option User :=
  users st !! id.

Definition serverError : Response := Reply 500 (Text "Server Error").

(** ** bcryptjs *)

(** [bcrypt.hash(s, salt)] throws unless [s] is a string. *)
Definition Bcrypt_hash (E : Env) (s : option Field) (salt : string)
    : Try string :=
  match s with
  | Some (Str s) => Ok (bcrypt_hash E s salt)
  | _ => Throw (JsError "Illegal arguments")
  end.

(** [bcrypt.compare(s, hash)] throws unless [s] is a string. *)
Definition Bcrypt_compare (E : Env) (s : option Field) (hash : string)
    : Try bool :=
  match s with
  | Some (Str s) => Ok (bcrypt_compare E s hash)
  | _ => Throw (JsError "Illegal arguments")
  end.

(** ** routes/api/users *)

(** The body of a registration or of a login. The password is whatever
    JSON value the request holds. *)
Record Credentials := mkCredentials {
  body_name : option string;
  body_email : option string;
  body_password : option Field
}.

(** [POST api/users]. [oid] is the [_id] minted for the new document,
    [salt] the salt drawn by [bcrypt.genSalt(10)] and [now] the time at
    which the token is signed. The identifier caught by the [catch] block
    is [error] while its body reads [err], so reaching it raises a
    ReferenceError and no response is sent. *)
Definition register (E : Env) (oid salt : string) (now : Z)
    (body : Credentials) (st : Store) : Response * Store :=
  let errors := Validator.validationResult
    [ (Validator.notEmpty (body_name body), "Name is required");
      (isEmail E (Validator.value (body_email body)),
       "Please include a valid email");
      (Validator.isLength 6 (Validator.shown (body_password body)),
       "Please enter a password with 6 or more characters") ] in
  if negb (Validator.isEmpty errors) then (Reply 400 (Errors errors), st)
  else
    let name := Validator.value (body_name body) in
    let email := Validator.value (body_email body) in
    let password := body_password body in
    try_catch
      (match User_findOne_email st email with
       | Some _ => Ok (Reply 400 (Errors ["User already exists"]), st)
       | None =>
           let avatar := gravatar_url E email in
           hash ← Bcrypt_hash E password salt;
           let user := mkUser name email avatar hash in
           let st' := User_save st oid user in
           let payload := mkPayload (mkTokenUser oid) in
           match jwt_sign E payload (jwtSecret E) 360000 now with
           | Some token => Ok (json (TokenBody token), st')
           | None => Ok (Unhandled, st')
           end
       end)
      (fun error => (Unhandled, st)).

(** ** routes/api/auth *)

(** [POST api/auth]. [now] is the time at which the token is signed. The
    [catch] block reads the undeclared [err], as that of registration. *)
Definition authenticate (E : Env) (now : Z) (body : Credentials)
    (st : Store) : Response * Store :=
  let errors := Validator.validationResult
    [ (isEmail E (Validator.value (body_email body)),
       "Please include a valid email");
      (Validator.exists_ (Validator.shown (body_password body)),
       "Password is required") ] in
  if negb (Validator.isEmpty errors) then (Reply 400 (Errors errors), st)
  else
    let email := Validator.value (body_email body) in
    let password := body_password body in
    try_catch
      (match User_findOne_email st email with
       | None => Ok (Reply 400 (Errors ["Invalid Credentials"]), st)
       | Some (id, user) =>
           isMatch ← Bcrypt_compare E password (user_password user);
           if negb isMatch then
             Ok (Reply 400 (Errors ["Invalid Credentials"]), st)
           else
             let payload := mkPayload (mkTokenUser id) in
             match jwt_sign E payload (jwtSecret E) 360000 now with
             | Some token => Ok (json (TokenBody token), st)
             | None => Ok (Unhandled, st)
             end
       end)
      (fun error => (Unhandled, st)).

(** ** routes/api/profile *)

Record ProfileInput := mkProfileInput {
  in_company : option string;
  in_website : option string;
  in_location : option string;
  in_bio : option string;
  in_status : option string;
  in_githubusername : option string;
  in_skills : option string;
  in_youtube : option string;
  in_facebook : option string;
  in_twitter : option string;
  in_instagram : option string;
  in_linkedin : option string
}.

(** The object [profileFields]: [user] and [social] are always assigned,
    every other key is present or not. *)
Record ProfileFields := mkProfileFields {
  pf_user : string;
  pf_company : option string;
  pf_website : option string;
  pf_location : option string;
  pf_bio : option string;
  pf_status : option string;
  pf_githubusername : option string;
  pf_skills : option (list string);
  pf_social : Social
}.

(** [if (v) fields.key = v;] *)
Definition ifTruthy (v : option string) : option string :=
  if Js.truthy v then v else None.

Definition normalizeSkills (skills : string) : list string :=
  List.map Js.trim (Js.split "," skills).

Definition buildProfileFields (user : TokenUser) (body : ProfileInput)
    : ProfileFields :=
  mkProfileFields
    (tu_id user)
    (ifTruthy (in_company body))
    (ifTruthy (in_website body))
    (ifTruthy (in_location body))
    (ifTruthy (in_bio body))
    (ifTruthy (in_status body))
    (ifTruthy (in_githubusername body))
    (if Js.truthy (in_skills body)
     then Some (normalizeSkills (Validator.value (in_skills body)))
     else None)
    (mkSocial
       (ifTruthy (in_youtube body))
       (ifTruthy (in_twitter body))
       (ifTruthy (in_facebook body))
       (ifTruthy (in_linkedin body))
       (ifTruthy (in_instagram body))).

(** One key of [$set]: a key of the update replaces the stored value, a
    key that is not in the update leaves it as it is. *)
Definition setKey {A} (new old : option A) : option A :=
  match new with
  | Some v => Some v
  | None => old
  end.

(** [{ $set: profileFields }] applied to a stored profile. [$set] replaces
    the value of each key it names: the keys [user] and [social] are
    always named, so the stored [social] object is replaced as a whole. *)
Definition applySet (pf : ProfileFields) (p : Profile) : Profile :=
  mkProfile
    (pf_user pf)
    (setKey (pf_company pf) (company p))
    (setKey (pf_website pf) (website p))
    (setKey (pf_location pf) (location p))
    (setKey (pf_bio pf) (bio p))
    (setKey (pf_status pf) (status p))
    (setKey (pf_githubusername pf) (githubusername p))
    (setKey (pf_skills pf) (skills p))
    (pf_social pf)
    (experience p)
    (education p).

(** [new Profile(profileFields)] *)
Definition newProfile (pf : ProfileFields) : Profile :=
  mkProfile (pf_user pf) (pf_company pf) (pf_website pf) (pf_location pf)
    (pf_bio pf) (pf_status pf) (pf_githubusername pf) (pf_skills pf)
    (pf_social pf) [] [].

(** [POST api/profile]. [oid] is the [_id] minted if a document is
    created. *)
Definition upsertProfile (oid : string) (body : ProfileInput)
    (user : TokenUser) (st : Store) : Response * Store :=
  let errors := Validator.validationResult
    [ (Validator.notEmpty (in_status body), "Status is required");
      (Validator.notEmpty (in_skills body), "Skill is required") ] in
  if negb (Validator.isEmpty errors) then (Reply 400 (Errors errors), st)
  else
    let profileFields := buildProfileFields user body in
    try_catch
      (match Profile_findOne_user st (tu_id user) with
       | Some (id, profile) =>
           let profile := applySet profileFields profile in
           Ok (json (ProfileBody id profile), Profile_save st id profile)
       | None =>
           let profile := newProfile profileFields in
           Ok (json (ProfileBody oid profile), Profile_save st oid profile)
       end)
      (fun err => (serverError, st)).

Definition setExperience (p : Profile) (l : list Experience) : Profile :=
  mkProfile (profile_user p) (company p) (website p) (location p) (bio p)
    (status p) (githubusername p) (skills p) (social p) l (education p).

Definition setEducation (p : Profile) (l : list Education) : Profile :=
  mkProfile (profile_user p) (company p) (website p) (location p) (bio p)
    (status p) (githubusername p) (skills p) (social p) (experience p) l.

(** [DELETE api/profile/experience/:exp_id] *)
Definition removeExperience (exp_id_param : string) (user : TokenUser)
    (st : Store) : Response * Store :=
  try_catch
    ('(id, profile) ← deref (Profile_findOne_user st (tu_id user));
     let removeIndex :=
       Js.indexOf (List.map exp_id (experience profile)) exp_id_param in
     let profile :=
       setExperience profile (Js.splice (experience profile) removeIndex 1) in
     Ok (json (ProfileBody id profile), Profile_save st id profile))
    (fun err => (serverError, st)).

(** [DELETE api/profile/education/:edu_id] *)
Definition removeEducation (edu_id_param : string) (user : TokenUser)
    (st : Store) : Response * Store :=
  try_catch
    ('(id, profile) ← deref (Profile_findOne_user st (tu_id user));
     let removeIndex :=
       Js.indexOf (List.map edu_id (education profile)) edu_id_param in
     let profile :=
       setEducation profile (Js.splice (education profile) removeIndex 1) in
     Ok (json (ProfileBody id profile), Profile_save st id profile))
    (fun err => (serverError, st)).

(** ** routes/api/posts *)

Definition setLikes (p : Post) (l : list Like) : Post :=
  mkPost (post_user p) (post_text p) (post_name p) (post_avatar p)
    l (post_comments p).

Definition setComments (p : Post) (l : list Comment) : Post :=
  mkPost (post_user p) (post_text p) (post_name p) (post_avatar p)
    (post_likes p) l.

(** [POST api/posts]. [oid] is the [_id] minted for the new post. *)
Definition createPost (oid : string) (text : option string)
    (user : TokenUser) (st : Store) : Response * Store :=
  let errors := Validator.validationResult
    [ (Validator.notEmpty text, "Text is required") ] in
  if negb (Validator.isEmpty errors) then (Reply 400 (Errors errors), st)
  else
    try_catch
      (author ← deref (User_findById st (tu_id user));
       let newPost :=
         mkPost (tu_id user) (Validator.value text)
           (user_name author) (user_avatar author) [] [] in
       Ok (json (PostBody oid newPost), Post_save st oid newPost))
      (fun err => (serverError, st)).

(** [GET api/posts/:id] *)
Definition getPost (E : Env) (id : string) (user : TokenUser)
    (st : Store) : Response * Store :=
  try_catch
    (post ← Post_findById E st id;
     match post with
     | None => Ok (Reply 404 (Msg "Post not found"), st)
     | Some post => Ok (json (PostBody id post), st)
     end)
    (fun err =>
       if bool_decide (kind err = Some "ObjectId")
       then (Reply 404 (Msg "Post not found:inside the catch"), st)
       else (serverError, st)).

(** [DELETE api/posts/:id] *)
Definition deletePost (E : Env) (id : string) (user : TokenUser)
    (st : Store) : Response * Store :=
  try_catch
    (post ← Post_findById E st id;
     match post with
     | None => Ok (Reply 404 (Msg "Post not found"), st)
     | Some post =>
         if negb (String.eqb (post_user post) (tu_id user)) then
           Ok (Reply 401 (Msg "User not authorized"), st)
         else
           Ok (json (Msg "Post removed!"), Post_remove st id)
     end)
    (fun err =>
       if bool_decide (kind err = Some "ObjectId")
       then (Reply 404 (Msg "Post not found"), st)
       else (serverError, st)).

(** [like => like.user.toString() === req.user.id] *)
Definition likedBy (user : TokenUser) (like : Like) : bool :=
  String.eqb (like_user like) (tu_id user).

(** [PUT api/posts/like/:id] *)
Definition likePost (E : Env) (id : string) (user : TokenUser)
    (st : Store) : Response * Store :=
  try_catch
    (post ← Post_findById E st id;
     post ← deref post;
     if (0 <? Z.of_nat (length (List.filter (likedBy user) (post_likes post))))
     then Ok (Reply 400 (Msg "Bad Request: Post already liked"), st)
     else
       let post := setLikes post (mkLike (tu_id user) :: post_likes post) in
       Ok (json (LikesBody (post_likes post)), Post_save st id post))
    (fun err => (serverError, st)).

(** [PUT api/posts/unlike/:id] *)
Definition unlikePost (E : Env) (id : string) (user : TokenUser)
    (st : Store) : Response * Store :=
  try_catch
    (post ← Post_findById E st id;
     post ← deref post;
     if (Z.of_nat (length (List.filter (likedBy user) (post_likes post))) =? 0)
     then Ok (Reply 400 (Msg "Bad Request: Post has not yet been liked"), st)
     else
       let removeIndex :=
         Js.indexOf (List.map like_user (post_likes post)) (tu_id user) in
       let post := setLikes post (Js.splice (post_likes post) removeIndex 1) in
       Ok (json (LikesBody (post_likes post)), Post_save st id post))
    (fun err => (serverError, st)).

(** [POST api/posts/comment/:id]. [cid] is the [_id] minted for the new
    comment. *)
Definition addComment (E : Env) (cid : string) (id : string)
    (text : option string) (user : TokenUser) (st : Store)
    : Response * Store :=
  let errors := Validator.validationResult
    [ (Validator.notEmpty text, "Text is required") ] in
  if negb (Validator.isEmpty errors) then (Reply 400 (Errors errors), st)
  else
    try_catch
      (let author := User_findById st (tu_id user) in
       post ← Post_findById E st id;
       author ← deref author;
       let newComment :=
         mkComment cid (tu_id user) (Validator.value text)
           (user_name author) (user_avatar author) in
       post ← deref post;
       let post := setComments post (newComment :: post_comments post) in
       Ok (json (CommentsBody (post_comments post)), Post_save st id post))
      (fun err => (serverError, st)).

(** [DELETE api/posts/comment/:id/:comment_id] *)
Definition removeComment (E : Env) (id comment_id_param : string)
    (user : TokenUser) (st : Store) : Response * Store :=
  try_catch
    (post ← Post_findById E st id;
     post ← deref post;
     let comment :=
       List.find (fun comment => String.eqb (comment_id comment) comment_id_param)
         (post_comments post) in
     match comment with
     | None => Ok (Reply 404 (Msg "Comment does not exist"), st)
     | Some comment =>
         if negb (String.eqb (comment_user comment) (tu_id user)) then
           Ok (Reply 401 (Msg "User not authorized"), st)
         else
           let removeIndex :=
             Js.indexOf (List.map comment_user (post_comments post))
               (tu_id user) in
           let post :=
             setComments post (Js.splice (post_comments post) removeIndex 1) in
           Ok (json (CommentsBody (post_comments post)), Post_save st id post)
     end)
    (fun err => (serverError, st)).

(** The requests of the feed service, after [auth] attached the caller. *)
Inductive FeedRequest :=
| CreatePost (oid : string) (text : option string)
| GetPost (id : string)
| DeletePost (id : string)
| LikePost (id : string)
| UnlikePost (id : string)
| AddComment (cid id : string) (text : option string)
| RemoveComment (id comment_id_param : string).

Definition feed (E : Env) (r : FeedRequest) (user : TokenUser) (st : Store)
    : Response * Store :=
  match r with
  | CreatePost oid text => createPost oid text user st
  | GetPost id => getPost E id user st
  | DeletePost id => deletePost E id user st
  | LikePost id => likePost E id user st
  | UnlikePost id => unlikePost E id user st
  | AddComment cid id text => addComment E cid id text user st
  | RemoveComment id cid => removeComment E id cid user st
  end.

(** A concrete environment, used to run the handlers on examples: the
    token of a payload is its user id, every non-empty string of at most
    24 characters is a valid token and an identifier, the hash of a
    password is the salt followed by the password. *)
Definition sampleEnv : Env :=
  mkEnv "secret"
    (fun payload _ _ _ => Some (tu_id (payload_user payload)))
    (fun token _ =>
       if negb (String.eqb token "") && Nat.leb (String.length token) 24
       then Some (mkPayload (mkTokenUser token)) else None)
    (fun password salt => salt ++ password)
    (fun password hash => String.eqb hash ("s" ++ password))
    (fun email => "//www.gravatar.com/avatar/" ++ email)
    (fun email => negb (String.eqb email ""))
    (fun id => negb (String.eqb id "") && Nat.leb (String.length id) 24).

(** ** The service as a transition system *)

Inductive Operation :=
| Register (oid salt : string) (now : Z) (body : Credentials)
| Authenticate (now : Z) (body : Credentials)
| UpsertProfile (oid : string) (body : ProfileInput) (user : TokenUser)
| RemoveExperience (exp_id_param : string) (user : TokenUser)
| RemoveEducation (edu_id_param : string) (user : TokenUser)
| Feed (r : FeedRequest) (user : TokenUser).

Definition run (E : Env) (op : Operation) (st : Store) : Response * Store :=
  match op with
  | Register oid salt now body => register E oid salt now body st
  | Authenticate now body => authenticate E now body st
  | UpsertProfile oid body user => upsertProfile oid body user st
  | RemoveExperience i user => removeExperience i user st
  | RemoveEducation i user => removeEducation i user st
  | Feed r user => feed E r user st
  end.

(** The stores the service can be in, starting from empty collections. *)
Inductive reachable (E : Env) : Store -> Prop :=
| reachable_empty : reachable E emptyStore
| reachable_run st op :
    reachable E st -> reachable E (snd (run E op st)).

(** A user appears at most once in the like list of a post. *)
Definition likes_unique (p : Post) : Prop :=
  NoDup (List.map like_user (post_likes p)).

Definition likes_invariant (st : Store) : Prop :=
  forall id p, posts st !! id = Some p -> likes_unique p.

(** ** Predicates on strings, to state what [split] and [trim] return *)

Fixpoint contains (c : ascii) (s : string) : bool :=
  match s with
  | EmptyString => false
  | String d s' => Ascii.eqb d c || contains c s'
  end.

Fixpoint allWhiteSpace (s : string) : bool :=
  match s with
  | EmptyString => true
  | String c s' => Js.isWhiteSpace c && allWhiteSpace s'
  end.

Definition startsWithWhiteSpace (s : string) : bool :=
  match s with
  | EmptyString => false
  | String c _ => Js.isWhiteSpace c
  end.

Fixpoint endsWithWhiteSpace (s : string) : bool :=
  match s with
  | EmptyString => false
  | String c EmptyString => Js.isWhiteSpace c
  | String _ s' => endsWithWhiteSpace s'
  end.

(** ** Sample data *)

Definition alice : TokenUser := mkTokenUser "u1".
Definition bob : TokenUser := mkTokenUser "u2".

Definition aliceUser : User :=
  mkUser "Alice" "alice@example.com"
    "//www.gravatar.com/avatar/alice@example.com" "s123456".

Definition commentA : Comment := mkComment "c1" "u1" "first" "Alice" "a.png".
Definition commentB : Comment := mkComment "c2" "u1" "second" "Alice" "a.png".
Definition commentC : Comment := mkComment "c3" "u2" "third" "Bob" "b.png".

Definition samplePost : Post :=
  mkPost "u1" "hello" "Alice" "a.png" [mkLike "u2"]
    [commentA; commentB; commentC].

Definition jobA : Experience :=
  mkExperience "e1" "Engineer" "Acme" None "2019-01-01" None None None.
Definition jobB : Experience :=
  mkExperience "e2" "Intern" "Initech" None "2018-01-01"
    (Some "2018-12-31") None None.

Definition schoolA : Education :=
  mkEducation "d1" "MIT" "BSc" "CS" "2014-09-01" (Some "2018-06-01")
    None None.

Definition sampleProfile : Profile :=
  mkProfile "u1" (Some "Acme") None None None (Some "Developer") None
    (Some ["html"; "css"])
    (mkSocial (Some "https://youtube.com/alice") None None None None)
    [jobA; jobB] [schoolA].

Definition sampleStore : Store :=
  mkStore {[ "u1" := aliceUser ]} {[ "p1" := sampleProfile ]}
    {[ "post1" := samplePost ]}.

(** A profile form that fills in the two required fields only. *)
Definition minimalInput : ProfileInput :=
  mkProfileInput None None None None (Some "Developer") None
    (Some "a, b ,c") None None None None None.


(** A profile form that fills in the required fields and one link. *)
Definition twitterInput : ProfileInput :=
  mkProfileInput None None None None (Some "Developer") None
    (Some "a, b ,c") None None (Some "https://twitter.com/alice") None None.

Definition aliceCredentials : Credentials :=
  mkCredentials (Some "Alice") (Some "alice@example.com")
    (Some (Str "123456")).

Definition carolCredentials : Credentials :=
  mkCredentials (Some "Carol") (Some "carol@example.com")
    (Some (Str "abcdef")).

(** A request that carries the token header with the given value. *)
Definition requestWithToken (token : string) : Request :=
  mkRequest {[ "x-auth-token" := token ]}.

(** ** Vocabulary of the statements *)

(** A key of the form is omitted when it is absent or holds the empty
    string, which the handler does not tell apart. *)
Definition omitted (input : option string) : Prop :=
  input = None \/ input = Some "".



(** The form passed the checks declared on a route. *)
Definition validCredentials (E : Env) (body : Credentials) : Prop :=
  Validator.notEmpty (body_name body) = true /\
  isEmail E (Validator.value (body_email body)) = true /\
  Validator.isLength 6 (Validator.shown (body_password body)) = true.

Definition validLogin (E : Env) (body : Credentials) : Prop :=
  isEmail E (Validator.value (body_email body)) = true /\
  Validator.exists_ (Validator.shown (body_password body)) = true.

Definition validProfileInput (body : ProfileInput) : Prop :=
  Validator.notEmpty (in_status body) = true /\
  Validator.notEmpty (in_skills body) = true.

(** The two ways a login fails: no stored user has the email, or the
    password does not match the hash of the user found. *)
Definition unknownEmail (body : Credentials) (st : Store) : Prop :=
  User_findOne_email st (Validator.value (body_email body)) = None.

Definition wrongPassword (E : Env) (body : Credentials) (st : Store) : Prop :=
  exists id user password,
    User_findOne_email st (Validator.value (body_email body))
      = Some (id, user) /\
    body_password body = Some (Str password) /\
    bcrypt_compare E password (user_password user) = false.

(** ** The read routes *)

(** A user document under [select('-password')]. *)
Record PublicUser := mkPublicUser {
  pu_id : string;
  pu_name : string;
  pu_email : string;
  pu_avatar : string
}.

(** The [user] reference of a profile under
    [populate('user', ['name', 'avatar'])]. *)
Record PopulatedUser := mkPopulatedUser {
  pop_id : string;
  pop_name : string;
  pop_avatar : string
}.

(** A profile document whose [user] reference is populated; the reference
    is [null] when no user document has the identifier. *)
Record PopulatedProfile := mkPopulatedProfile {
  pp_id : string;
  pp_profile : Profile;
  pp_user : option PopulatedUser
}.

Inductive Document :=
| UserDoc (user : option PublicUser)      (* the user, or null *)
| ProfileDoc (profile : PopulatedProfile)
| ProfileDocs (profiles : list PopulatedProfile).

(** The answer of a read route: [res.json(document)], or another
    response. *)
Inductive Answer :=
| Sent (doc : Document)
| Failed (r : Response).

Definition withoutPassword (id : string) (u : User) : PublicUser :=
  mkPublicUser id (user_name u) (user_email u) (user_avatar u).

Definition populate (st : Store) (id : string) (p : Profile)
    : PopulatedProfile :=
  mkPopulatedProfile id p
    (match users st !! profile_user p with
     | Some u =>
         Some (mkPopulatedUser (profile_user p) (user_name u) (user_avatar u))
     | None => None
     end).

(** [GET api/auth] *)
Definition getCurrentUser (user : TokenUser) (st : Store) : Answer :=
  try_catch
    (let found := User_findById st (tu_id user) in
     Ok (Sent (UserDoc (option_map (withoutPassword (tu_id user)) found))))
    (fun err => Failed serverError).

(** [GET api/profile/me] *)
Definition getOwnProfile (user : TokenUser) (st : Store) : Answer :=
  try_catch
    (match Profile_findOne_user st (tu_id user) with
     | None =>
         Ok (Failed (Reply 400 (Msg "There is no profile for this user")))
     | Some (id, profile) => Ok (Sent (ProfileDoc (populate st id profile)))
     end)
    (fun err => Failed serverError).

(** [GET api/profile] *)
Definition listAllProfiles (st : Store) : Answer :=
  try_catch
    (Ok (Sent (ProfileDocs
                 (List.map (fun kv => populate st (fst kv) (snd kv))
                    (map_to_list (profiles st))))))
    (fun err => Failed serverError).

(** [Profile.findOne({ user: req.params.user_id })]: the identifier comes
    from the URL, and its cast can throw. *)
Definition Profile_findOne_param (E : Env) (st : Store) (user_id : string)
    : Try (option (string * Profile)) :=
  if isObjectId E user_id then Ok (Profile_findOne_user st user_id)
  else Throw (CastError "ObjectId").

(** [GET api/profile/user/:user_id] *)
Definition getProfileByUser (E : Env) (user_id : string) (st : Store)
    : Answer :=
  try_catch
    (profile ← Profile_findOne_param E st user_id;
     match profile with
     | None => Ok (Failed (Reply 400 (Msg "Profile not found")))
     | Some (id, profile) => Ok (Sent (ProfileDoc (populate st id profile)))
     end)
    (fun err =>
       if bool_decide (kind err = Some "ObjectId")
       then Failed (Reply 400 (Msg "Profile not found"))
       else Failed serverError).

(** ** routes/api/profile: deleting the account, adding an entry *)

(** [Profile.findOneAndRemove({ user })] *)
Definition Profile_findOneAndRemove_user (st : Store) (user : string)
    : Store :=
  match Profile_findOne_user st user with
  | Some (id, _) => mkStore (users st) (delete id (profiles st)) (posts st)
  | None => st
  end.

(** [User.findOneAndRemove({ _id })] *)
Definition User_findOneAndRemove (st : Store) (id : string) : Store :=
  mkStore (delete id (users st)) (profiles st) (posts st).

(** [DELETE api/profile] *)
Definition deleteAccount (user : TokenUser) (st : Store)
    : Response * Store :=
  try_catch
    (let st1 := Profile_findOneAndRemove_user st (tu_id user) in
     let st2 := User_findOneAndRemove st1 (tu_id user) in
     Ok (json (Msg "User deleted"), st2))
    (fun err => (serverError, st)).

(** The keys that [PUT api/profile/experience] reads from the body, under
    the names the handler gives them. *)
Record ExperienceInput := mkExperienceInput {
  ein_title : option string;
  ein_company : option string;
  ein_location : option string;
  ein_from : option string;
  ein_to : option string;
  ein_currrent : option bool;
  ein_description : option string
}.

Record EducationInput := mkEducationInput {
  din_school : option string;
  din_degree : option string;
  din_fieldofstudy : option string;
  din_from : option string;
  din_to : option string;
  din_currrent : option bool;
  din_description : option string
}.

Section Entries.

(** Whether the persistence layer casts a string to a date; [save()]
    throws when it does not. *)
Variable isDate : string -> bool.

Definition castsToDate (v : option string) : bool :=
  match v with
  | Some s => isDate s
  | None => true
  end.

(** [profile.save()] of a profile with a new entry: the dates of the entry
    are cast, and a date that is not one makes it throw. *)
Definition validateDates (from to : option string) : Try unit :=
  if castsToDate from && castsToDate to then Ok tt
  else Throw (CastError "date").

(** [PUT api/profile/experience]. [eid] is the [_id] minted for the new
    entry. *)
Definition addExperience (eid : string) (body : ExperienceInput)
    (user : TokenUser) (st : Store) : Response * Store :=
  let errors := Validator.validationResult
    [ (Validator.notEmpty (ein_title body), "Title is required");
      (Validator.notEmpty (ein_company body), "company is required");
      (Validator.notEmpty (ein_from body), "From date is required") ] in
  if negb (Validator.isEmpty errors) then (Reply 400 (Errors errors), st)
  else
    let newExp :=
      mkExperience eid
        (Validator.value (ein_title body))
        (Validator.value (ein_company body))
        (ein_location body)
        (Validator.value (ein_from body))
        (ein_to body)
        (ein_currrent body)
        (ein_description body) in
    try_catch
      ('(id, profile) ← deref (Profile_findOne_user st (tu_id user));
       let profile := setExperience profile (newExp :: experience profile) in
       _ ← validateDates (ein_from body) (ein_to body);
       Ok (json (ProfileBody id profile), Profile_save st id profile))
      (fun err => (serverError, st)).

(** [PUT api/profile/education]. [eid] is the [_id] minted for the new
    entry. *)
Definition addEducation (eid : string) (body : EducationInput)
    (user : TokenUser) (st : Store) : Response * Store :=
  let errors := Validator.validationResult
    [ (Validator.notEmpty (din_school body), "school is required");
      (Validator.notEmpty (din_degree body), "company is required");
      (Validator.notEmpty (din_fieldofstudy body),
       "Field of study is required");
      (Validator.notEmpty (din_from body), "From date is required") ] in
  if negb (Validator.isEmpty errors) then (Reply 400 (Errors errors), st)
  else
    let newEdu :=
      mkEducation eid
        (Validator.value (din_school body))
        (Validator.value (din_degree body))
        (Validator.value (din_fieldofstudy body))
        (Validator.value (din_from body))
        (din_to body)
        (din_currrent body)
        (din_description body) in
    try_catch
      ('(id, profile) ← deref (Profile_findOne_user st (tu_id user));
       let profile := setEducation profile (newEdu :: education profile) in
       _ ← validateDates (din_from body) (din_to body);
       Ok (json (ProfileBody id profile), Profile_save st id profile))
      (fun err => (serverError, st)).

End Entries.

(** ** The whole service as a transition system *)

(** The operations of [Operation] and the three other routes that write
    to the store. *)
Inductive Call :=
| Core (op : Operation)
| AddExperience (eid : string) (body : ExperienceInput) (user : TokenUser)
| AddEducation (eid : string) (body : EducationInput) (user : TokenUser)
| DeleteAccount (user : TokenUser).

Definition serve (E : Env) (isDate : string -> bool) (c : Call) (st : Store)
    : Response * Store :=
  match c with
  | Core op => run E op st
  | AddExperience eid body user => addExperience isDate eid body user st
  | AddEducation eid body user => addEducation isDate eid body user st
  | DeleteAccount user => deleteAccount user st
  end.

Inductive served (E : Env) (isDate : string -> bool) : Store -> Prop :=
| served_empty : served E isDate emptyStore
| served_call st c :
    served E isDate st -> served E isDate (snd (serve E isDate c st)).

(** ** Invariants of the store *)

(** A user has at most one profile. *)
Definition one_profile_per_user (st : Store) : Prop :=
  forall id1 id2 p1 p2,
    profiles st !! id1 = Some p1 -> profiles st !! id2 = Some p2 ->
    profile_user p1 = profile_user p2 -> id1 = id2.

(** An email belongs to at most one user. *)
Definition one_user_per_email (st : Store) : Prop :=
  forall id1 id2 u1 u2,
    users st !! id1 = Some u1 -> users st !! id2 = Some u2 ->
    user_email u1 = user_email u2 -> id1 = id2.

(** What registration stores: a name and an email that passed the checks,
    the avatar of the email, and the hash of a password of six characters
    or more. *)
Definition registered (E : Env) (u : User) : Prop :=
  user_name u <> "" /\
  isEmail E (user_email u) = true /\
  user_avatar u = gravatar_url E (user_email u) /\
  exists password salt,
    (6 <= String.length password)%nat /\
    user_password u = bcrypt_hash E password salt.

Definition users_registered (E : Env) (st : Store) : Prop :=
  forall id u, users st !! id = Some u -> registered E u.

(** A profile holds a status that is not empty and a list of skills that
    is not empty. *)
Definition profile_complete (p : Profile) : Prop :=
  (exists s, status p = Some s /\ s <> "") /\
  (exists l, skills p = Some l /\ l <> []).

Definition profiles_complete (st : Store) : Prop :=
  forall id p, profiles st !! id = Some p -> profile_complete p.

(** A list of skills as a form sends it back: no skill holds a comma or
    starts or ends with white space. *)
Definition normalized (skill : string) : Prop :=
  contains "," skill = false /\
  startsWithWhiteSpace skill = false /\
  endsWithWhiteSpace skill = false.

(** More sample data. *)
Definition allDates : string -> bool := fun s => negb (String.eqb s "").

Definition jobInput : ExperienceInput :=
  mkExperienceInput (Some "Lead") (Some "Globex") None (Some "2020-01-01")
    None (Some true) None.

Definition schoolInput : EducationInput :=
  mkEducationInput (Some "ETH") (Some "MSc") (Some "CS") (Some "2018-09-01")
    None None None.

(** What a post keeps for its whole life: its owner, its text and the
    copy of the author's name and avatar. *)
Definition post_header (p : Post) : string * string * string * string :=
  (post_user p, post_text p, post_name p, post_avatar p).

(** The form of a new entry passed the checks of its route, and the
    persistence layer casts its dates. *)
Definition validExperience (body : ExperienceInput) : Prop :=
  Validator.notEmpty (ein_title body) = true /\
  Validator.notEmpty (ein_company body) = true /\
  Validator.notEmpty (ein_from body) = true.

Definition validEducation (body : EducationInput) : Prop :=
  Validator.notEmpty (din_school body) = true /\
  Validator.notEmpty (din_degree body) = true /\
  Validator.notEmpty (din_fieldofstudy body) = true /\
  Validator.notEmpty (din_from body) = true.

Definition datesCast (isDate : string -> bool) (from to : option string)
    : Prop :=
  castsToDate isDate from = true /\ castsToDate isDate to = true.

(** The entry that [addExperience] builds from the form. *)
Definition newExperience (eid : string) (body : ExperienceInput)
    : Experience :=
  mkExperience eid
    (Validator.value (ein_title body)) (Validator.value (ein_company body))
    (ein_location body) (Validator.value (ein_from body)) (ein_to body)
    (ein_currrent body) (ein_description body).

Definition newEducation (eid : string) (body : EducationInput)
    : Education :=
  mkEducation eid
    (Validator.value (din_school body)) (Validator.value (din_degree body))
    (Validator.value (din_fieldofstudy body))
    (Validator.value (din_from body)) (din_to body)
    (din_currrent body) (din_description body).

(** ** What a call does to the users and the profiles *)

Definition accounts_untouched (st st' : Store) : Prop :=
  users st' = users st /\ profiles st' = profiles st.

(** A user was saved by a registration: the user is as registration
    builds it, and no stored user had the email. *)
Definition user_saved (E : Env) (st st' : Store) : Prop :=
  profiles st' = profiles st /\
  exists oid u,
    users st' = <[oid := u]> (users st) /\
    registered E u /\
    User_findOne_email st (user_email u) = None.

(** A profile of the caller was saved: under the id of the caller's
    profile if there is one, and complete if the stored ones are. *)
Definition profile_saved (user : TokenUser) (st st' : Store) : Prop :=
  users st' = users st /\
  exists id p',
    profiles st' = <[id := p']> (profiles st) /\
    profile_user p' = tu_id user /\
    (one_profile_per_user st ->
     forall id2 p2, profiles st !! id2 = Some p2 ->
                    profile_user p2 = tu_id user -> id2 = id) /\
    (profiles_complete st -> profile_complete p').

(** A user document was removed, and possibly a profile. *)
Definition account_removed (st st' : Store) : Prop :=
  (exists id, users st' = delete id (users st)) /\
  forall id p, profiles st' !! id = Some p -> profiles st !! id = Some p.

(** ** What a save leaves in the store *)

(** The store [st'] is [st] with the post [p] under [id]: the post is read
    back under its id, and no other post, no user and no profile has
    changed. *)
Definition post_stored (st st' : Store) (id : string) (p : Post) : Prop :=
  posts st' !! id = Some p /\
  (forall id', id' <> id -> posts st' !! id' = posts st !! id') /\
  users st' = users st /\
  profiles st' = profiles st.

(** The store [st'] is [st] with the profile [p] under [id]. *)
Definition profile_stored (st st' : Store) (id : string) (p : Profile)
    : Prop :=
  profiles st' !! id = Some p /\
  (forall id', id' <> id -> profiles st' !! id' = profiles st !! id') /\
  users st' = users st /\
  posts st' = posts st.

(** A form whose password is a number, as JSON allows. *)
Definition numericLogin (email : string) : Credentials :=
  mkCredentials (Some "Mallory") (Some email) (Some (NotStr "1234567")).

(** Two profiles that differ at most in their experience list, and at
    most in their education list. *)
Definition same_but_experience (p p' : Profile) : Prop :=
  profile_user p' = profile_user p /\ company p' = company p /\
  website p' = website p /\ location p' = location p /\ bio p' = bio p /\
  status p' = status p /\ githubusername p' = githubusername p /\
  skills p' = skills p /\ social p' = social p /\
  education p' = education p.

Definition same_but_education (p p' : Profile) : Prop :=
  profile_user p' = profile_user p /\ company p' = company p /\
  website p' = website p /\ location p' = location p /\ bio p' = bio p /\
  status p' = status p /\ githubusername p' = githubusername p /\
  skills p' = skills p /\ social p' = social p /\
  experience p' = experience p.

(** * Properties *)

(** ** The built-ins *)

Section JsFacts.

Lemma indexOf_lower (l : list string) x : -1 <= Js.indexOf l x.
Proof.
  induction l as [|y l IH]; simpl; [lia|].
  destruct (String.eqb y x); [lia|].
  destruct (Z.ltb_spec (Js.indexOf l x) 0); lia.
Qed.

Lemma indexOf_upper (l : list string) x :
  Js.indexOf l x < Z.of_nat (length l).
Proof.
  induction l as [|y l IH]; simpl length; simpl Js.indexOf; [lia|].
  destruct (String.eqb y x); [lia|].
  destruct (Z.ltb_spec (Js.indexOf l x) 0); lia.
Qed.

(** [indexOf] answers [-1] exactly when the element is absent. *)
Lemma indexOf_absent (l : list string) x :
  Js.indexOf l x = -1 <-> x ∉ l.
Proof.
  induction l as [|y l IH]; simpl.
  - split; [intros _; apply not_elem_of_nil | done].
  - destruct (String.eqb_spec y x) as [->|Hne].
    + split; [lia | intros H; exfalso; apply H; left].
    + pose proof (indexOf_lower l x).
      destruct (Z.ltb_spec (Js.indexOf l x) 0) as [Hlt|Hge].
      * assert (Js.indexOf l x = -1) as Heq by lia.
        split; [|done]. intros _. apply not_elem_of_cons.
        split; [congruence | by apply IH].
      * split; [lia|]. intros Hnot. apply not_elem_of_cons in Hnot as [_ Hnot].
        apply IH in Hnot. lia.
Qed.

(** Otherwise it is the first position that holds the element. *)
Lemma indexOf_first (l : list string) x (i : nat) :
  Js.indexOf l x = Z.of_nat i ->
  l !! i = Some x /\ forall j, (j < i)%nat -> l !! j ≠ Some x.
Proof.
  revert i. induction l as [|y l IH]; intros i; simpl.
  - lia.
  - destruct (String.eqb_spec y x) as [->|Hne].
    + intros Hi. assert (i = 0%nat) as -> by lia.
      split; [done | intros j Hj; lia].
    + destruct (Z.ltb_spec (Js.indexOf l x) 0) as [Hlt|Hge]; [lia|].
      intros Hi. destruct i as [|i]; [lia|].
      destruct (IH i) as [Hat Hbefore]; [lia|].
      split; [done|]. intros [|j] Hj; simpl; [congruence|].
      apply Hbefore. lia.
Qed.

Lemma indexOf_present (l : list string) x :
  x ∈ l -> exists i : nat, Js.indexOf l x = Z.of_nat i /\ (i < length l)%nat.
Proof.
  intros Hin.
  pose proof (indexOf_lower l x) as Hlo.
  pose proof (indexOf_upper l x) as Hup.
  destruct (Z.eq_dec (Js.indexOf l x) (-1)) as [Heq|Hne].
  - apply indexOf_absent in Heq. done.
  - exists (Z.to_nat (Js.indexOf l x)). split; lia.
Qed.

(** [splice(i, 1)] at a position of the array deletes that element. *)
Lemma splice_at {A} (l : list A) (i : nat) :
  (i < length l)%nat -> Js.splice l (Z.of_nat i) 1 = delete i l.
Proof.
  intros Hi. unfold Js.splice.
  destruct (Z.ltb_spec (Z.of_nat i) 0) as [?|_]; [lia|].
  rewrite Z.min_l by lia.
  rewrite (Z.max_l 1 0) by lia.
  rewrite Z.min_l by lia.
  rewrite Nat2Z.id.
  replace (Z.to_nat (Z.of_nat i + 1)) with (S i) by lia.
  by rewrite delete_take_drop.
Qed.

(** [splice(-1, 1)] deletes the last element, whatever it is. *)
Lemma splice_minus_one {A} (l : list A) :
  Js.splice l (-1) 1 = removelast l.
Proof.
  destruct l as [|a l _] using rev_ind; [reflexivity|].
  rewrite removelast_last. unfold Js.splice.
  change (-1 <? 0) with true. cbv iota.
  set (len := Z.of_nat (length (l ++ [a]))).
  assert (len = Z.of_nat (length l) + 1) as Hlen
    by (unfold len; rewrite length_app; simpl; lia).
  assert (Z.to_nat ((len + -1) `max` 0) = length l) as -> by lia.
  assert (Z.to_nat ((len + -1) `max` 0
                    + (1 `max` 0) `min` (len - (len + -1) `max` 0))
          = length (l ++ [a])) as ->
    by (rewrite length_app; simpl; lia).
  rewrite take_app_length, drop_all. by rewrite app_nil_r.
Qed.

Lemma removelast_length {A} (l : list A) :
  l ≠ [] -> S (length (removelast l)) = length l.
Proof.
  destruct l as [|a l] using rev_ind; [done|]. intros _.
  rewrite removelast_last, length_app. simpl. lia.
Qed.

End JsFacts.

(** ** Persistence *)

Section PersistenceFacts.

Lemma Post_findById_found E st id post :
  Post_findById E st id = Ok (Some post) <->
  isObjectId E id = true /\ posts st !! id = Some post.
Proof.
  unfold Post_findById. destruct (isObjectId E id).
  - split; [intros [= ->]; done | intros [_ ->]; done].
  - split; [discriminate | intros [? _]; discriminate].
Qed.

(** An identifier that names no post is either malformed, and the cast
    throws, or well-formed and absent, and the query answers [null]. *)
Lemma Post_findById_missing E st id :
  (isObjectId E id = false \/ posts st !! id = None) ->
  Post_findById E st id = Throw (CastError "ObjectId")
  \/ Post_findById E st id = Ok None.
Proof.
  unfold Post_findById. intros [Hbad|Hnone].
  - rewrite Hbad. by left.
  - destruct (isObjectId E id); [right; by rewrite Hnone | by left].
Qed.

Lemma findOne_None {A} (query : A -> bool) (c : gmap string A) :
  findOne query c = None ->
  forall id a, c !! id = Some a -> query a = false.
Proof.
  unfold findOne. intros Hnone id a Hlook.
  apply (find_none _ _ Hnone (id, a)).
  apply list_elem_of_In, elem_of_map_to_list, Hlook.
Qed.

Lemma findOne_Some {A} (query : A -> bool) (c : gmap string A) id a :
  findOne query c = Some (id, a) -> c !! id = Some a /\ query a = true.
Proof.
  unfold findOne. intros Hsome. apply find_some in Hsome as [Hin Hq].
  split; [|done].
  by apply elem_of_map_to_list, list_elem_of_In.
Qed.

Lemma map_fmap {A B} (f : A -> B) (l : list A) : List.map f l = f <$> l.
Proof. induction l as [|a l IH]; [done|]. cbn. by rewrite IH. Qed.

(** What [post.save()] leaves in the store. *)
Lemma Post_save_stored st id p : post_stored st (Post_save st id p) id p.
Proof.
  split; [simpl; apply lookup_insert_eq|].
  split; [|done]. intros id' Hne. simpl. by apply lookup_insert_ne.
Qed.

(** What [profile.save()] leaves in the store. *)
Lemma Profile_save_stored st id p :
  profile_stored st (Profile_save st id p) id p.
Proof.
  split; [simpl; apply lookup_insert_eq|].
  split; [|done]. intros id' Hne. simpl. by apply lookup_insert_ne.
Qed.

End PersistenceFacts.

(** ** routes/api/posts *)

(** C10: when the post id names no stored post, because it is malformed or
    because no post has it, [likePost] and [unlikePost] answer 500 with the
    body "Server Error", not 404, and leave the store as it was. *)
Theorem like_unlike_missing_post E id user st :
  (isObjectId E id = false \/ posts st !! id = None) ->
  likePost E id user st = (Reply 500 (Text "Server Error"), st) /\
  unlikePost E id user st = (Reply 500 (Text "Server Error"), st).
Proof.
  intros Hmissing. unfold likePost, unlikePost.
  destruct (Post_findById_missing E st id Hmissing) as [-> | ->];
    split; reflexivity.
Qed.

Lemma like_unlike_missing_post_witness :
  (likePost sampleEnv "post9" bob sampleStore
     = (Reply 500 (Text "Server Error"), sampleStore) /\
   unlikePost sampleEnv "post9" bob sampleStore
     = (Reply 500 (Text "Server Error"), sampleStore)) /\
  (likePost sampleEnv "" bob sampleStore
     = (Reply 500 (Text "Server Error"), sampleStore) /\
   unlikePost sampleEnv "" bob sampleStore
     = (Reply 500 (Text "Server Error"), sampleStore)).
Proof.
  split.
  - apply (like_unlike_missing_post sampleEnv "post9" bob sampleStore).
    right. reflexivity.
  - apply (like_unlike_missing_post sampleEnv "" bob sampleStore).
    left. reflexivity.
Defined.

(** C7: [deletePost] answers 404 when the id names no post; answers 401
    and leaves the store as it was when the post belongs to another user;
    otherwise it removes the post, and a [getPost] of the same id on the
    resulting store answers 404. *)
Theorem deletePost_spec E id user st :
  ((isObjectId E id = false \/ posts st !! id = None) ->
   deletePost E id user st = (Reply 404 (Msg "Post not found"), st)) /\
  (forall post,
     Post_findById E st id = Ok (Some post) ->
     post_user post <> tu_id user ->
     deletePost E id user st = (Reply 401 (Msg "User not authorized"), st)) /\
  (forall post,
     Post_findById E st id = Ok (Some post) ->
     post_user post = tu_id user ->
     exists st',
       deletePost E id user st = (Reply 200 (Msg "Post removed!"), st') /\
       posts st' = delete id (posts st) /\
       forall reader,
         getPost E id reader st' = (Reply 404 (Msg "Post not found"), st')).
Proof.
  unfold deletePost. repeat split.
  - intros Hmissing.
    destruct (Post_findById_missing E st id Hmissing) as [-> | ->];
      reflexivity.
  - intros post -> Hne. simpl.
    apply String.eqb_neq in Hne. by rewrite Hne.
  - intros post Hfound Heq. rewrite Hfound. simpl.
    apply String.eqb_eq in Heq. rewrite Heq. simpl.
    exists (Post_remove st id). repeat split.
    intros reader. unfold getPost, Post_findById. simpl.
    apply Post_findById_found in Hfound as [-> _].
    by rewrite lookup_delete_eq.
Qed.

Lemma deletePost_spec_witness :
  deletePost sampleEnv "post9" alice sampleStore
    = (Reply 404 (Msg "Post not found"), sampleStore) /\
  deletePost sampleEnv "post1" bob sampleStore
    = (Reply 401 (Msg "User not authorized"), sampleStore) /\
  exists st',
    deletePost sampleEnv "post1" alice sampleStore
      = (Reply 200 (Msg "Post removed!"), st') /\
    posts st' = delete "post1" (posts sampleStore) /\
    forall reader,
      getPost sampleEnv "post1" reader st'
        = (Reply 404 (Msg "Post not found"), st').
Proof.
  destruct (deletePost_spec sampleEnv "post9" alice sampleStore)
    as [Habsent _].
  destruct (deletePost_spec sampleEnv "post1" bob sampleStore)
    as (_ & Hother & _).
  destruct (deletePost_spec sampleEnv "post1" alice sampleStore)
    as (_ & _ & Hown).
  split; [|split].
  - apply Habsent. right. reflexivity.
  - apply (Hother samplePost); [reflexivity | discriminate].
  - apply (Hown samplePost); reflexivity.
Defined.

(** C1: on a stored post, [removeComment] first looks up the comment whose
    id is the [comment_id] parameter. No such comment: 404, store
    unchanged. The comment belongs to someone else: 401, store unchanged.
    Otherwise the index to remove is the first position whose comment is
    owned by the caller, so the comment removed is the caller's first
    comment in the list: the answer is the list without it, and the post
    read back from the store holds that list, with nothing else changed.
    With several comments of the caller on a post it need not be the
    comment that was looked up. *)
Theorem removeComment_spec :
  (forall E id comment_id_param user st post,
     Post_findById E st id = Ok (Some post) ->
     let located :=
       List.find (fun c => String.eqb (comment_id c) comment_id_param)
         (post_comments post) in
     (located = None ->
      removeComment E id comment_id_param user st
        = (Reply 404 (Msg "Comment does not exist"), st)) /\
     (forall c, located = Some c -> comment_user c <> tu_id user ->
      removeComment E id comment_id_param user st
        = (Reply 401 (Msg "User not authorized"), st)) /\
     (forall c, located = Some c -> comment_user c = tu_id user ->
      exists (i : nat) (removed : Comment) (st' : Store),
        post_comments post !! i = Some removed /\
        comment_user removed = tu_id user /\
        (forall j c', (j < i)%nat -> post_comments post !! j = Some c' ->
                      comment_user c' <> tu_id user) /\
        removeComment E id comment_id_param user st
          = (Reply 200 (CommentsBody (delete i (post_comments post))), st') /\
        post_stored st st' id
          (mkPost (post_user post) (post_text post) (post_name post)
             (post_avatar post) (post_likes post)
             (delete i (post_comments post))) /\
        (forall reader,
           getPost E id reader st'
           = (Reply 200
                (PostBody id
                   (mkPost (post_user post) (post_text post) (post_name post)
                      (post_avatar post) (post_likes post)
                      (delete i (post_comments post)))), st')))) /\
  (exists E id comment_id_param user st post located removed remaining st',
     Post_findById E st id = Ok (Some post) /\
     List.find (fun c => String.eqb (comment_id c) comment_id_param)
       (post_comments post) = Some located /\
     comment_user located = tu_id user /\
     removeComment E id comment_id_param user st
       = (Reply 200 (CommentsBody remaining), st') /\
     (exists post',
        posts st' !! id = Some post' /\ post_comments post' = remaining) /\
     (removed ∈ post_comments post) /\
     (removed ∉ remaining) /\
     (located ∈ remaining) /\
     removed <> located).
Proof.
  split.
  - intros E id cid user st post Hfound located.
    unfold removeComment. rewrite Hfound. simpl. fold located.
    repeat split.
    + by intros ->.
    + intros c -> Hne. apply String.eqb_neq in Hne. by rewrite Hne.
    + intros c Hloc Howner. rewrite Hloc.
      apply String.eqb_eq in Howner as Howner'. rewrite Howner'. simpl.
      apply find_some in Hloc as [Hin _].
      assert (tu_id user ∈ List.map comment_user (post_comments post))
        as Hmem.
      { rewrite map_fmap, <- Howner.
        by apply list_elem_of_fmap_2, list_elem_of_In. }
      destruct (indexOf_present _ _ Hmem) as (i & Hi & Hlt).
      rewrite length_map in Hlt.
      destruct (indexOf_first _ _ _ Hi) as [Hat Hbefore].
      rewrite map_fmap, list_lookup_fmap in Hat.
      destruct (post_comments post !! i) as [removed|] eqn:Hrem;
        [|discriminate].
      injection Hat as Hat.
      exists i, removed. eexists. rewrite Hi, splice_at by done.
      split; [done|]. split; [done|]. split; [|split; [reflexivity|split]].
      * intros j c' Hj Hc' Heq. apply (Hbefore j Hj).
        by rewrite map_fmap, list_lookup_fmap, Hc', <- Heq.
      * apply Post_save_stored.
      * intros reader. unfold getPost.
        apply Post_findById_found in Hfound as [Hid _].
        unfold Post_findById. rewrite Hid. simpl.
        by rewrite lookup_insert_eq.
  - exists sampleEnv, "post1", "c2", alice, sampleStore, samplePost,
      commentB, commentA, [commentB; commentC].
    eexists. split; [reflexivity|]. split; [reflexivity|].
    split; [reflexivity|]. split; [reflexivity|]. split.
    { eexists. split; [simpl; apply lookup_insert_eq | reflexivity]. }
    split; [by left|]. split.
    + intros Hin. by repeat (apply elem_of_cons in Hin as [?|Hin];
        [discriminate|]); apply elem_of_nil in Hin.
    + split; [by left | discriminate].
Qed.

Lemma removeComment_spec_witness :
  removeComment sampleEnv "post1" "c9" alice sampleStore
    = (Reply 404 (Msg "Comment does not exist"), sampleStore) /\
  removeComment sampleEnv "post1" "c3" alice sampleStore
    = (Reply 401 (Msg "User not authorized"), sampleStore) /\
  exists (i : nat) (removed : Comment) (st' : Store),
    post_comments samplePost !! i = Some removed /\
    comment_user removed = tu_id alice /\
    (forall j c', (j < i)%nat -> post_comments samplePost !! j = Some c' ->
                  comment_user c' <> tu_id alice) /\
    removeComment sampleEnv "post1" "c2" alice sampleStore
      = (Reply 200 (CommentsBody (delete i (post_comments samplePost))), st')
    /\
    post_stored sampleStore st' "post1"
      (mkPost (post_user samplePost) (post_text samplePost)
         (post_name samplePost) (post_avatar samplePost)
         (post_likes samplePost) (delete i (post_comments samplePost))) /\
    (forall reader,
       getPost sampleEnv "post1" reader st'
       = (Reply 200
            (PostBody "post1"
               (mkPost (post_user samplePost) (post_text samplePost)
                  (post_name samplePost) (post_avatar samplePost)
                  (post_likes samplePost)
                  (delete i (post_comments samplePost)))), st')).
Proof.
  destruct removeComment_spec as [Hspec _].
  destruct (Hspec sampleEnv "post1" "c9" alice sampleStore samplePost)
    as (Hnone & _ & _); [reflexivity|].
  destruct (Hspec sampleEnv "post1" "c3" alice sampleStore samplePost)
    as (_ & Hother & _); [reflexivity|].
  destruct (Hspec sampleEnv "post1" "c2" alice sampleStore samplePost)
    as (_ & _ & Hown); [reflexivity|].
  split; [|split].
  - apply Hnone. reflexivity.
  - apply (Hother commentC); [reflexivity | discriminate].
  - apply (Hown commentB); reflexivity.
Defined.

(** ** The like list *)

Section Likes.

(** The guard of [likePost] and [unlikePost] counts the entries of the
    caller: the count is positive exactly when the caller is listed. *)
Lemma liked_count_pos user (likes : list Like) :
  (0 <? Z.of_nat (length (List.filter (likedBy user) likes))) = true <->
  tu_id user ∈ List.map like_user likes.
Proof.
  induction likes as [|like likes IH]; simpl.
  - split; [discriminate | intros H; by apply elem_of_nil in H].
  - unfold likedBy at 1.
    destruct (String.eqb_spec (like_user like) (tu_id user)) as [Heq|Hne].
    + simpl length. split; [intros _; rewrite Heq; left|].
      intros _. apply Z.ltb_lt. lia.
    + rewrite IH. split; [by right|].
      intros Hin. apply elem_of_cons in Hin as [Heq|Hin]; [congruence|done].
Qed.

Lemma liked_count_zero user (likes : list Like) :
  (Z.of_nat (length (List.filter (likedBy user) likes)) =? 0) = true <->
  tu_id user ∉ List.map like_user likes.
Proof.
  rewrite <- liked_count_pos.
  destruct (List.filter (likedBy user) likes); simpl length.
  - split; [by intros _ | done].
  - split; [intros H; apply Z.eqb_eq in H; lia|].
    intros H. exfalso. apply H. apply Z.ltb_lt. lia.
Qed.

Lemma filter_absent u (likes : list Like) :
  u ∉ like_user <$> likes ->
  List.filter (fun like => negb (String.eqb (like_user like) u)) likes
    = likes.
Proof.
  induction likes as [|like likes IH]; [done|]. cbn.
  intros Hnot. apply not_elem_of_cons in Hnot as [Hne Hnot].
  destruct (String.eqb_spec (like_user like) u) as [Heq|_]; [congruence|].
  simpl. by rewrite IH.
Qed.

(** In a list without repetition, deleting the entry of a user leaves
    exactly the entries of the other users. *)
Lemma delete_unique u (likes : list Like) i :
  NoDup (like_user <$> likes) ->
  (like_user <$> likes) !! i = Some u ->
  delete i likes
    = List.filter (fun like => negb (String.eqb (like_user like) u)) likes.
Proof.
  revert i. induction likes as [|like likes IH]; intros i Hnd Hi.
  - by destruct i.
  - cbn in Hnd. apply NoDup_cons in Hnd as [Hfresh Hnd].
    destruct i as [|i]; cbn in Hi |- *.
    + injection Hi as <-. rewrite String.eqb_refl. simpl.
      symmetry. by apply filter_absent.
    + destruct (String.eqb_spec (like_user like) u) as [Heq|_].
      * exfalso. apply Hfresh. rewrite Heq.
        by apply list_elem_of_lookup_2 in Hi.
      * simpl. f_equal. by apply IH.
Qed.

Lemma filter_not_liked user (likes : list Like) :
  tu_id user ∉
    List.map like_user
      (List.filter (fun like => negb (likedBy user like)) likes).
Proof.
  induction likes as [|like likes IH]; simpl.
  - apply not_elem_of_nil.
  - unfold likedBy at 1.
    destruct (String.eqb_spec (like_user like) (tu_id user)); simpl;
      [done|].
    apply not_elem_of_cons. split; [congruence | done].
Qed.

(** Whatever it removes, [splice] keeps the other elements in order. *)
Lemma splice_sublist {A} (l : list A) start deleteCount :
  Js.splice l start deleteCount `sublist_of` l.
Proof.
  unfold Js.splice.
  set (len := Z.of_nat (length l)).
  set (a := if start <? 0 then (len + start) `max` 0 else start `min` len).
  set (d := (deleteCount `max` 0) `min` (len - a)).
  assert (0 <= len) as Hlen by (unfold len; lia).
  assert (0 <= a <= len) as Ha
    by (unfold a; destruct (Z.ltb_spec start 0); lia).
  assert (0 <= d) as Hd by (unfold d; lia).
  rewrite <- (take_drop (Z.to_nat a) l) at 3.
  apply sublist_app; [done|].
  replace (Z.to_nat (a + d)) with (Z.to_nat a + Z.to_nat d)%nat by lia.
  rewrite <- drop_drop. apply sublist_drop.
Qed.

Lemma splice_likes_unique (likes : list Like) start deleteCount :
  NoDup (List.map like_user likes) ->
  NoDup (List.map like_user (Js.splice likes start deleteCount)).
Proof.
  rewrite !map_fmap. intros Hnd.
  eapply sublist_NoDup; [exact Hnd|].
  apply fmap_sublist, splice_sublist.
Qed.

Lemma likes_invariant_save st id p :
  likes_invariant st -> likes_unique p ->
  likes_invariant (Post_save st id p).
Proof.
  intros Hinv Hp id' p'. simpl. rewrite lookup_insert.
  case_decide; [by intros [= <-] | apply Hinv].
Qed.

Lemma likes_invariant_remove st id :
  likes_invariant st -> likes_invariant (Post_remove st id).
Proof.
  intros Hinv id' p'. simpl. rewrite lookup_delete.
  case_decide; [done | apply Hinv].
Qed.

Lemma likes_invariant_posts st st' :
  posts st' = posts st -> likes_invariant st -> likes_invariant st'.
Proof. unfold likes_invariant. by intros ->. Qed.

Lemma likes_invariant_found E st id post :
  likes_invariant st -> Post_findById E st id = Ok (Some post) ->
  likes_unique post.
Proof.
  intros Hinv Hfound. apply Post_findById_found in Hfound as [_ Hlook].
  by apply (Hinv id).
Qed.

End Likes.

Section LikesPreserved.
Variable E : Env.

Local Ltac by_cases :=
  repeat case_match; simplify_eq; simpl; eauto.

Lemma register_posts oid salt now body st :
  posts (snd (register E oid salt now body st)) = posts st.
Proof.
  unfold register. destruct (negb _); [done|].
  destruct (User_findOne_email st _); [done|]. simpl.
  destruct (Bcrypt_hash E _ salt); simpl; [|done].
  by destruct (jwt_sign E _ _ _ _).
Qed.

Lemma authenticate_posts now body st :
  posts (snd (authenticate E now body st)) = posts st.
Proof.
  unfold authenticate. destruct (negb _); [done|].
  destruct (User_findOne_email st _) as [[id u]|]; [|done]. simpl.
  destruct (Bcrypt_compare E _ _) as [[]|]; simpl; [|done|done].
  by destruct (jwt_sign E _ _ _ _).
Qed.

Lemma upsertProfile_posts oid body user st :
  posts (snd (upsertProfile oid body user st)) = posts st.
Proof. unfold upsertProfile, try_catch. by_cases. Qed.

Lemma removeExperience_posts i user st :
  posts (snd (removeExperience i user st)) = posts st.
Proof.
  unfold removeExperience.
  destruct (Profile_findOne_user st (tu_id user)) as [[id p]|]; done.
Qed.

Lemma removeEducation_posts i user st :
  posts (snd (removeEducation i user st)) = posts st.
Proof.
  unfold removeEducation.
  destruct (Profile_findOne_user st (tu_id user)) as [[id p]|]; done.
Qed.

Lemma createPost_likes oid text user st :
  likes_invariant st -> likes_invariant (snd (createPost oid text user st)).
Proof.
  intros Hinv. unfold createPost.
  destruct (negb _); [done|].
  destruct (User_findById st (tu_id user)) as [author|]; [|done].
  simpl. apply likes_invariant_save; [done|]. constructor.
Qed.

Lemma getPost_store id user st : snd (getPost E id user st) = st.
Proof.
  unfold getPost. destruct (Post_findById E st id) as [[post|]|e]; simpl;
    [done | done | by case_bool_decide].
Qed.

Lemma deletePost_likes id user st :
  likes_invariant st -> likes_invariant (snd (deletePost E id user st)).
Proof.
  intros Hinv. unfold deletePost.
  destruct (Post_findById E st id) as [[post|]|e]; simpl.
  - destruct (negb _); simpl; [done | by apply likes_invariant_remove].
  - done.
  - by case_bool_decide.
Qed.

Lemma likePost_likes id user st :
  likes_invariant st -> likes_invariant (snd (likePost E id user st)).
Proof.
  intros Hinv. unfold likePost.
  destruct (Post_findById E st id) as [[post|]|e] eqn:Hfound; simpl;
    [|done|done].
  destruct (0 <? _) eqn:Hcount; simpl; [done|].
  apply likes_invariant_save; [done|].
  unfold likes_unique. simpl. rewrite map_fmap. apply NoDup_cons. split.
  - rewrite <- map_fmap, <- liked_count_pos. by rewrite Hcount.
  - rewrite <- map_fmap. by apply (likes_invariant_found E st id).
Qed.

Lemma unlikePost_likes id user st :
  likes_invariant st -> likes_invariant (snd (unlikePost E id user st)).
Proof.
  intros Hinv. unfold unlikePost.
  destruct (Post_findById E st id) as [[post|]|e] eqn:Hfound; simpl;
    [|done|done].
  destruct (_ =? 0); simpl; [done|].
  apply likes_invariant_save; [done|].
  apply splice_likes_unique. by apply (likes_invariant_found E st id).
Qed.

Lemma addComment_likes cid id text user st :
  likes_invariant st ->
  likes_invariant (snd (addComment E cid id text user st)).
Proof.
  intros Hinv. unfold addComment.
  destruct (negb _); [done|].
  destruct (Post_findById E st id) as [[post|]|e] eqn:Hfound; simpl;
    destruct (User_findById st (tu_id user)); simpl; try done.
  apply likes_invariant_save; [done|].
  change (likes_unique post). by apply (likes_invariant_found E st id).
Qed.

Lemma removeComment_likes id cid user st :
  likes_invariant st ->
  likes_invariant (snd (removeComment E id cid user st)).
Proof.
  intros Hinv. unfold removeComment.
  destruct (Post_findById E st id) as [[post|]|e] eqn:Hfound; simpl;
    [|done|done].
  destruct (List.find _ _) as [c|]; [|done].
  destruct (negb _); simpl; [done|].
  apply likes_invariant_save; [done|].
  change (likes_unique post). by apply (likes_invariant_found E st id).
Qed.

(** Every operation of the service keeps the like lists free of
    repetition. *)
Lemma run_likes op st :
  likes_invariant st -> likes_invariant (snd (run E op st)).
Proof.
  intros Hinv. destruct op as [oid salt now body|now body|oid body user|
                                i user|i user|r user]; simpl.
  - apply (likes_invariant_posts st); [apply register_posts | done].
  - apply (likes_invariant_posts st); [apply authenticate_posts | done].
  - apply (likes_invariant_posts st); [apply upsertProfile_posts | done].
  - apply (likes_invariant_posts st); [apply removeExperience_posts | done].
  - apply (likes_invariant_posts st); [apply removeEducation_posts | done].
  - destruct r; simpl.
    + by apply createPost_likes.
    + by rewrite getPost_store.
    + by apply deletePost_likes.
    + by apply likePost_likes.
    + by apply unlikePost_likes.
    + by apply addComment_likes.
    + by apply removeComment_likes.
Qed.

Lemma reachable_likes st : reachable E st -> likes_invariant st.
Proof.
  induction 1 as [|st op _ IH].
  - intros id p. simpl. by rewrite lookup_empty.
  - by apply run_likes.
Qed.

End LikesPreserved.

Lemma sampleStore_likes : likes_invariant sampleStore.
Proof.
  intros id p Hlook. simpl in Hlook.
  apply lookup_singleton_Some in Hlook as [_ <-].
  unfold likes_unique. simpl.
  apply NoDup_cons. split; [apply not_elem_of_nil | constructor].
Qed.

(** ** middleware/auth *)

Lemma truthy_Some v :
  Js.truthy v = true <-> exists s, v = Some s /\ s <> "".
Proof.
  destruct v as [s|]; simpl.
  - rewrite negb_true_iff, String.eqb_neq. split.
    + intros Hs. by exists s.
    + by intros (s' & [= <-] & Hs).
  - split; [discriminate | by intros (s & ? & _)].
Qed.

Lemma truthy_omitted v : Js.truthy v = false <-> omitted v.
Proof.
  unfold omitted. destruct v as [s|]; simpl.
  - rewrite negb_false_iff, String.eqb_eq. split.
    + intros ->. by right.
    + by intros [?|[= ->]].
  - split; [by left | done].
Qed.

(** C4 (as stated): a request whose token header is present and empty
    carries a token that fails verification, and is answered
    "No token, authorization denied", not "Token is not valid". *)
Lemma auth_empty_token :
  header (requestWithToken "") "x-auth-token" = Some "" /\
  jwt_verify sampleEnv "" (jwtSecret sampleEnv) = None /\
  auth sampleEnv (requestWithToken "")
    = Rejected (Reply 401 (Msg "No token, authorization denied")) /\
  auth sampleEnv (requestWithToken "")
    <> Rejected (Reply 401 (Msg "Token is not valid")).
Proof. repeat split. discriminate. Qed.

(** C4 (amended): [auth] rejects with 401 "No token, authorization denied"
    when the token header is missing or empty, and with 401
    "Token is not valid" when it holds a non-empty token that fails
    verification; every rejection is a 401 and the handler of a private
    route is then not run; when the token verifies, the user of the
    decoded payload is attached to the request and the handler runs. *)
Theorem auth_spec E req :
  (omitted (header req "x-auth-token") ->
   auth E req = Rejected (Reply 401 (Msg "No token, authorization denied")))
  /\
  (forall token,
     header req "x-auth-token" = Some token -> token <> "" ->
     jwt_verify E token (jwtSecret E) = None ->
     auth E req = Rejected (Reply 401 (Msg "Token is not valid")))
  /\
  (forall r, auth E req = Rejected r ->
     statusOf r = Some 401 /\
     forall handler st, private E handler req st = (r, st))
  /\
  (forall token decoded,
     header req "x-auth-token" = Some token -> token <> "" ->
     jwt_verify E token (jwtSecret E) = Some decoded ->
     auth E req = Next (payload_user decoded) /\
     forall handler st,
       private E handler req st = handler (payload_user decoded) st).
Proof.
  assert (forall token, header req "x-auth-token" = Some token ->
            token <> "" -> Js.truthy (header req "x-auth-token") = true)
    as Htruthy by (intros; apply truthy_Some; eauto).
  unfold private, auth. split; [|split; [|split]].
  - intros Hom. apply truthy_omitted in Hom. by rewrite Hom.
  - intros token Hhd Hne Hbad.
    rewrite (Htruthy token), Hhd by done. simpl. by rewrite Hbad.
  - intros r Hrej. split; [|intros handler st; by rewrite Hrej].
    destruct (negb _); [by injection Hrej as <-|].
    destruct (jwt_verify _ _ _); [discriminate | by injection Hrej as <-].
  - intros token decoded Hhd Hne Hgood.
    rewrite (Htruthy token), Hhd by done. simpl. by rewrite Hgood.
Qed.

Lemma auth_spec_witness :
  auth sampleEnv (mkRequest ∅)
    = Rejected (Reply 401 (Msg "No token, authorization denied")) /\
  auth sampleEnv (requestWithToken "")
    = Rejected (Reply 401 (Msg "No token, authorization denied")) /\
  auth sampleEnv (requestWithToken "0123456789012345678901234567890")
    = Rejected (Reply 401 (Msg "Token is not valid")) /\
  (statusOf (Reply 401 (Msg "Token is not valid")) = Some 401 /\
   forall handler st,
     private sampleEnv handler
       (requestWithToken "0123456789012345678901234567890") st
     = (Reply 401 (Msg "Token is not valid"), st)) /\
  (auth sampleEnv (requestWithToken "u1") = Next alice /\
   forall handler st,
     private sampleEnv handler (requestWithToken "u1") st
     = handler alice st).
Proof.
  destruct (auth_spec sampleEnv (mkRequest ∅)) as (Hnone & _).
  destruct (auth_spec sampleEnv (requestWithToken "")) as (Hempty & _).
  destruct (auth_spec sampleEnv
              (requestWithToken "0123456789012345678901234567890"))
    as (_ & Hbad & Hrej & _).
  destruct (auth_spec sampleEnv (requestWithToken "u1"))
    as (_ & _ & _ & Hgood).
  split; [apply Hnone; by left|].
  split; [apply Hempty; by right|].
  split; [apply (Hbad _ eq_refl); [discriminate | reflexivity]|].
  split; [apply Hrej; reflexivity|].
  apply (Hgood "u1" (mkPayload alice) eq_refl); [discriminate | reflexivity].
Defined.

(** ** routes/api/profile: removing an entry *)

Lemma removeExperience_unknown exp_id_param user st id p :
  Profile_findOne_user st (tu_id user) = Some (id, p) ->
  exp_id_param ∉ List.map exp_id (experience p) ->
  removeExperience exp_id_param user st
    = (Reply 200 (ProfileBody id (setExperience p (removelast (experience p)))),
       Profile_save st id (setExperience p (removelast (experience p)))).
Proof.
  intros Hfound Habsent. unfold removeExperience. rewrite Hfound. simpl.
  apply indexOf_absent in Habsent. by rewrite Habsent, splice_minus_one.
Qed.

Lemma removeEducation_unknown edu_id_param user st id p :
  Profile_findOne_user st (tu_id user) = Some (id, p) ->
  edu_id_param ∉ List.map edu_id (education p) ->
  removeEducation edu_id_param user st
    = (Reply 200 (ProfileBody id (setEducation p (removelast (education p)))),
       Profile_save st id (setEducation p (removelast (education p)))).
Proof.
  intros Hfound Habsent. unfold removeEducation. rewrite Hfound. simpl.
  apply indexOf_absent in Habsent. by rewrite Habsent, splice_minus_one.
Qed.

(** Whenever the list is not empty, an unknown id shortens it by one. *)
Lemma removeExperience_unknown_shrinks exp_id_param user st id p :
  Profile_findOne_user st (tu_id user) = Some (id, p) ->
  exp_id_param ∉ List.map exp_id (experience p) ->
  experience p <> [] ->
  exists p',
    removeExperience exp_id_param user st
      = (Reply 200 (ProfileBody id p'), Profile_save st id p') /\
    S (length (experience p')) = length (experience p).
Proof.
  intros Hfound Habsent Hne. eexists.
  split; [by apply removeExperience_unknown|].
  simpl. by apply removelast_length.
Qed.

(** C2 (fails on the code): with an id that matches no entry, [indexOf]
    answers -1 and [splice(-1, 1)] removes the last entry of the list.
    On a profile with the experiences [e1; e2] and the education [d1], the
    unknown ids "e9" and "d9" remove e2 and d1: the profile answered and
    stored is not the one before the call. *)
Theorem removeExperience_unknown_id_removes_last :
  ("e9" ∉ List.map exp_id (experience sampleProfile)) /\
  removeExperience "e9" alice sampleStore
    = (Reply 200 (ProfileBody "p1" (setExperience sampleProfile [jobA])),
       Profile_save sampleStore "p1" (setExperience sampleProfile [jobA])) /\
  experience sampleProfile = [jobA; jobB] /\
  setExperience sampleProfile [jobA] <> sampleProfile /\
  ("d9" ∉ List.map edu_id (education sampleProfile)) /\
  removeEducation "d9" alice sampleStore
    = (Reply 200 (ProfileBody "p1" (setEducation sampleProfile [])),
       Profile_save sampleStore "p1" (setEducation sampleProfile [])) /\
  education sampleProfile = [schoolA] /\
  setEducation sampleProfile [] <> sampleProfile.
Proof.
  assert ("e9" ∉ List.map exp_id (experience sampleProfile)) as He.
  { simpl. intros Hin.
    repeat (apply elem_of_cons in Hin as [?|Hin]; [discriminate|]).
    by apply elem_of_nil in Hin. }
  assert ("d9" ∉ List.map edu_id (education sampleProfile)) as Hd.
  { simpl. intros Hin.
    repeat (apply elem_of_cons in Hin as [?|Hin]; [discriminate|]).
    by apply elem_of_nil in Hin. }
  split; [exact He|]. split.
  { by rewrite (removeExperience_unknown "e9" alice sampleStore "p1"
                  sampleProfile eq_refl He). }
  split; [reflexivity|]. split; [discriminate|].
  split; [exact Hd|]. split; [|split; [reflexivity | discriminate]].
  by rewrite (removeEducation_unknown "d9" alice sampleStore "p1"
                sampleProfile eq_refl Hd).
Qed.

(** ** [split] and [trim] *)

Section Strings.

Lemma append_String c s t : String c s ++ t = String c (s ++ t).
Proof. reflexivity. Qed.

Lemma append_Empty t : "" ++ t = t.
Proof. reflexivity. Qed.

Lemma split_nonempty sep s : Js.split sep s <> [].
Proof.
  destruct s as [|c s]; simpl; [done|].
  destruct (Ascii.eqb c sep); [done|].
  by destruct (Js.split sep s).
Qed.

(** Joining the segments with the separator gives the string back. *)
Lemma join_split sep s : Js.join sep (Js.split sep s) = s.
Proof.
  induction s as [|c s IH]; [done|]. simpl Js.split.
  pose proof (split_nonempty sep s) as Hne.
  destruct (Ascii.eqb_spec c sep) as [->|_].
  - destruct (Js.split sep s) as [|seg rest]; [done|].
    change (Js.join sep ("" :: seg :: rest))
      with ("" ++ String sep (Js.join sep (seg :: rest))).
    by rewrite append_Empty, IH.
  - destruct (Js.split sep s) as [|seg rest]; [done|].
    destruct rest as [|seg' rest].
    + simpl in *. by rewrite IH.
    + change (Js.join sep (String c seg :: seg' :: rest))
        with (String c seg ++ String sep (Js.join sep (seg' :: rest))).
      rewrite append_String. f_equal. exact IH.
Qed.

(** No segment holds the separator. *)
Lemma split_no_separator sep s :
  Forall (fun seg => contains sep seg = false) (Js.split sep s).
Proof.
  induction s as [|c s IH]; simpl.
  - by constructor.
  - destruct (Ascii.eqb_spec c sep) as [->|Hne].
    + by constructor.
    + destruct (Js.split sep s) as [|seg rest]; simpl.
      * constructor; [|done]. simpl.
        apply Ascii.eqb_neq in Hne. by rewrite Hne.
      * apply Forall_cons in IH as [Hseg Hrest].
        constructor; [|done]. simpl.
        apply Ascii.eqb_neq in Hne. by rewrite Hne.
Qed.

(** [trimStart] drops a prefix of white space, and all of it. *)
Lemma trimStart_spec s :
  exists l, s = l ++ Js.trimStart s /\ allWhiteSpace l = true /\
            startsWithWhiteSpace (Js.trimStart s) = false.
Proof.
  induction s as [|c s (l & Heq & Hl & Hstart)]; simpl.
  - by exists "".
  - destruct (Js.isWhiteSpace c) eqn:Hc.
    + exists (String c l). rewrite append_String.
      split; [by f_equal|]. split; [cbn; by rewrite Hc | done].
    + exists "". rewrite append_Empty. cbn. by rewrite Hc.
Qed.

(** [trimEnd] drops a suffix of white space, and all of it. *)
Lemma trimEnd_spec s :
  exists r, s = Js.trimEnd s ++ r /\ allWhiteSpace r = true /\
            endsWithWhiteSpace (Js.trimEnd s) = false.
Proof.
  induction s as [|c s (r & Heq & Hr & Hend)]; simpl.
  - by exists "".
  - destruct (Js.trimEnd s) as [|d t] eqn:Ht.
    + rewrite append_Empty in Heq. destruct (Js.isWhiteSpace c) eqn:Hc.
      * exists (String c r). rewrite append_Empty.
        split; [by f_equal|]. split; [cbn; by rewrite Hc | done].
      * exists r. rewrite !append_String, append_Empty.
        split; [by f_equal|]. split; [done | cbn; by rewrite Hc].
    + exists r. rewrite append_String.
      split; [by f_equal|]. split; [done|]. exact Hend.
Qed.

Lemma trimEnd_start s :
  startsWithWhiteSpace s = false ->
  startsWithWhiteSpace (Js.trimEnd s) = false.
Proof.
  destruct s as [|c s]; simpl; [done|]. intros Hc.
  destruct (Js.trimEnd s); [by rewrite Hc | done].
Qed.

(** [trim] keeps the part of the string between the leading and the
    trailing white space. *)
Lemma trim_spec s :
  exists l r, s = l ++ Js.trim s ++ r /\
              allWhiteSpace l = true /\ allWhiteSpace r = true /\
              startsWithWhiteSpace (Js.trim s) = false /\
              endsWithWhiteSpace (Js.trim s) = false.
Proof.
  unfold Js.trim.
  destruct (trimStart_spec s) as (l & Hl & Hwl & Hstart).
  destruct (trimEnd_spec (Js.trimStart s)) as (r & Hr & Hwr & Hend).
  exists l, r. rewrite <- Hr, <- Hl.
  split; [done|]. split; [done|]. split; [done|]. split; [|done].
  by apply trimEnd_start.
Qed.

End Strings.

(** ** routes/api/profile: the upsert *)

Section Upsert.



Lemma validProfileInput_passes body :
  validProfileInput body ->
  Validator.isEmpty
    (Validator.validationResult
       [ (Validator.notEmpty (in_status body), "Status is required");
         (Validator.notEmpty (in_skills body), "Skill is required") ])
  = true.
Proof. intros [Hstatus Hskills]. by rewrite Hstatus, Hskills. Qed.

Lemma upsertProfile_existing oid body user st id p :
  validProfileInput body ->
  Profile_findOne_user st (tu_id user) = Some (id, p) ->
  upsertProfile oid body user st
    = (Reply 200 (ProfileBody id (applySet (buildProfileFields user body) p)),
       Profile_save st id (applySet (buildProfileFields user body) p)).
Proof.
  intros Hvalid Hfound. unfold upsertProfile.
  rewrite (validProfileInput_passes body Hvalid). simpl.
  by rewrite Hfound.
Qed.

Lemma upsertProfile_created oid body user st :
  validProfileInput body ->
  Profile_findOne_user st (tu_id user) = None ->
  upsertProfile oid body user st
    = (Reply 200 (ProfileBody oid (newProfile (buildProfileFields user body))),
       Profile_save st oid (newProfile (buildProfileFields user body))).
Proof.
  intros Hvalid Hfound. unfold upsertProfile.
  rewrite (validProfileInput_passes body Hvalid). simpl.
  by rewrite Hfound.
Qed.

Lemma notEmpty_Some s : s <> "" -> Validator.notEmpty (Some s) = true.
Proof.
  intros Hs. unfold Validator.notEmpty. simpl.
  apply String.eqb_neq in Hs. by rewrite Hs.
Qed.

End Upsert.




(** C8: an upsert that passes the checks stores, as the skills of the
    profile, the list obtained by splitting the skills string on commas
    and trimming each segment, in the order of the string: the segments
    joined by commas are the input and hold no comma, and each skill is
    its segment without the leading and trailing white space. The input
    "a, b ,c" gives the list "a", "b", "c". *)
Theorem upsertProfile_skills oid body user st s :
  Validator.notEmpty (in_status body) = true ->
  in_skills body = Some s -> s <> "" ->
  (exists id p,
     upsertProfile oid body user st
       = (Reply 200 (ProfileBody id p), Profile_save st id p) /\
     profiles (Profile_save st id p) !! id = Some p /\
     skills p = Some (List.map Js.trim (Js.split "," s))) /\
  Js.join "," (Js.split "," s) = s /\
  Forall (fun seg => contains "," seg = false) (Js.split "," s) /\
  (forall seg, exists l r,
     seg = l ++ Js.trim seg ++ r /\
     allWhiteSpace l = true /\ allWhiteSpace r = true /\
     startsWithWhiteSpace (Js.trim seg) = false /\
     endsWithWhiteSpace (Js.trim seg) = false) /\
  List.map Js.trim (Js.split "," "a, b ,c") = ["a"; "b"; "c"].
Proof.
  intros Hstatus Hskills Hs.
  assert (validProfileInput body) as Hvalid.
  { split; [done|]. rewrite Hskills. by apply notEmpty_Some. }
  assert (pf_skills (buildProfileFields user body)
          = Some (List.map Js.trim (Js.split "," s))) as Hpf.
  { simpl. rewrite Hskills. simpl.
    apply String.eqb_neq in Hs. by rewrite Hs. }
  split; [|split; [apply join_split|split; [apply split_no_separator|]]].
  - destruct (Profile_findOne_user st (tu_id user)) as [[id p]|] eqn:Hfound.
    + exists id, (applySet (buildProfileFields user body) p).
      split; [by apply upsertProfile_existing|].
      split; [simpl; apply lookup_insert_eq|].
      unfold applySet. cbn [skills]. by rewrite Hpf.
    + exists oid, (newProfile (buildProfileFields user body)).
      split; [by apply upsertProfile_created|].
      split; [simpl; apply lookup_insert_eq|].
      unfold newProfile. cbn [skills]. exact Hpf.
  - split; [apply trim_spec | reflexivity].
Qed.

Lemma upsertProfile_skills_witness :
  (exists id p,
     upsertProfile "p2" minimalInput alice sampleStore
       = (Reply 200 (ProfileBody id p), Profile_save sampleStore id p) /\
     profiles (Profile_save sampleStore id p) !! id = Some p /\
     skills p = Some (List.map Js.trim (Js.split "," "a, b ,c"))) /\
  Js.join "," (Js.split "," "a, b ,c") = "a, b ,c" /\
  Forall (fun seg => contains "," seg = false) (Js.split "," "a, b ,c") /\
  (forall seg, exists l r,
     seg = l ++ Js.trim seg ++ r /\
     allWhiteSpace l = true /\ allWhiteSpace r = true /\
     startsWithWhiteSpace (Js.trim seg) = false /\
     endsWithWhiteSpace (Js.trim seg) = false) /\
  List.map Js.trim (Js.split "," "a, b ,c") = ["a"; "b"; "c"].
Proof.
  apply (upsertProfile_skills "p2" minimalInput alice sampleStore "a, b ,c").
  - reflexivity.
  - reflexivity.
  - discriminate.
Defined.

(** ** routes/api/users and routes/api/auth *)

Section Accounts.
Variable E : Env.

Lemma validCredentials_passes body :
  validCredentials E body ->
  Validator.isEmpty
    (Validator.validationResult
       [ (Validator.notEmpty (body_name body), "Name is required");
         (isEmail E (Validator.value (body_email body)),
          "Please include a valid email");
         (Validator.isLength 6 (Validator.shown (body_password body)),
          "Please enter a password with 6 or more characters") ])
  = true.
Proof. intros (Hname & Hemail & Hpw). by rewrite Hname, Hemail, Hpw. Qed.

Lemma validLogin_passes body :
  validLogin E body ->
  Validator.isEmpty
    (Validator.validationResult
       [ (isEmail E (Validator.value (body_email body)),
          "Please include a valid email");
         (Validator.exists_ (Validator.shown (body_password body)),
          "Password is required") ])
  = true.
Proof. intros (Hemail & Hpw). by rewrite Hemail, Hpw. Qed.

Lemma validCredentials_login body :
  validCredentials E body -> validLogin E body.
Proof.
  intros (_ & Hemail & Hpw). split; [done|].
  destruct (body_password body) as [[s|text]|]; [done | done | discriminate].
Qed.

(** A saved user is found by its email. *)
Lemma User_save_found st oid user :
  User_findOne_email (User_save st oid user) (user_email user) <> None.
Proof.
  intros Hnone.
  pose proof (findOne_None _ _ Hnone oid user) as Hq. simpl in Hq.
  rewrite lookup_insert_eq, String.eqb_refl in Hq.
  by specialize (Hq eq_refl).
Qed.

(** When no stored user had the email, the saved user is the one found. *)
Lemma User_save_found_unique st oid user id u :
  User_findOne_email st (user_email user) = None ->
  User_findOne_email (User_save st oid user) (user_email user) = Some (id, u)
  -> id = oid /\ u = user.
Proof.
  intros Hnone Hsome. apply findOne_Some in Hsome as [Hlook Hq].
  simpl in Hlook. rewrite lookup_insert in Hlook.
  case_decide as Hid; [by injection Hlook as <-|].
  pose proof (findOne_None _ _ Hnone id u Hlook) as Hq'. simpl in Hq'.
  congruence.
Qed.

Lemma register_taken oid salt now body st existing :
  validCredentials E body ->
  User_findOne_email st (Validator.value (body_email body)) = Some existing ->
  register E oid salt now body st
    = (Reply 400 (Errors ["User already exists"]), st).
Proof.
  intros Hvalid Hfound. unfold register.
  rewrite (validCredentials_passes body Hvalid). simpl.
  by rewrite Hfound.
Qed.

Lemma register_fresh oid salt now body st password token :
  validCredentials E body ->
  body_password body = Some (Str password) ->
  User_findOne_email st (Validator.value (body_email body)) = None ->
  jwt_sign E (mkPayload (mkTokenUser oid)) (jwtSecret E) 360000 now
    = Some token ->
  register E oid salt now body st
    = (Reply 200 (TokenBody token),
       User_save st oid
         (mkUser (Validator.value (body_name body))
            (Validator.value (body_email body))
            (gravatar_url E (Validator.value (body_email body)))
            (bcrypt_hash E password salt))).
Proof.
  intros Hvalid Hpw Hfound Hsign. unfold register.
  rewrite (validCredentials_passes body Hvalid). simpl.
  rewrite Hfound, Hpw. simpl. by rewrite Hsign.
Qed.

(** A password that is not a string makes [bcrypt.hash] throw: the
    [catch] block is entered, no response is sent, nothing is stored. *)
Lemma register_not_string oid salt now body st :
  validCredentials E body ->
  User_findOne_email st (Validator.value (body_email body)) = None ->
  (forall password, body_password body <> Some (Str password)) ->
  register E oid salt now body st = (Unhandled, st).
Proof.
  intros Hvalid Hfound Hpw. unfold register.
  rewrite (validCredentials_passes body Hvalid). simpl.
  rewrite Hfound.
  destruct (body_password body) as [[s|text]|]; simpl; try done.
  by destruct (Hpw s).
Qed.

Lemma authenticate_unknown now body st :
  validLogin E body ->
  User_findOne_email st (Validator.value (body_email body)) = None ->
  authenticate E now body st
    = (Reply 400 (Errors ["Invalid Credentials"]), st).
Proof.
  intros Hvalid Hfound. unfold authenticate.
  rewrite (validLogin_passes body Hvalid). simpl.
  by rewrite Hfound.
Qed.

Lemma authenticate_mismatch now body st id user password :
  validLogin E body ->
  User_findOne_email st (Validator.value (body_email body)) = Some (id, user) ->
  body_password body = Some (Str password) ->
  bcrypt_compare E password (user_password user) = false ->
  authenticate E now body st
    = (Reply 400 (Errors ["Invalid Credentials"]), st).
Proof.
  intros Hvalid Hfound Hpw Hcmp. unfold authenticate.
  rewrite (validLogin_passes body Hvalid). simpl.
  rewrite Hfound, Hpw. simpl. by rewrite Hcmp.
Qed.

Lemma authenticate_match now body st id user password token :
  validLogin E body ->
  User_findOne_email st (Validator.value (body_email body)) = Some (id, user) ->
  body_password body = Some (Str password) ->
  bcrypt_compare E password (user_password user) = true ->
  jwt_sign E (mkPayload (mkTokenUser id)) (jwtSecret E) 360000 now
    = Some token ->
  authenticate E now body st = (Reply 200 (TokenBody token), st).
Proof.
  intros Hvalid Hfound Hpw Hcmp Hsign. unfold authenticate.
  rewrite (validLogin_passes body Hvalid). simpl.
  rewrite Hfound, Hpw. simpl. by rewrite Hcmp, Hsign.
Qed.

(** A password that is not a string makes [bcrypt.compare] throw once a
    user is found: no response is sent. *)
Lemma authenticate_not_string now body st id user :
  validLogin E body ->
  User_findOne_email st (Validator.value (body_email body)) = Some (id, user) ->
  (forall password, body_password body <> Some (Str password)) ->
  authenticate E now body st = (Unhandled, st).
Proof.
  intros Hvalid Hfound Hpw. unfold authenticate.
  rewrite (validLogin_passes body Hvalid). simpl.
  rewrite Hfound.
  destruct (body_password body) as [[s|text]|]; simpl; try done.
  by destruct (Hpw s).
Qed.

End Accounts.

(** C9 (as stated): a registration whose password is the number 1234567
    passes the checks, and no stored user has its email; yet no response
    is sent and no user is stored, because [bcrypt.hash] throws on a
    value that is not a string. *)
Lemma register_numeric_password :
  validCredentials sampleEnv (numericLogin "mallory@example.com") /\
  User_findOne_email sampleStore "mallory@example.com" = None /\
  register sampleEnv "u3" "s" 0 (numericLogin "mallory@example.com")
    sampleStore = (Unhandled, sampleStore) /\
  (forall token st',
     register sampleEnv "u3" "s" 0 (numericLogin "mallory@example.com")
       sampleStore <> (Reply 200 (TokenBody token), st')).
Proof.
  split; [by repeat split|]. split; [reflexivity|].
  split; [reflexivity|]. intros token st'. discriminate.
Qed.

(** C9 (amended): a registration that passes the checks answers 400 when
    a stored user has the email; otherwise, when its password is a
    string, it stores the new user under the minted id with the hash of
    the password, leaves every other document as it was, and answers the
    token signed for the payload [{ user: { id } }] with an expiry of 100
    hours, 360000 seconds; registering the same email again then answers
    400. *)
Theorem register_spec E oid salt now body st :
  validCredentials E body ->
  (forall existing,
     User_findOne_email st (Validator.value (body_email body)) = Some existing ->
     register E oid salt now body st
       = (Reply 400 (Errors ["User already exists"]), st)) /\
  (forall password token,
     body_password body = Some (Str password) ->
     User_findOne_email st (Validator.value (body_email body)) = None ->
     jwt_sign E (mkPayload (mkTokenUser oid)) (jwtSecret E) (100 * 60 * 60)
       now = Some token ->
     exists st',
       register E oid salt now body st = (Reply 200 (TokenBody token), st') /\
       users st' !! oid
         = Some (mkUser (Validator.value (body_name body))
                   (Validator.value (body_email body))
                   (gravatar_url E (Validator.value (body_email body)))
                   (bcrypt_hash E password salt))
       /\
       (forall id, id <> oid -> users st' !! id = users st !! id) /\
       profiles st' = profiles st /\
       posts st' = posts st /\
       forall oid' salt' now' body',
         validCredentials E body' ->
         Validator.value (body_email body') = Validator.value (body_email body)
         ->
         register E oid' salt' now' body' st'
           = (Reply 400 (Errors ["User already exists"]), st')).
Proof.
  intros Hvalid. split.
  - intros existing Hfound. by apply (register_taken E _ _ _ _ _ existing).
  - intros password token Hpw Hnone Hsign.
    change (100 * 60 * 60) with 360000 in Hsign.
    eexists. split; [by apply (register_fresh E _ _ _ _ _ password)|].
    split; [simpl; apply lookup_insert_eq|].
    split; [intros id Hid; simpl; by apply lookup_insert_ne|].
    split; [done|]. split; [done|].
    intros oid' salt' now' body' Hvalid' Hemail.
    match goal with
    | |- context [User_save st oid ?u] =>
        destruct (User_findOne_email (User_save st oid u)
                    (Validator.value (body_email body'))) as [existing|]
          eqn:Hagain
    end.
    + by apply (register_taken E _ _ _ _ _ existing).
    + exfalso. rewrite Hemail in Hagain.
      by apply User_save_found in Hagain.
Qed.

Lemma register_spec_witness :
  register sampleEnv "u3" "s" 7 aliceCredentials sampleStore
    = (Reply 400 (Errors ["User already exists"]), sampleStore) /\
  exists st',
    register sampleEnv "u3" "s" 7 carolCredentials sampleStore
      = (Reply 200 (TokenBody "u3"), st') /\
    users st' !! "u3"
      = Some (mkUser "Carol" "carol@example.com"
                "//www.gravatar.com/avatar/carol@example.com" "sabcdef") /\
    (forall id, id <> "u3" -> users st' !! id = users sampleStore !! id) /\
    profiles st' = profiles sampleStore /\
    posts st' = posts sampleStore /\
    forall oid' salt' now' body',
      validCredentials sampleEnv body' ->
      Validator.value (body_email body')
        = Validator.value (body_email carolCredentials) ->
      register sampleEnv oid' salt' now' body' st'
        = (Reply 400 (Errors ["User already exists"]), st').
Proof.
  destruct (register_spec sampleEnv "u3" "s" 7 aliceCredentials sampleStore)
    as [Htaken _]; [by repeat split|].
  destruct (register_spec sampleEnv "u3" "s" 7 carolCredentials sampleStore)
    as [_ Hfresh]; [by repeat split|].
  split; [apply (Htaken ("u1", aliceUser)); reflexivity|].
  apply (Hfresh "abcdef"); reflexivity.
Defined.

(** C5 (as stated): with the number 1234567 as password, a login for an
    email that no user has answers 400 "Invalid Credentials", and a login
    for the email of a stored user sends no response, because
    [bcrypt.compare] throws on a value that is not a string: the two
    failures are told apart. *)
Lemma authenticate_numeric_password :
  validLogin sampleEnv (numericLogin "carol@example.com") /\
  validLogin sampleEnv (numericLogin "alice@example.com") /\
  User_findOne_email sampleStore "carol@example.com" = None /\
  User_findOne_email sampleStore "alice@example.com"
    = Some ("u1", aliceUser) /\
  authenticate sampleEnv 0 (numericLogin "carol@example.com") sampleStore
    = (Reply 400 (Errors ["Invalid Credentials"]), sampleStore) /\
  authenticate sampleEnv 0 (numericLogin "alice@example.com") sampleStore
    = (Unhandled, sampleStore) /\
  fst (authenticate sampleEnv 0 (numericLogin "carol@example.com")
         sampleStore)
  <> fst (authenticate sampleEnv 0 (numericLogin "alice@example.com")
            sampleStore).
Proof.
  split; [by split|]. split; [by split|]. split; [reflexivity|].
  split; [reflexivity|]. split; [reflexivity|]. split; [reflexivity|].
  discriminate.
Qed.

(** C5 (amended): a login that passes the checks and whose password is a
    string answers 400 with the one message "Invalid Credentials" both
    when no stored user has the email and when the password does not
    match the stored hash, so the two answers are equal whatever the
    stores, the forms and the times, and a form gets the same answer from
    a store without the email and from a store where its password is
    wrong whether or not it passes the checks; when both checks pass it
    answers the token signed for [{ user: { id } }] with the expiry of
    registration, and a user who has just registered and logs in is
    answered a token signed for the id of the registration. *)
Theorem authenticate_spec :
  (forall E now body st,
     validLogin E body ->
     (User_findOne_email st (Validator.value (body_email body)) = None ->
      authenticate E now body st
        = (Reply 400 (Errors ["Invalid Credentials"]), st)) /\
     (forall id user password,
        User_findOne_email st (Validator.value (body_email body))
          = Some (id, user) ->
        body_password body = Some (Str password) ->
        bcrypt_compare E password (user_password user) = false ->
        authenticate E now body st
          = (Reply 400 (Errors ["Invalid Credentials"]), st)) /\
     (forall id user password token,
        User_findOne_email st (Validator.value (body_email body))
          = Some (id, user) ->
        body_password body = Some (Str password) ->
        bcrypt_compare E password (user_password user) = true ->
        jwt_sign E (mkPayload (mkTokenUser id)) (jwtSecret E) 360000 now
          = Some token ->
        authenticate E now body st = (Reply 200 (TokenBody token), st))) /\
  (forall E now1 now2 body1 st1 body2 st2,
     validLogin E body1 -> validLogin E body2 ->
     unknownEmail body1 st1 -> wrongPassword E body2 st2 ->
     fst (authenticate E now1 body1 st1)
     = fst (authenticate E now2 body2 st2)) /\
  (forall E now1 now2 body st1 st2,
     unknownEmail body st1 -> wrongPassword E body st2 ->
     fst (authenticate E now1 body st1)
     = fst (authenticate E now2 body st2)) /\
  (forall E oid salt now body st token st' password now' token',
     validCredentials E body ->
     register E oid salt now body st = (Reply 200 (TokenBody token), st') ->
     body_password body = Some (Str password) ->
     bcrypt_compare E password (bcrypt_hash E password salt) = true ->
     jwt_sign E (mkPayload (mkTokenUser oid)) (jwtSecret E) 360000 now'
       = Some token' ->
     authenticate E now' body st' = (Reply 200 (TokenBody token'), st')).
Proof.
  split; [|split; [|split]].
  - intros E now body st Hvalid. split; [|split].
    + by apply authenticate_unknown.
    + intros id user password. by apply authenticate_mismatch.
    + intros id user password token. by apply authenticate_match.
  - intros E now1 now2 body1 st1 body2 st2 Hv1 Hv2 Hnone
      (id & user & password & Hsome & Hpw & Hcmp).
    rewrite (authenticate_unknown E now1 body1 st1 Hv1 Hnone).
    by rewrite (authenticate_mismatch E now2 body2 st2 id user password
                  Hv2 Hsome Hpw Hcmp).
  - intros E now1 now2 body st1 st2 Hnone
      (id & user & password & Hsome & Hpw & Hcmp).
    unfold unknownEmail in Hnone. unfold authenticate.
    destruct (negb _); [done|]. simpl.
    rewrite Hnone, Hsome, Hpw. simpl. by rewrite Hcmp.
  - intros E oid salt now body st token st' password now' token'
      Hvalid Hreg Hpw Hcmp Hsign.
    destruct (User_findOne_email st (Validator.value (body_email body)))
      as [existing|] eqn:Hfound.
    { by rewrite (register_taken E oid salt now body st existing) in Hreg. }
    destruct (jwt_sign E (mkPayload (mkTokenUser oid)) (jwtSecret E) 360000
                now) as [token0|] eqn:Hsign0.
    2: { unfold register in Hreg.
         rewrite (validCredentials_passes E body Hvalid) in Hreg.
         simpl in Hreg. rewrite Hfound, Hpw in Hreg. simpl in Hreg.
         by rewrite Hsign0 in Hreg. }
    rewrite (register_fresh E oid salt now body st password token0) in Hreg
      by done.
    injection Hreg as _ <-.
    match goal with
    | |- context [User_save st oid ?u] => set (user := u)
    end.
    destruct (User_findOne_email (User_save st oid user)
                (Validator.value (body_email body))) as [[id u]|] eqn:Hagain.
    + destruct (User_save_found_unique st oid user id u Hfound Hagain)
        as [-> ->].
      apply (authenticate_match E now' body _ oid user password);
        [by apply validCredentials_login | done | done | done | done].
    + by apply (User_save_found st oid user) in Hagain.
Qed.

Lemma authenticate_spec_witness :
  authenticate sampleEnv 9 carolCredentials sampleStore
    = (Reply 400 (Errors ["Invalid Credentials"]), sampleStore) /\
  authenticate sampleEnv 9
    (mkCredentials None (Some "alice@example.com") (Some (Str "wrong")))
    sampleStore
    = (Reply 400 (Errors ["Invalid Credentials"]), sampleStore) /\
  authenticate sampleEnv 9 aliceCredentials sampleStore
    = (Reply 200 (TokenBody "u1"), sampleStore) /\
  fst (authenticate sampleEnv 8 carolCredentials sampleStore)
    = fst (authenticate sampleEnv 9
             (mkCredentials None (Some "alice@example.com")
                (Some (Str "wrong")))
             sampleStore) /\
  authenticate sampleEnv 9 carolCredentials
    (snd (register sampleEnv "u3" "s" 7 carolCredentials sampleStore))
    = (Reply 200 (TokenBody "u3"),
       snd (register sampleEnv "u3" "s" 7 carolCredentials sampleStore)).
Proof.
  destruct authenticate_spec as (Hcases & Hsame & _ & Hround).
  destruct (Hcases sampleEnv 9 carolCredentials sampleStore)
    as (Hunknown & _ & _); [by split|].
  destruct (Hcases sampleEnv 9
              (mkCredentials None (Some "alice@example.com")
                 (Some (Str "wrong")))
              sampleStore) as (_ & Hwrong & _); [by split|].
  destruct (Hcases sampleEnv 9 aliceCredentials sampleStore)
    as (_ & _ & Hright); [by split|].
  split; [apply Hunknown; reflexivity|].
  split; [apply (Hwrong "u1" aliceUser "wrong"); reflexivity|].
  split; [apply (Hright "u1" aliceUser "123456" "u1"); reflexivity|].
  split.
  - apply (Hsame sampleEnv 8 9 carolCredentials sampleStore
             (mkCredentials None (Some "alice@example.com")
                (Some (Str "wrong")))
             sampleStore); [by split | by split | reflexivity |].
    exists "u1", aliceUser, "wrong". by repeat split.
  - apply (Hround sampleEnv "u3" "s" 7 carolCredentials sampleStore "u3" _
             "abcdef" 9 "u3");
      [by repeat split | reflexivity | reflexivity | reflexivity
      | reflexivity].
Defined.

(** * Further properties of the handlers *)

(** ** Saving and reading back *)

Section SaveFacts.

Lemma setLikes_same p : setLikes p (post_likes p) = p.
Proof. by destruct p. Qed.

Lemma setComments_same p : setComments p (post_comments p) = p.
Proof. by destruct p. Qed.

Lemma setLikes_twice p l1 l2 : setLikes (setLikes p l1) l2 = setLikes p l2.
Proof. reflexivity. Qed.

Lemma setComments_twice p l1 l2 :
  setComments (setComments p l1) l2 = setComments p l2.
Proof. reflexivity. Qed.

Lemma setExperience_twice p l1 l2 :
  setExperience (setExperience p l1) l2 = setExperience p l2.
Proof. reflexivity. Qed.

Lemma setEducation_twice p l1 l2 :
  setEducation (setEducation p l1) l2 = setEducation p l2.
Proof. reflexivity. Qed.

Lemma setExperience_same p : setExperience p (experience p) = p.
Proof. by destruct p. Qed.

Lemma setEducation_same p : setEducation p (education p) = p.
Proof. by destruct p. Qed.

(** Saving back the document that was stored undoes a save. *)
Lemma Post_save_restore st id p p' :
  posts st !! id = Some p -> Post_save (Post_save st id p') id p = st.
Proof.
  intros Hlook. destruct st as [us ps po]. unfold Post_save. simpl in *.
  f_equal. rewrite insert_insert_eq. by apply insert_id.
Qed.

Lemma Profile_save_restore st id p p' :
  profiles st !! id = Some p ->
  Profile_save (Profile_save st id p') id p = st.
Proof.
  intros Hlook. destruct st as [us ps po]. unfold Profile_save. simpl in *.
  f_equal. rewrite insert_insert_eq. by apply insert_id.
Qed.

Lemma Post_findById_saved E st id p :
  isObjectId E id = true ->
  Post_findById E (Post_save st id p) id = Ok (Some p).
Proof.
  intros Hid. unfold Post_findById. rewrite Hid. simpl.
  by rewrite lookup_insert_eq.
Qed.

Lemma notEmpty_passes (v : option string) msg :
  Validator.notEmpty v = true ->
  Validator.isEmpty (Validator.validationResult [ (Validator.notEmpty v, msg) ])
  = true.
Proof. by intros ->. Qed.

Lemma notEmpty_fails (v : option string) msg :
  Validator.notEmpty v = false ->
  Validator.validationResult [ (Validator.notEmpty v, msg) ] = [msg].
Proof. by intros ->. Qed.

(** The profile of a user is the one found after a save under its id, as
    long as no other document belongs to the user. *)
Lemma Profile_findOne_saved st u id p' :
  (forall id2 p2, profiles st !! id2 = Some p2 -> profile_user p2 = u ->
                  id2 = id) ->
  profile_user p' = u ->
  Profile_findOne_user (Profile_save st id p') u = Some (id, p').
Proof.
  intros Honly Hu.
  destruct (Profile_findOne_user (Profile_save st id p') u)
    as [[id2 p2]|] eqn:Hfound.
  - apply findOne_Some in Hfound as [Hlook Hq]. simpl in Hlook.
    apply String.eqb_eq in Hq. rewrite lookup_insert in Hlook.
    case_decide as Hid.
    + injection Hlook as <-. by subst.
    + by rewrite (Honly id2 p2 Hlook Hq) in Hid.
  - pose proof (findOne_None _ _ Hfound id p') as Hq. simpl in Hq.
    rewrite lookup_insert_eq, Hu, String.eqb_refl in Hq.
    by specialize (Hq eq_refl).
Qed.

Lemma Profile_findOne_only st u id p :
  one_profile_per_user st ->
  Profile_findOne_user st u = Some (id, p) ->
  forall id2 p2, profiles st !! id2 = Some p2 -> profile_user p2 = u ->
                 id2 = id.
Proof.
  intros Hone Hfound id2 p2 Hlook2 Hu.
  apply findOne_Some in Hfound as [Hlook Hq]. apply String.eqb_eq in Hq.
  apply (Hone id2 id p2 p); congruence.
Qed.

Lemma Profile_findOne_none st u :
  Profile_findOne_user st u = None ->
  forall id2 p2, profiles st !! id2 = Some p2 -> profile_user p2 <> u.
Proof.
  intros Hnone id2 p2 Hlook.
  pose proof (findOne_None _ _ Hnone id2 p2 Hlook) as Hq. simpl in Hq.
  by apply String.eqb_neq.
Qed.

End SaveFacts.

(** ** routes/api/posts: creating and commenting *)

(** X1: [createPost] answers 400 "Text is required" when the text is
    missing or empty and 500 when the caller has no user document, both
    with the store unchanged; otherwise it stores, under the minted id, a
    post with the caller as owner, the text, the author's name and avatar
    and no like or comment, which [getPost] of that id then answers; no
    other post, user or profile changes. *)
Theorem createPost_spec E oid text user st :
  (Validator.notEmpty text = false ->
   createPost oid text user st
     = (Reply 400 (Errors ["Text is required"]), st)) /\
  (Validator.notEmpty text = true ->
   User_findById st (tu_id user) = None ->
   createPost oid text user st = (Reply 500 (Text "Server Error"), st)) /\
  (forall author,
     Validator.notEmpty text = true ->
     User_findById st (tu_id user) = Some author ->
     exists post st',
       post = mkPost (tu_id user) (Validator.value text)
                (user_name author) (user_avatar author) [] [] /\
       createPost oid text user st = (Reply 200 (PostBody oid post), st') /\
       (isObjectId E oid = true ->
        forall reader,
          getPost E oid reader st' = (Reply 200 (PostBody oid post), st')) /\
       (forall id, id <> oid -> posts st' !! id = posts st !! id) /\
       users st' = users st /\ profiles st' = profiles st).
Proof.
  unfold createPost. split; [|split].
  - intros Htext. by rewrite (notEmpty_fails text _ Htext).
  - intros Htext Hnone. rewrite (notEmpty_passes text _ Htext). simpl.
    by rewrite Hnone.
  - intros author Htext Hsome. rewrite (notEmpty_passes text _ Htext).
    simpl. rewrite Hsome. simpl.
    eexists. eexists. split; [reflexivity|]. split; [reflexivity|].
    split; [|split; [|done]].
    + intros Hid reader. unfold getPost.
      by rewrite Post_findById_saved.
    + intros id Hne. simpl. by apply lookup_insert_ne.
Qed.

Lemma createPost_spec_witness :
  createPost "post2" (Some "") alice sampleStore
    = (Reply 400 (Errors ["Text is required"]), sampleStore) /\
  createPost "post2" (Some "hi") bob sampleStore
    = (Reply 500 (Text "Server Error"), sampleStore) /\
  exists post st',
    post = mkPost "u1" "hi" "Alice"
             "//www.gravatar.com/avatar/alice@example.com" [] [] /\
    createPost "post2" (Some "hi") alice sampleStore
      = (Reply 200 (PostBody "post2" post), st') /\
    (isObjectId sampleEnv "post2" = true ->
     forall reader,
       getPost sampleEnv "post2" reader st'
         = (Reply 200 (PostBody "post2" post), st')) /\
    (forall id, id <> "post2" -> posts st' !! id = posts sampleStore !! id) /\
    users st' = users sampleStore /\ profiles st' = profiles sampleStore.
Proof.
  destruct (createPost_spec sampleEnv "post2" (Some "") alice sampleStore)
    as (Hempty & _).
  destruct (createPost_spec sampleEnv "post2" (Some "hi") bob sampleStore)
    as (_ & Hnouser & _).
  destruct (createPost_spec sampleEnv "post2" (Some "hi") alice sampleStore)
    as (_ & _ & Hok).
  split; [apply Hempty; reflexivity|].
  split; [apply Hnouser; reflexivity|].
  apply (Hok aliceUser); reflexivity.
Defined.

(** X2: [addComment] answers 400 when the text is missing or empty, and
    500 when the post id names no post or the caller has no user document,
    with the store unchanged; otherwise it puts a comment with the minted
    id, the caller, the text and the author's name and avatar in front of
    the comments of the post and answers the new comment list; the post
    read back from the store, by lookup and by [getPost], holds that list
    and is otherwise as it was, and no other post, user or profile has
    changed. *)
Theorem addComment_spec E cid id text user st :
  (Validator.notEmpty text = false ->
   addComment E cid id text user st
     = (Reply 400 (Errors ["Text is required"]), st)) /\
  (Validator.notEmpty text = true ->
   (isObjectId E id = false \/ posts st !! id = None
    \/ User_findById st (tu_id user) = None) ->
   addComment E cid id text user st = (Reply 500 (Text "Server Error"), st))
  /\
  (forall post author,
     Validator.notEmpty text = true ->
     Post_findById E st id = Ok (Some post) ->
     User_findById st (tu_id user) = Some author ->
     exists comment post' st',
       comment = mkComment cid (tu_id user) (Validator.value text)
                   (user_name author) (user_avatar author) /\
       post' = mkPost (post_user post) (post_text post) (post_name post)
                 (post_avatar post) (post_likes post)
                 (comment :: post_comments post) /\
       addComment E cid id text user st
         = (Reply 200 (CommentsBody (comment :: post_comments post)), st') /\
       post_stored st st' id post' /\
       (forall reader,
          getPost E id reader st' = (Reply 200 (PostBody id post'), st'))).
Proof.
  unfold addComment. split; [|split].
  - intros Htext. by rewrite (notEmpty_fails text _ Htext).
  - intros Htext Hmissing. rewrite (notEmpty_passes text _ Htext). simpl.
    unfold Post_findById.
    destruct (isObjectId E id) eqn:Hid; [|done]. simpl.
    destruct (User_findById st (tu_id user)) as [author|] eqn:Hu; [|done].
    simpl. destruct (posts st !! id) eqn:Hp; [|done].
    by destruct Hmissing as [?|[?|?]].
  - intros post author Htext Hfound Hauthor.
    rewrite (notEmpty_passes text _ Htext). simpl.
    rewrite Hfound, Hauthor. simpl.
    eexists. eexists. eexists. split; [reflexivity|].
    split; [reflexivity|]. split; [reflexivity|].
    split; [apply Post_save_stored|].
    intros reader. unfold getPost.
    apply Post_findById_found in Hfound as [Hid _].
    by rewrite Post_findById_saved.
Qed.

Lemma addComment_spec_witness :
  addComment sampleEnv "c4" "post1" None alice sampleStore
    = (Reply 400 (Errors ["Text is required"]), sampleStore) /\
  addComment sampleEnv "c4" "post9" (Some "hi") alice sampleStore
    = (Reply 500 (Text "Server Error"), sampleStore) /\
  exists comment post' st',
    comment = mkComment "c4" "u1" "hi" "Alice"
                "//www.gravatar.com/avatar/alice@example.com" /\
    post' = mkPost "u1" "hello" "Alice" "a.png" [mkLike "u2"]
              [comment; commentA; commentB; commentC] /\
    addComment sampleEnv "c4" "post1" (Some "hi") alice sampleStore
      = (Reply 200 (CommentsBody [comment; commentA; commentB; commentC]),
         st') /\
    post_stored sampleStore st' "post1" post' /\
    (forall reader,
       getPost sampleEnv "post1" reader st'
       = (Reply 200 (PostBody "post1" post'), st')).
Proof.
  destruct (addComment_spec sampleEnv "c4" "post1" None alice sampleStore)
    as (Hempty & _).
  destruct (addComment_spec sampleEnv "c4" "post9" (Some "hi") alice
              sampleStore) as (_ & Hmissing & _).
  destruct (addComment_spec sampleEnv "c4" "post1" (Some "hi") alice
              sampleStore) as (_ & _ & Hok).
  split; [apply Hempty; reflexivity|].
  split; [apply Hmissing; [reflexivity | right; left; reflexivity]|].
  apply (Hok samplePost aliceUser); reflexivity.
Defined.

(** ** routes/api/posts: how the operations compose *)

Lemma splice_head {A} (x : A) (l : list A) : Js.splice (x :: l) 0 1 = l.
Proof. apply (splice_at (x :: l) 0). simpl. lia. Qed.

Lemma indexOf_head x (l : list string) : Js.indexOf (x :: l) x = 0.
Proof. simpl. by rewrite String.eqb_refl. Qed.

(** X3: removing, by its minted id, the comment one has just added
    answers the comment list as it was and puts the store back as it was:
    the new comment is the first of the caller's comments in the list. *)
Theorem addComment_removeComment E cid id text user st post author :
  Validator.notEmpty text = true ->
  Post_findById E st id = Ok (Some post) ->
  User_findById st (tu_id user) = Some author ->
  removeComment E id cid user (snd (addComment E cid id text user st))
    = (Reply 200 (CommentsBody (post_comments post)), st).
Proof.
  intros Htext Hfound Hauthor.
  apply Post_findById_found in Hfound as Hparts. destruct Hparts as [Hid Hlook].
  unfold addComment. rewrite (notEmpty_passes text _ Htext). simpl.
  rewrite Hfound, Hauthor. simpl.
  unfold removeComment. rewrite (Post_findById_saved E st id _ Hid).
  simpl. rewrite !String.eqb_refl. simpl.
  rewrite splice_head, setComments_twice, setComments_same.
  by rewrite Post_save_restore.
Qed.

Lemma addComment_removeComment_witness :
  removeComment sampleEnv "post1" "c4" alice
    (snd (addComment sampleEnv "c4" "post1" (Some "hi") alice sampleStore))
  = (Reply 200 (CommentsBody (post_comments samplePost)), sampleStore).
Proof.
  apply (addComment_removeComment sampleEnv "c4" "post1" (Some "hi") alice
           sampleStore samplePost aliceUser); reflexivity.
Defined.

(** X4: unliking a post one has just liked answers the like list as it
    was and puts the store back as it was. *)
Theorem likePost_unlikePost E id user st post :
  Post_findById E st id = Ok (Some post) ->
  tu_id user ∉ List.map like_user (post_likes post) ->
  unlikePost E id user (snd (likePost E id user st))
    = (Reply 200 (LikesBody (post_likes post)), st).
Proof.
  intros Hfound Hfresh.
  apply Post_findById_found in Hfound as Hparts. destruct Hparts as [Hid Hlook].
  unfold likePost. rewrite Hfound. simpl.
  destruct (0 <? _) eqn:Hcount; [by apply liked_count_pos in Hcount|].
  simpl. unfold unlikePost. rewrite (Post_findById_saved E st id _ Hid).
  simpl. unfold likedBy at 1. simpl. rewrite !String.eqb_refl. simpl.
  rewrite splice_head, setLikes_twice, setLikes_same.
  by rewrite Post_save_restore.
Qed.

Lemma likePost_unlikePost_witness :
  unlikePost sampleEnv "post1" alice
    (snd (likePost sampleEnv "post1" alice sampleStore))
  = (Reply 200 (LikesBody (post_likes samplePost)), sampleStore).
Proof.
  apply (likePost_unlikePost sampleEnv "post1" alice sampleStore samplePost).
  - reflexivity.
  - simpl. apply not_elem_of_cons.
    split; [discriminate | apply not_elem_of_nil].
Defined.

(** X5: a like that succeeded cannot be repeated, and, in a store whose
    like lists hold no user twice, neither can an unlike: the second call
    answers 400 and leaves the store as the first call left it. *)
Theorem like_unlike_twice E id user st :
  (forall body st',
     likePost E id user st = (Reply 200 body, st') ->
     likePost E id user st'
       = (Reply 400 (Msg "Bad Request: Post already liked"), st')) /\
  (forall body st',
     likes_invariant st ->
     unlikePost E id user st = (Reply 200 body, st') ->
     unlikePost E id user st'
       = (Reply 400 (Msg "Bad Request: Post has not yet been liked"), st')).
Proof.
  split.
  - intros body st'. unfold likePost at 1.
    destruct (Post_findById E st id) as [[post|]|e] eqn:Hfound; simpl;
      [|discriminate|discriminate].
    destruct (0 <? _); [discriminate|]. intros [= _ <-].
    apply Post_findById_found in Hfound as [Hid _].
    unfold likePost. rewrite (Post_findById_saved E st id _ Hid). simpl.
    unfold likedBy at 1. simpl. by rewrite String.eqb_refl.
  - intros body st' Hinv. unfold unlikePost at 1.
    destruct (Post_findById E st id) as [[post|]|e] eqn:Hfound; simpl;
      [|discriminate|discriminate].
    destruct (_ =? 0) eqn:Hcount; [discriminate|]. intros [= _ <-].
    pose proof (likes_invariant_found E st id post Hinv Hfound) as Huniq.
    apply Post_findById_found in Hfound as [Hid _].
    assert (tu_id user ∈ List.map like_user (post_likes post)) as Hmem.
    { apply liked_count_pos. apply Z.ltb_lt.
      apply Z.eqb_neq in Hcount. lia. }
    destruct (indexOf_present _ _ Hmem) as (i & Hi & Hlt).
    rewrite length_map in Hlt.
    destruct (indexOf_first _ _ _ Hi) as [Hat _].
    unfold likes_unique in Huniq. rewrite map_fmap in Huniq, Hat.
    unfold unlikePost. rewrite (Post_findById_saved E st id _ Hid). simpl.
    rewrite Hi, splice_at by done.
    rewrite (delete_unique (tu_id user) (post_likes post) i Huniq Hat).
    pose proof (filter_not_liked user (post_likes post)) as Hgone.
    apply liked_count_zero in Hgone. unfold likedBy in Hgone at 2.
    by rewrite Hgone.
Qed.

Lemma like_unlike_twice_witness :
  likePost sampleEnv "post1" alice
    (snd (likePost sampleEnv "post1" alice sampleStore))
  = (Reply 400 (Msg "Bad Request: Post already liked"),
     snd (likePost sampleEnv "post1" alice sampleStore)) /\
  unlikePost sampleEnv "post1" bob
    (snd (unlikePost sampleEnv "post1" bob sampleStore))
  = (Reply 400 (Msg "Bad Request: Post has not yet been liked"),
     snd (unlikePost sampleEnv "post1" bob sampleStore)).
Proof.
  destruct (like_unlike_twice sampleEnv "post1" alice sampleStore)
    as [Hlike _].
  destruct (like_unlike_twice sampleEnv "post1" bob sampleStore)
    as [_ Hunlike].
  split.
  - apply (Hlike (LikesBody [mkLike "u1"; mkLike "u2"])). reflexivity.
  - apply (Hunlike (LikesBody [])); [apply sampleStore_likes | reflexivity].
Defined.

(** ** routes/api/posts: what the operations leave alone *)

(** The effect of a feed request on the posts: none, a stored post saved
    with the same header, a post created under a minted id, or a post
    removed by its owner. *)
Lemma feed_effect E r user st :
  users (snd (feed E r user st)) = users st /\
  profiles (snd (feed E r user st)) = profiles st /\
  (posts (snd (feed E r user st)) = posts st \/
   (exists id p p',
      posts st !! id = Some p /\ post_header p' = post_header p /\
      posts (snd (feed E r user st)) = <[id := p']> (posts st)) \/
   (exists oid text p,
      r = CreatePost oid text /\
      posts (snd (feed E r user st)) = <[oid := p]> (posts st)) \/
   (exists id p,
      r = DeletePost id /\ posts st !! id = Some p /\
      post_user p = tu_id user /\
      posts (snd (feed E r user st)) = delete id (posts st))).
Proof.
  destruct r as [oid text|id|id|id|id|cid id text|id cid]; simpl.
  - unfold createPost. destruct (negb _); [by auto|].
    destruct (User_findById st (tu_id user)); simpl; [|by auto].
    split; [done|]. split; [done|]. right. right. left. by eexists oid, text, _.
  - rewrite getPost_store. auto.
  - unfold deletePost.
    destruct (Post_findById E st id) as [[post|]|e] eqn:Hfound; simpl.
    + apply Post_findById_found in Hfound as [_ Hlook].
      destruct (String.eqb_spec (post_user post) (tu_id user)); simpl;
        [|by auto].
      split; [done|]. split; [done|]. right. right. right. by exists id, post.
    + auto.
    + case_bool_decide; auto.
  - unfold likePost.
    destruct (Post_findById E st id) as [[post|]|e] eqn:Hfound; simpl;
      [|by auto|by auto].
    apply Post_findById_found in Hfound as [_ Hlook].
    destruct (0 <? _); simpl; [by auto|].
    split; [done|]. split; [done|]. right. left. exists id, post. eexists.
    split; [done|]. split; [|reflexivity]. reflexivity.
  - unfold unlikePost.
    destruct (Post_findById E st id) as [[post|]|e] eqn:Hfound; simpl;
      [|by auto|by auto].
    apply Post_findById_found in Hfound as [_ Hlook].
    destruct (_ =? 0); simpl; [by auto|].
    split; [done|]. split; [done|]. right. left. exists id, post. eexists.
    split; [done|]. split; [|reflexivity]. reflexivity.
  - unfold addComment. destruct (negb _); [by auto|].
    destruct (Post_findById E st id) as [[post|]|e] eqn:Hfound; simpl;
      destruct (User_findById st (tu_id user)); simpl; try by auto.
    apply Post_findById_found in Hfound as [_ Hlook].
    split; [done|]. split; [done|]. right. left. exists id, post. eexists.
    split; [done|]. split; [|reflexivity]. reflexivity.
  - unfold removeComment.
    destruct (Post_findById E st id) as [[post|]|e] eqn:Hfound; simpl;
      [|by auto|by auto].
    apply Post_findById_found in Hfound as [_ Hlook].
    destruct (List.find _ _) as [c|]; [|by auto].
    destruct (negb _); simpl; [by auto|].
    split; [done|]. split; [done|]. right. left. exists id, post. eexists.
    split; [done|]. split; [|reflexivity]. reflexivity.
Qed.

(** X6: no request of the feed changes a user or a profile, and none
    changes the owner, the text or the author's name and avatar of a
    stored post; a stored post disappears only through [deletePost] of its
    id by its owner. (A created post is stored under its minted id, taken
    here to differ from the id of the post looked at.) *)
Theorem feed_frame E r user st :
  users (snd (feed E r user st)) = users st /\
  profiles (snd (feed E r user st)) = profiles st /\
  forall id p,
    posts st !! id = Some p ->
    (forall oid text, r = CreatePost oid text -> oid <> id) ->
    match posts (snd (feed E r user st)) !! id with
    | Some p' => post_header p' = post_header p
    | None => r = DeletePost id /\ post_user p = tu_id user
    end.
Proof.
  destruct (feed_effect E r user st) as (Husers & Hprofiles & Hposts).
  split; [done|]. split; [done|]. intros id p Hlook Hfresh.
  destruct Hposts as [->|[(id0 & p0 & p0' & Hl0 & Hh & ->)|
                      [(oid & text & p0 & Hr & ->)|
                       (id0 & p0 & Hr & Hl0 & Hown & ->)]]].
  - by rewrite Hlook.
  - rewrite lookup_insert. case_decide as Hid.
    + subst id0. rewrite Hlook in Hl0. injection Hl0 as <-. done.
    + by rewrite Hlook.
  - rewrite lookup_insert_ne by (by apply (Hfresh oid text)).
    by rewrite Hlook.
  - rewrite lookup_delete. case_decide as Hid.
    + subst id0. rewrite Hlook in Hl0. injection Hl0 as <-. done.
    + by rewrite Hlook.
Qed.

Lemma feed_frame_witness :
  match posts (snd (feed sampleEnv (DeletePost "post1") alice sampleStore))
          !! "post1" with
  | Some p' => post_header p' = post_header samplePost
  | None => DeletePost "post1" = DeletePost "post1" /\
            post_user samplePost = tu_id alice
  end /\
  match posts (snd (feed sampleEnv (RemoveComment "post1" "c3") bob
                      sampleStore)) !! "post1" with
  | Some p' => post_header p' = post_header samplePost
  | None => RemoveComment "post1" "c3" = DeletePost "post1" /\
            post_user samplePost = tu_id bob
  end.
Proof.
  destruct (feed_frame sampleEnv (DeletePost "post1") alice sampleStore)
    as (_ & _ & Hdel).
  destruct (feed_frame sampleEnv (RemoveComment "post1" "c3") bob
              sampleStore) as (_ & _ & Hrem).
  split.
  - apply Hdel; [reflexivity | discriminate].
  - apply Hrem; [reflexivity | discriminate].
Defined.

(** ** routes/api/profile: the entries *)

Section EntryFacts.

(** When some element has the key, [indexOf] and [splice] delete the first
    element that has it, and only that one. *)
Lemma splice_indexOf {A} (key : A -> string) (l : list A) x :
  x ∈ List.map key l ->
  exists (i : nat) (e : A),
    l !! i = Some e /\ key e = x /\
    (forall j e', (j < i)%nat -> l !! j = Some e' -> key e' <> x) /\
    Js.splice l (Js.indexOf (List.map key l) x) 1 = delete i l.
Proof.
  intros Hmem.
  destruct (indexOf_present _ _ Hmem) as (i & Hi & Hlt).
  rewrite length_map in Hlt.
  destruct (indexOf_first _ _ _ Hi) as [Hat Hbefore].
  rewrite map_fmap, list_lookup_fmap in Hat.
  destruct (l !! i) as [e|] eqn:He; [|discriminate].
  injection Hat as Hat.
  exists i, e. rewrite Hi, splice_at by done.
  split; [done|]. split; [done|]. split; [|done].
  intros j e' Hj He' Heq. apply (Hbefore j Hj).
  by rewrite map_fmap, list_lookup_fmap, He', <- Heq.
Qed.

Variable isDate : string -> bool.

Lemma validExperience_passes body :
  validExperience body ->
  Validator.isEmpty
    (Validator.validationResult
       [ (Validator.notEmpty (ein_title body), "Title is required");
         (Validator.notEmpty (ein_company body), "company is required");
         (Validator.notEmpty (ein_from body), "From date is required") ])
  = true.
Proof. intros (Ht & Hc & Hf). by rewrite Ht, Hc, Hf. Qed.

Lemma validEducation_passes body :
  validEducation body ->
  Validator.isEmpty
    (Validator.validationResult
       [ (Validator.notEmpty (din_school body), "school is required");
         (Validator.notEmpty (din_degree body), "company is required");
         (Validator.notEmpty (din_fieldofstudy body),
          "Field of study is required");
         (Validator.notEmpty (din_from body), "From date is required") ])
  = true.
Proof. intros (Hs & Hd & Hf & Hfr). by rewrite Hs, Hd, Hf, Hfr. Qed.

Lemma addExperience_added eid body user st id p :
  validExperience body ->
  datesCast isDate (ein_from body) (ein_to body) ->
  Profile_findOne_user st (tu_id user) = Some (id, p) ->
  addExperience isDate eid body user st
    = (Reply 200
         (ProfileBody id
            (setExperience p (newExperience eid body :: experience p))),
       Profile_save st id
         (setExperience p (newExperience eid body :: experience p))).
Proof.
  intros Hvalid [Hfrom Hto] Hfound. unfold addExperience.
  rewrite (validExperience_passes body Hvalid). simpl.
  rewrite Hfound. simpl. unfold validateDates. by rewrite Hfrom, Hto.
Qed.

Lemma addEducation_added eid body user st id p :
  validEducation body ->
  datesCast isDate (din_from body) (din_to body) ->
  Profile_findOne_user st (tu_id user) = Some (id, p) ->
  addEducation isDate eid body user st
    = (Reply 200
         (ProfileBody id
            (setEducation p (newEducation eid body :: education p))),
       Profile_save st id
         (setEducation p (newEducation eid body :: education p))).
Proof.
  intros Hvalid [Hfrom Hto] Hfound. unfold addEducation.
  rewrite (validEducation_passes body Hvalid). simpl.
  rewrite Hfound. simpl. unfold validateDates. by rewrite Hfrom, Hto.
Qed.

End EntryFacts.

Lemma setExperience_same_but p l : same_but_experience p (setExperience p l).
Proof. by repeat split. Qed.

Lemma setEducation_same_but p l : same_but_education p (setEducation p l).
Proof. by repeat split. Qed.

(** X7: with an id that an entry of the list has, [removeExperience]
    removes the first entry with that id and no other, keeps the order of
    the rest, and answers the profile with that list and every other field
    as it was; that profile is what the store then holds under the
    profile's id, and no other profile, user or post has changed.  And so
    does [removeEducation]. *)
Theorem removeEntry_known user st id p :
  Profile_findOne_user st (tu_id user) = Some (id, p) ->
  (forall exp_id_param,
     exp_id_param ∈ List.map exp_id (experience p) ->
     exists (i : nat) (e : Experience) (p' : Profile) (st' : Store),
       experience p !! i = Some e /\ exp_id e = exp_id_param /\
       (forall j e', (j < i)%nat -> experience p !! j = Some e' ->
                     exp_id e' <> exp_id_param) /\
       removeExperience exp_id_param user st
         = (Reply 200 (ProfileBody id p'), st') /\
       experience p' = delete i (experience p) /\
       same_but_experience p p' /\
       profile_stored st st' id p') /\
  (forall edu_id_param,
     edu_id_param ∈ List.map edu_id (education p) ->
     exists (i : nat) (e : Education) (p' : Profile) (st' : Store),
       education p !! i = Some e /\ edu_id e = edu_id_param /\
       (forall j e', (j < i)%nat -> education p !! j = Some e' ->
                     edu_id e' <> edu_id_param) /\
       removeEducation edu_id_param user st
         = (Reply 200 (ProfileBody id p'), st') /\
       education p' = delete i (education p) /\
       same_but_education p p' /\
       profile_stored st st' id p').
Proof.
  intros Hfound. split.
  - intros x Hmem.
    destruct (splice_indexOf exp_id (experience p) x Hmem)
      as (i & e & He & Hkey & Hfirst & Hsplice).
    exists i, e, (setExperience p (delete i (experience p))),
      (Profile_save st id (setExperience p (delete i (experience p)))).
    split; [done|]. split; [done|]. split; [done|].
    split.
    { unfold removeExperience. rewrite Hfound. simpl. by rewrite Hsplice. }
    split; [done|]. split; [apply setExperience_same_but|].
    apply Profile_save_stored.
  - intros x Hmem.
    destruct (splice_indexOf edu_id (education p) x Hmem)
      as (i & e & He & Hkey & Hfirst & Hsplice).
    exists i, e, (setEducation p (delete i (education p))),
      (Profile_save st id (setEducation p (delete i (education p)))).
    split; [done|]. split; [done|]. split; [done|].
    split.
    { unfold removeEducation. rewrite Hfound. simpl. by rewrite Hsplice. }
    split; [done|]. split; [apply setEducation_same_but|].
    apply Profile_save_stored.
Qed.

Lemma removeEntry_known_witness :
  (exists (i : nat) (e : Experience) (p' : Profile) (st' : Store),
     experience sampleProfile !! i = Some e /\ exp_id e = "e2" /\
     (forall j e', (j < i)%nat -> experience sampleProfile !! j = Some e' ->
                   exp_id e' <> "e2") /\
     removeExperience "e2" alice sampleStore
       = (Reply 200 (ProfileBody "p1" p'), st') /\
     experience p' = delete i (experience sampleProfile) /\
     same_but_experience sampleProfile p' /\
     profile_stored sampleStore st' "p1" p') /\
  (exists (i : nat) (e : Education) (p' : Profile) (st' : Store),
     education sampleProfile !! i = Some e /\ edu_id e = "d1" /\
     (forall j e', (j < i)%nat -> education sampleProfile !! j = Some e' ->
                   edu_id e' <> "d1") /\
     removeEducation "d1" alice sampleStore
       = (Reply 200 (ProfileBody "p1" p'), st') /\
     education p' = delete i (education sampleProfile) /\
     same_but_education sampleProfile p' /\
     profile_stored sampleStore st' "p1" p').
Proof.
  destruct (removeEntry_known alice sampleStore "p1" sampleProfile)
    as [Hexp Hedu]; [reflexivity|].
  split.
  - apply Hexp. simpl. right. left.
  - apply Hedu. simpl. left.
Defined.

(** X8: [addExperience] answers 400 with at least one message when the
    title, the company or the from date is missing or empty, and 500 when
    the caller has no profile or a date of the form is not a date, with
    the store unchanged; otherwise it puts a new entry in front of the
    experience list, with the minted id and the title, company, location,
    dates and description of the form, and answers the profile with that
    list and every other field as it was; that profile is what the store
    then holds under the profile's id, and no other profile, user or post
    has changed. *)
Theorem addExperience_spec isDate eid body user st :
  (~ validExperience body ->
   exists errors,
     errors <> [] /\
     addExperience isDate eid body user st = (Reply 400 (Errors errors), st))
  /\
  (validExperience body ->
   Profile_findOne_user st (tu_id user) = None ->
   addExperience isDate eid body user st
     = (Reply 500 (Text "Server Error"), st)) /\
  (validExperience body ->
   ~ datesCast isDate (ein_from body) (ein_to body) ->
   addExperience isDate eid body user st
     = (Reply 500 (Text "Server Error"), st)) /\
  (forall id p,
     validExperience body ->
     datesCast isDate (ein_from body) (ein_to body) ->
     Profile_findOne_user st (tu_id user) = Some (id, p) ->
     exists (e : Experience) (p' : Profile) (st' : Store),
       addExperience isDate eid body user st
         = (Reply 200 (ProfileBody id p'), st') /\
       profile_stored st st' id p' /\
       experience p' = e :: experience p /\
       same_but_experience p p' /\
       exp_id e = eid /\
       ein_title body = Some (exp_title e) /\
       ein_company body = Some (exp_company e) /\
       exp_location e = ein_location body /\
       ein_from body = Some (exp_from e) /\
       exp_to e = ein_to body /\
       exp_description e = ein_description body).
Proof.
  split; [|split; [|split]].
  - intros Hinvalid. unfold addExperience, validExperience in *.
    destruct (Validator.notEmpty (ein_title body));
      destruct (Validator.notEmpty (ein_company body));
      destruct (Validator.notEmpty (ein_from body)); simpl;
      try (eexists; split; [|reflexivity]; discriminate).
    by destruct Hinvalid.
  - intros Hvalid Hnone. unfold addExperience.
    rewrite (validExperience_passes body Hvalid). simpl. by rewrite Hnone.
  - intros Hvalid Hdates. unfold addExperience.
    rewrite (validExperience_passes body Hvalid). simpl.
    destruct (Profile_findOne_user st (tu_id user)) as [[id p]|]; [|done].
    simpl. unfold validateDates, datesCast in *.
    destruct (castsToDate isDate (ein_from body));
      destruct (castsToDate isDate (ein_to body)); try done.
    by destruct Hdates.
  - intros id p Hvalid Hdates Hfound.
    exists (newExperience eid body),
      (setExperience p (newExperience eid body :: experience p)),
      (Profile_save st id
         (setExperience p (newExperience eid body :: experience p))).
    split; [by apply addExperience_added|].
    split; [apply Profile_save_stored|].
    split; [done|]. split; [apply setExperience_same_but|].
    destruct Hvalid as (Ht & Hc & Hf). simpl.
    destruct (ein_title body), (ein_company body), (ein_from body);
      by try discriminate.
Qed.

Lemma addExperience_spec_witness :
  (exists errors,
     errors <> [] /\
     addExperience allDates "e3"
       (mkExperienceInput None None None None None None None) alice
       sampleStore = (Reply 400 (Errors errors), sampleStore)) /\
  addExperience allDates "e3" jobInput bob sampleStore
    = (Reply 500 (Text "Server Error"), sampleStore) /\
  addExperience (fun _ => false) "e3" jobInput alice sampleStore
    = (Reply 500 (Text "Server Error"), sampleStore) /\
  exists (e : Experience) (p' : Profile) (st' : Store),
    addExperience allDates "e3" jobInput alice sampleStore
      = (Reply 200 (ProfileBody "p1" p'), st') /\
    profile_stored sampleStore st' "p1" p' /\
    experience p' = e :: experience sampleProfile /\
    same_but_experience sampleProfile p' /\
    exp_id e = "e3" /\
    ein_title jobInput = Some (exp_title e) /\
    ein_company jobInput = Some (exp_company e) /\
    exp_location e = ein_location jobInput /\
    ein_from jobInput = Some (exp_from e) /\
    exp_to e = ein_to jobInput /\
    exp_description e = ein_description jobInput.
Proof.
  destruct (addExperience_spec allDates "e3"
              (mkExperienceInput None None None None None None None) alice
              sampleStore) as (Hinvalid & _).
  destruct (addExperience_spec allDates "e3" jobInput bob sampleStore)
    as (_ & Hnone & _).
  destruct (addExperience_spec (fun _ => false) "e3" jobInput alice
              sampleStore) as (_ & _ & Hdates & _).
  destruct (addExperience_spec allDates "e3" jobInput alice sampleStore)
    as (_ & _ & _ & Hok).
  split; [apply Hinvalid; by intros (? & _)|].
  split; [apply Hnone; [by repeat split | reflexivity]|].
  split; [apply Hdates; [by repeat split | by intros (? & _)]|].
  apply (Hok "p1" sampleProfile); [by repeat split | by split | reflexivity].
Defined.

(** X9: in a store where the caller has one profile, removing by its
    minted id the experience, or the education, that was just added
    answers the profile as it was and puts the store back as it was. *)
Theorem addEntry_removeEntry isDate eid user st id p :
  one_profile_per_user st ->
  Profile_findOne_user st (tu_id user) = Some (id, p) ->
  (forall body,
     validExperience body ->
     datesCast isDate (ein_from body) (ein_to body) ->
     removeExperience eid user
       (snd (addExperience isDate eid body user st))
     = (Reply 200 (ProfileBody id p), st)) /\
  (forall body,
     validEducation body ->
     datesCast isDate (din_from body) (din_to body) ->
     removeEducation eid user
       (snd (addEducation isDate eid body user st))
     = (Reply 200 (ProfileBody id p), st)).
Proof.
  intros Hone Hfound.
  pose proof (Profile_findOne_only st _ id p Hone Hfound) as Honly.
  apply findOne_Some in Hfound as Hparts. destruct Hparts as [Hlook Hq].
  apply String.eqb_eq in Hq.
  split; intros body Hvalid Hdates.
  - rewrite (addExperience_added isDate eid body user st id p) by done.
    simpl. unfold removeExperience.
    rewrite (Profile_findOne_saved st (tu_id user) id
               (setExperience p (newExperience eid body :: experience p))
               Honly Hq). simpl.
    rewrite String.eqb_refl, splice_head.
    rewrite setExperience_twice, setExperience_same.
    by rewrite Profile_save_restore.
  - rewrite (addEducation_added isDate eid body user st id p) by done.
    simpl. unfold removeEducation.
    rewrite (Profile_findOne_saved st (tu_id user) id
               (setEducation p (newEducation eid body :: education p))
               Honly Hq). simpl.
    rewrite String.eqb_refl, splice_head.
    rewrite setEducation_twice, setEducation_same.
    by rewrite Profile_save_restore.
Qed.

Lemma sampleStore_one_profile : one_profile_per_user sampleStore.
Proof.
  intros id1 id2 p1 p2 H1 H2 _. simpl in H1, H2.
  apply lookup_singleton_Some in H1 as [<- _].
  by apply lookup_singleton_Some in H2 as [<- _].
Qed.

Lemma addEntry_removeEntry_witness :
  removeExperience "e3" alice
    (snd (addExperience allDates "e3" jobInput alice sampleStore))
  = (Reply 200 (ProfileBody "p1" sampleProfile), sampleStore) /\
  removeEducation "d2" alice
    (snd (addEducation allDates "d2" schoolInput alice sampleStore))
  = (Reply 200 (ProfileBody "p1" sampleProfile), sampleStore).
Proof.
  destruct (addEntry_removeEntry allDates "e3" alice sampleStore "p1"
              sampleProfile) as [Hexp _];
    [apply sampleStore_one_profile | reflexivity |].
  destruct (addEntry_removeEntry allDates "d2" alice sampleStore "p1"
              sampleProfile) as [_ Hedu];
    [apply sampleStore_one_profile | reflexivity |].
  split.
  - apply Hexp; [by repeat split | by split].
  - apply Hedu; [by repeat split | by split].
Defined.

(** ** routes/api/profile: writing and reading a profile *)

Section UpsertFacts.

Lemma setKey_twice {A} (new old : option A) :
  setKey new (setKey new old) = setKey new old.
Proof. by destruct new. Qed.

Lemma setKey_same {A} (new : option A) : setKey new new = new.
Proof. by destruct new. Qed.

Lemma applySet_twice pf p : applySet pf (applySet pf p) = applySet pf p.
Proof. unfold applySet. simpl. by rewrite !setKey_twice. Qed.

Lemma applySet_new pf : applySet pf (newProfile pf) = newProfile pf.
Proof. unfold applySet, newProfile. simpl. by rewrite !setKey_same. Qed.

Lemma Profile_save_twice st id p :
  Profile_save (Profile_save st id p) id p = Profile_save st id p.
Proof. unfold Profile_save. simpl. by rewrite insert_insert_eq. Qed.

(** An upsert that passes the checks saves a profile of the caller, and
    that profile is then the one found for the caller. *)
Lemma upsertProfile_saved oid body user st :
  validProfileInput body -> one_profile_per_user st ->
  exists id p,
    upsertProfile oid body user st
      = (Reply 200 (ProfileBody id p), Profile_save st id p) /\
    profile_user p = tu_id user /\
    applySet (buildProfileFields user body) p = p /\
    Profile_findOne_user (Profile_save st id p) (tu_id user) = Some (id, p).
Proof.
  intros Hvalid Hone.
  destruct (Profile_findOne_user st (tu_id user)) as [[id p]|] eqn:Hfound.
  - exists id, (applySet (buildProfileFields user body) p).
    split; [by apply upsertProfile_existing|]. split; [done|].
    split; [apply applySet_twice|].
    apply Profile_findOne_saved; [|done].
    by apply (Profile_findOne_only st _ id p).
  - exists oid, (newProfile (buildProfileFields user body)).
    split; [by apply upsertProfile_created|]. split; [done|].
    split; [apply applySet_new|].
    apply Profile_findOne_saved; [|done].
    intros id2 p2 Hlook Hu.
    by destruct (Profile_findOne_none st _ Hfound id2 p2 Hlook).
Qed.

End UpsertFacts.



(** X11: in a store where no user has two profiles, an upsert that passes
    the checks is idempotent: sending the same form again, whatever id is
    minted for it, answers the same profile and leaves the store as the
    first upsert left it. *)
Theorem upsertProfile_idempotent oid oid' body user st :
  validProfileInput body -> one_profile_per_user st ->
  upsertProfile oid' body user (snd (upsertProfile oid body user st))
    = upsertProfile oid body user st.
Proof.
  intros Hvalid Hone.
  destruct (upsertProfile_saved oid body user st Hvalid Hone)
    as (pid & p & Hup & Huser & Hfix & Hfound).
  rewrite Hup. simpl.
  rewrite (upsertProfile_existing oid' body user _ pid p Hvalid Hfound).
  by rewrite Hfix, Profile_save_twice.
Qed.

Lemma upsertProfile_idempotent_witness :
  upsertProfile "p3" twitterInput alice
    (snd (upsertProfile "p2" twitterInput alice sampleStore))
  = upsertProfile "p2" twitterInput alice sampleStore /\
  upsertProfile "p3" twitterInput bob
    (snd (upsertProfile "p2" twitterInput bob sampleStore))
  = upsertProfile "p2" twitterInput bob sampleStore.
Proof.
  split.
  - apply (upsertProfile_idempotent "p2" "p3" twitterInput alice sampleStore);
      [by split | apply sampleStore_one_profile].
  - apply (upsertProfile_idempotent "p2" "p3" twitterInput bob sampleStore);
      [by split | apply sampleStore_one_profile].
Defined.

(** X12: [getProfileByUser] answers 400 "Profile not found" both when the
    user id is malformed and when no profile belongs to it, and never
    500; when a profile belongs to a well-formed id it answers what
    [getOwnProfile] answers to that user. *)
Theorem getProfileByUser_spec E user_id st :
  ((isObjectId E user_id = false \/ Profile_findOne_user st user_id = None)
   -> getProfileByUser E user_id st
      = Failed (Reply 400 (Msg "Profile not found"))) /\
  (forall id p,
     isObjectId E user_id = true ->
     Profile_findOne_user st user_id = Some (id, p) ->
     getProfileByUser E user_id st = Sent (ProfileDoc (populate st id p)) /\
     getOwnProfile (mkTokenUser user_id) st = getProfileByUser E user_id st)
  /\
  getProfileByUser E user_id st <> Failed (Reply 500 (Text "Server Error")).
Proof.
  unfold getProfileByUser, getOwnProfile, Profile_findOne_param.
  split; [|split].
  - intros [Hbad|Hnone].
    + by rewrite Hbad.
    + destruct (isObjectId E user_id); simpl; [by rewrite Hnone | done].
  - intros id p Hid Hfound. rewrite Hid. simpl. by rewrite Hfound.
  - destruct (isObjectId E user_id); simpl; [|done].
    by destruct (Profile_findOne_user st user_id) as [[id p]|].
Qed.

Lemma getProfileByUser_spec_witness :
  getProfileByUser sampleEnv "" sampleStore
    = Failed (Reply 400 (Msg "Profile not found")) /\
  getProfileByUser sampleEnv "u2" sampleStore
    = Failed (Reply 400 (Msg "Profile not found")) /\
  getProfileByUser sampleEnv "u1" sampleStore
    = Sent (ProfileDoc (populate sampleStore "p1" sampleProfile)) /\
  getOwnProfile (mkTokenUser "u1") sampleStore
    = getProfileByUser sampleEnv "u1" sampleStore.
Proof.
  destruct (getProfileByUser_spec sampleEnv "" sampleStore) as (Hbad & _).
  destruct (getProfileByUser_spec sampleEnv "u2" sampleStore)
    as (Hnone & _).
  destruct (getProfileByUser_spec sampleEnv "u1" sampleStore)
    as (_ & Hok & _).
  split; [apply Hbad; left; reflexivity|].
  split; [apply Hnone; right; reflexivity|].
  apply (Hok "p1" sampleProfile); reflexivity.
Defined.

(** ** Accounts: the current user, deleting the account *)

Section AccountFacts.
Variable E : Env.

(** What a registration that answered a token did. *)
Lemma register_success oid salt now body st token st' :
  validCredentials E body ->
  register E oid salt now body st = (Reply 200 (TokenBody token), st') ->
  User_findOne_email st (Validator.value (body_email body)) = None /\
  jwt_sign E (mkPayload (mkTokenUser oid)) (jwtSecret E) 360000 now
    = Some token /\
  exists password,
    body_password body = Some (Str password) /\
    st' = User_save st oid
            (mkUser (Validator.value (body_name body))
               (Validator.value (body_email body))
               (gravatar_url E (Validator.value (body_email body)))
               (bcrypt_hash E password salt)).
Proof.
  intros Hvalid. unfold register.
  rewrite (validCredentials_passes E body Hvalid). simpl.
  destruct (User_findOne_email st _); simpl; [discriminate|].
  destruct (body_password body) as [[password|text]|]; simpl;
    [|discriminate|discriminate].
  destruct (jwt_sign E _ _ _ _); simpl; [|discriminate].
  intros [= <- <-]. split; [done|]. split; [done|]. by exists password.
Qed.

(** The store after any registration: as before, or with the new user
    saved, whose email no stored user had. *)
Lemma register_effect oid salt now body st :
  snd (register E oid salt now body st) = st \/
  (validCredentials E body /\
   User_findOne_email st (Validator.value (body_email body)) = None /\
   exists password,
     body_password body = Some (Str password) /\
     snd (register E oid salt now body st)
     = User_save st oid
         (mkUser (Validator.value (body_name body))
            (Validator.value (body_email body))
            (gravatar_url E (Validator.value (body_email body)))
            (bcrypt_hash E password salt))).
Proof.
  unfold register, validCredentials.
  destruct (Validator.notEmpty (body_name body));
    destruct (isEmail E (Validator.value (body_email body)));
    destruct (Validator.isLength 6 (Validator.shown (body_password body)));
    simpl; try (by left).
  destruct (User_findOne_email st _); simpl; [by left|].
  destruct (body_password body) as [[password|text]|]; simpl;
    [|by left|by left].
  right. split; [done|]. split; [done|]. exists password. split; [done|].
  by destruct (jwt_sign E _ _ _ _).
Qed.

Lemma authenticate_store now body st : snd (authenticate E now body st) = st.
Proof.
  unfold authenticate. destruct (negb _); [done|]. simpl.
  destruct (User_findOne_email st _) as [[id u]|]; simpl; [|done].
  destruct (Bcrypt_compare E _ _) as [[]|]; simpl; [|done|done].
  by destruct (jwt_sign E _ _ _ _).
Qed.

End AccountFacts.

(** X13: a user who registered and sends the token of the registration is
    let through by [auth] as that user, and [getCurrentUser] answers the
    name, the email and the avatar of the registration under the minted
    id, without the password. (The token is taken to be one that
    [jwt.verify] decodes to the payload that was signed.) *)
Theorem register_getCurrentUser E oid salt now body st token st' :
  validCredentials E body ->
  register E oid salt now body st = (Reply 200 (TokenBody token), st') ->
  token <> "" ->
  jwt_verify E token (jwtSecret E) = Some (mkPayload (mkTokenUser oid)) ->
  auth E (requestWithToken token) = Next (mkTokenUser oid) /\
  getCurrentUser (mkTokenUser oid) st'
    = Sent (UserDoc
              (Some (mkPublicUser oid
                       (Validator.value (body_name body))
                       (Validator.value (body_email body))
                       (gravatar_url E (Validator.value (body_email body)))))).
Proof.
  intros Hvalid Hreg Htoken Hverify.
  destruct (register_success E oid salt now body st token st' Hvalid Hreg)
    as (_ & _ & password & _ & ->).
  split.
  - unfold auth, header, requestWithToken. simpl.
    rewrite lookup_singleton_eq. simpl.
    apply String.eqb_neq in Htoken. rewrite Htoken. simpl.
    by rewrite Hverify.
  - unfold getCurrentUser, User_findById. simpl.
    by rewrite lookup_insert_eq.
Qed.

Lemma register_getCurrentUser_witness :
  auth sampleEnv (requestWithToken "u3") = Next (mkTokenUser "u3") /\
  getCurrentUser (mkTokenUser "u3")
    (snd (register sampleEnv "u3" "s" 7 carolCredentials sampleStore))
  = Sent (UserDoc
            (Some (mkPublicUser "u3" "Carol" "carol@example.com"
                     "//www.gravatar.com/avatar/carol@example.com"))).
Proof.
  apply (register_getCurrentUser sampleEnv "u3" "s" 7 carolCredentials
           sampleStore "u3").
  - by repeat split.
  - reflexivity.
  - discriminate.
  - reflexivity.
Defined.

(** X14: [deleteAccount] always answers 200 "User deleted". It removes
    the caller's user document and the profile found for the caller, and
    touches no post and no profile of another user. Afterwards
    [getCurrentUser] answers [null] with status 200, [createPost] by the
    caller answers 500, [getOwnProfile] answers 400 when no user had two
    profiles, and a login with the email of the account answers 400
    when no two users shared an email. *)
Theorem deleteAccount_spec user st :
  exists st',
    deleteAccount user st = (Reply 200 (Msg "User deleted"), st') /\
    posts st' = posts st /\
    users st' = delete (tu_id user) (users st) /\
    (forall id p, profiles st' !! id = Some p -> profiles st !! id = Some p) /\
    (forall id p, profiles st !! id = Some p -> profile_user p <> tu_id user ->
                  profiles st' !! id = Some p) /\
    getCurrentUser user st' = Sent (UserDoc None) /\
    (forall oid text,
       Validator.notEmpty text = true ->
       createPost oid text user st' = (Reply 500 (Text "Server Error"), st'))
    /\
    (one_profile_per_user st ->
     getOwnProfile user st'
       = Failed (Reply 400 (Msg "There is no profile for this user"))) /\
    (forall E now body u,
       one_user_per_email st -> validLogin E body ->
       users st !! tu_id user = Some u ->
       Validator.value (body_email body) = user_email u ->
       authenticate E now body st'
         = (Reply 400 (Errors ["Invalid Credentials"]), st')).
Proof.
  eexists. split; [reflexivity|].
  assert (forall id p,
            profiles (Profile_findOneAndRemove_user st (tu_id user)) !! id
              = Some p -> profiles st !! id = Some p) as Hsub.
  { intros id p. unfold Profile_findOneAndRemove_user.
    destruct (Profile_findOne_user st (tu_id user)) as [[id0 p0]|];
      [|done]. simpl. rewrite lookup_delete_Some. by intros [_ ?]. }
  split; [|split; [|split; [|split; [|split; [|split; [|split]]]]]].
  - unfold Profile_findOneAndRemove_user. simpl.
    by destruct (Profile_findOne_user st (tu_id user)) as [[id0 p0]|].
  - unfold Profile_findOneAndRemove_user. simpl.
    by destruct (Profile_findOne_user st (tu_id user)) as [[id0 p0]|].
  - exact Hsub.
  - intros id p Hlook Hother. simpl. unfold Profile_findOneAndRemove_user.
    destruct (Profile_findOne_user st (tu_id user)) as [[id0 p0]|]
      eqn:Hfound; [|done].
    simpl. apply lookup_delete_Some. split; [|done]. intros <-.
    apply findOne_Some in Hfound as [Hlook0 Hq]. apply String.eqb_eq in Hq.
    congruence.
  - unfold getCurrentUser, User_findById. simpl.
    by rewrite lookup_delete_eq.
  - intros oid text Htext. unfold createPost.
    rewrite (notEmpty_passes text _ Htext). simpl.
    unfold User_findById. simpl. by rewrite lookup_delete_eq.
  - intros Hone. unfold getOwnProfile.
    match goal with
    | |- context [Profile_findOne_user ?s (tu_id user)] =>
        destruct (Profile_findOne_user s (tu_id user)) as [[id2 p2]|]
          eqn:Hagain; [|done]
    end.
    exfalso. apply findOne_Some in Hagain as [Hlook2 Hq2].
    apply String.eqb_eq in Hq2. simpl in Hlook2.
    unfold Profile_findOneAndRemove_user in Hlook2.
    destruct (Profile_findOne_user st (tu_id user)) as [[id0 p0]|]
      eqn:Hfound; simpl in Hlook2.
    + apply lookup_delete_Some in Hlook2 as [Hne Hlook2].
      apply Hne. symmetry.
      by apply (Profile_findOne_only st (tu_id user) id0 p0 Hone Hfound
                  id2 p2).
    + by destruct (Profile_findOne_none st _ Hfound id2 p2 Hlook2).
  - intros E now body u Hone Hvalid Hu Hemail.
    apply authenticate_unknown; [done|].
    match goal with
    | |- User_findOne_email ?s ?e = None =>
        destruct (User_findOne_email s e) as [[id2 u2]|] eqn:Hagain; [|done]
    end.
    exfalso. apply findOne_Some in Hagain as [Hlook2 Hq2].
    apply String.eqb_eq in Hq2. simpl in Hlook2.
    assert (users st !! id2 = Some u2 /\ id2 <> tu_id user) as [Hl2 Hne].
    { unfold Profile_findOneAndRemove_user in Hlook2.
      destruct (Profile_findOne_user st (tu_id user)) as [[id0 p0]|];
        simpl in Hlook2; apply lookup_delete_Some in Hlook2 as [? ?];
        by split. }
    apply Hne. apply (Hone id2 (tu_id user) u2 u Hl2 Hu). congruence.
Qed.

Lemma sampleStore_one_email : one_user_per_email sampleStore.
Proof.
  intros id1 id2 u1 u2 H1 H2 _. simpl in H1, H2.
  apply lookup_singleton_Some in H1 as [<- _].
  by apply lookup_singleton_Some in H2 as [<- _].
Qed.

Lemma deleteAccount_spec_witness :
  exists st',
    deleteAccount alice sampleStore = (Reply 200 (Msg "User deleted"), st') /\
    posts st' = posts sampleStore /\
    users st' = delete "u1" (users sampleStore) /\
    getCurrentUser alice st' = Sent (UserDoc None) /\
    createPost "post2" (Some "hi") alice st'
      = (Reply 500 (Text "Server Error"), st') /\
    getOwnProfile alice st'
      = Failed (Reply 400 (Msg "There is no profile for this user")) /\
    authenticate sampleEnv 9 aliceCredentials st'
      = (Reply 400 (Errors ["Invalid Credentials"]), st').
Proof.
  destruct (deleteAccount_spec alice sampleStore)
    as (st' & Hdel & Hposts & Husers & _ & _ & Hcur & Hpost & Hme & Hlogin).
  exists st'. split; [exact Hdel|]. split; [exact Hposts|].
  split; [exact Husers|]. split; [exact Hcur|].
  split; [apply Hpost; reflexivity|].
  split; [apply Hme, sampleStore_one_profile|].
  apply (Hlogin sampleEnv 9 aliceCredentials aliceUser).
  - apply sampleStore_one_email.
  - by split.
  - reflexivity.
  - reflexivity.
Defined.

(** ** The invariants of the store *)

Section Effects.
Variable E : Env.
Variable isDate : string -> bool.

Lemma upsertProfile_effect oid body user st :
  accounts_untouched st (snd (upsertProfile oid body user st)) \/
  profile_saved user st (snd (upsertProfile oid body user st)).
Proof.
  unfold upsertProfile.
  destruct (Validator.notEmpty (in_status body)) eqn:Hstatus;
    destruct (Validator.notEmpty (in_skills body)) eqn:Hskills; simpl;
    try (by left).
  assert (exists s, ifTruthy (in_status body) = Some s /\ s <> "")
    as (s & Hs & Hsne).
  { unfold Validator.notEmpty in Hstatus. unfold ifTruthy.
    destruct (in_status body) as [s|]; simpl in *; [|done].
    rewrite Hstatus. exists s. split; [done|].
    apply String.eqb_neq. by apply negb_true_iff. }
  assert (exists l, pf_skills (buildProfileFields user body) = Some l
                    /\ l <> []) as (l & Hl & Hlne).
  { unfold Validator.notEmpty in Hskills. simpl.
    destruct (in_skills body) as [k|]; simpl in *; [|done].
    rewrite Hskills. eexists. split; [done|].
    unfold normalizeSkills. pose proof (split_nonempty "," k).
    by destruct (Js.split "," k). }
  right. split.
  { by destruct (Profile_findOne_user st (tu_id user)) as [[id p]|]. }
  destruct (Profile_findOne_user st (tu_id user)) as [[id p]|] eqn:Hfound;
    simpl.
  - exists id, (applySet (buildProfileFields user body) p).
    split; [done|]. split; [done|]. split.
    + intros Hone. by apply (Profile_findOne_only st _ id p).
    + intros _. split.
      * exists s. simpl. by rewrite Hs.
      * exists l. cbn [skills applySet]. by rewrite Hl.
  - exists oid, (newProfile (buildProfileFields user body)).
    split; [done|]. split; [done|]. split.
    + intros _ id2 p2 Hlook Hu.
      by destruct (Profile_findOne_none st _ Hfound id2 p2 Hlook).
    + intros _. split.
      * exists s. simpl. by rewrite Hs.
      * exists l. cbn [skills newProfile]. by rewrite Hl.
Qed.

(** Saving the caller's profile with other entries. *)
Lemma entries_effect user st id p p' :
  Profile_findOne_user st (tu_id user) = Some (id, p) ->
  profile_user p' = profile_user p ->
  status p' = status p -> skills p' = skills p ->
  profile_saved user st (Profile_save st id p').
Proof.
  intros Hfound Hu Hstatus Hskills.
  apply findOne_Some in Hfound as Hparts. destruct Hparts as [Hlook Hq].
  apply String.eqb_eq in Hq.
  split; [done|]. exists id, p'. split; [done|].
  split; [congruence|]. split.
  - intros Hone. by apply (Profile_findOne_only st _ id p).
  - intros Hcomplete. destruct (Hcomplete id p Hlook) as [Hs Hl].
    unfold profile_complete. by rewrite Hstatus, Hskills.
Qed.

Lemma removeExperience_effect i user st :
  accounts_untouched st (snd (removeExperience i user st)) \/
  profile_saved user st (snd (removeExperience i user st)).
Proof.
  unfold removeExperience.
  destruct (Profile_findOne_user st (tu_id user)) as [[id p]|] eqn:Hfound;
    simpl; [|by left].
  right. by apply (entries_effect user st id p).
Qed.

Lemma removeEducation_effect i user st :
  accounts_untouched st (snd (removeEducation i user st)) \/
  profile_saved user st (snd (removeEducation i user st)).
Proof.
  unfold removeEducation.
  destruct (Profile_findOne_user st (tu_id user)) as [[id p]|] eqn:Hfound;
    simpl; [|by left].
  right. by apply (entries_effect user st id p).
Qed.

Lemma addExperience_effect eid body user st :
  accounts_untouched st (snd (addExperience isDate eid body user st)) \/
  profile_saved user st (snd (addExperience isDate eid body user st)).
Proof.
  unfold addExperience. destruct (negb _); [by left|].
  destruct (Profile_findOne_user st (tu_id user)) as [[id p]|] eqn:Hfound;
    simpl; [|by left].
  destruct (validateDates isDate _ _); simpl; [|by left].
  right. by apply (entries_effect user st id p).
Qed.

Lemma addEducation_effect eid body user st :
  accounts_untouched st (snd (addEducation isDate eid body user st)) \/
  profile_saved user st (snd (addEducation isDate eid body user st)).
Proof.
  unfold addEducation. destruct (negb _); [by left|].
  destruct (Profile_findOne_user st (tu_id user)) as [[id p]|] eqn:Hfound;
    simpl; [|by left].
  destruct (validateDates isDate _ _); simpl; [|by left].
  right. by apply (entries_effect user st id p).
Qed.

Lemma register_saves oid salt now body st :
  accounts_untouched st (snd (register E oid salt now body st)) \/
  user_saved E st (snd (register E oid salt now body st)).
Proof.
  destruct (register_effect E oid salt now body st)
    as [->|((Hname & Hemail & Hpw) & Hnone & password & Hstr & ->)];
    [by left|].
  right. split; [done|]. eexists. eexists. split; [reflexivity|].
  split; [|done]. split.
  - simpl. unfold Validator.notEmpty in Hname.
    apply String.eqb_neq. by apply negb_true_iff.
  - split; [done|]. split; [done|].
    exists password, salt. split; [|done].
    rewrite Hstr in Hpw. unfold Validator.isLength in Hpw.
    by apply Nat.leb_le.
Qed.

Lemma deleteAccount_removes user st :
  account_removed st (snd (deleteAccount user st)).
Proof.
  split; [exists (tu_id user)|].
  - simpl. unfold Profile_findOneAndRemove_user.
    by destruct (Profile_findOne_user st (tu_id user)) as [[id0 p0]|].
  - intros id p. simpl. unfold Profile_findOneAndRemove_user.
    destruct (Profile_findOne_user st (tu_id user)) as [[id0 p0]|];
      [|done]. simpl. rewrite lookup_delete_Some. by intros [_ ?].
Qed.

(** Every call falls under one of the four effects. *)
Lemma serve_effect c st :
  accounts_untouched st (snd (serve E isDate c st)) \/
  user_saved E st (snd (serve E isDate c st)) \/
  (exists user, profile_saved user st (snd (serve E isDate c st))) \/
  account_removed st (snd (serve E isDate c st)).
Proof.
  destruct c as [[oid salt now body|now body|oid body user|i user|i user|
                  r user]|eid body user|eid body user|user]; simpl.
  - destruct (register_saves oid salt now body st); auto.
  - rewrite authenticate_store. by left.
  - destruct (upsertProfile_effect oid body user st); eauto.
  - destruct (removeExperience_effect i user st); eauto.
  - destruct (removeEducation_effect i user st); eauto.
  - destruct (feed_effect E r user st) as (Hu & Hp & _). by left.
  - destruct (addExperience_effect eid body user st); eauto.
  - destruct (addEducation_effect eid body user st); eauto.
  - right. right. right. apply deleteAccount_removes.
Qed.



Lemma serve_one_email c st :
  one_user_per_email st -> one_user_per_email (snd (serve E isDate c st)).
Proof.
  intros Hone.
  destruct (serve_effect c st)
    as [[Hu _]|[(_ & oid & u & Hu & _ & Hnone)|[(user & Hu & _)|
                        [[id Hu] _]]]].
  - unfold one_user_per_email. by rewrite Hu.
  - assert (forall id2 u2, users st !! id2 = Some u2 ->
                           user_email u2 <> user_email u) as Hfresh.
    { intros id2 u2 Hlook.
      pose proof (findOne_None _ _ Hnone id2 u2 Hlook) as Hq. simpl in Hq.
      by apply String.eqb_neq. }
    intros id1 id2 u1 u2. rewrite Hu, !lookup_insert.
    repeat case_decide; intros H1 H2 Heq; simplify_eq.
    + done.
    + by destruct (Hfresh id2 u2 H2).
    + by destruct (Hfresh id1 u1 H1).
    + by apply (Hone id1 id2 u1 u2).
  - unfold one_user_per_email. by rewrite Hu.
  - intros id1 id2 u1 u2. rewrite Hu, !lookup_delete_Some.
    intros [_ H1] [_ H2]. by apply (Hone id1 id2 u1 u2).
Qed.

Lemma serve_users_registered c st :
  users_registered E st -> users_registered E (snd (serve E isDate c st)).
Proof.
  intros Hall.
  destruct (serve_effect c st)
    as [[Hu _]|[(_ & oid & u & Hu & Hreg & _)|[(user & Hu & _)|
                        [[id Hu] _]]]].
  - unfold users_registered. by rewrite Hu.
  - intros id1 u1. rewrite Hu, lookup_insert.
    case_decide; [by intros [= <-] | apply Hall].
  - unfold users_registered. by rewrite Hu.
  - intros id1 u1. rewrite Hu, lookup_delete_Some. intros [_ H1].
    by apply (Hall id1).
Qed.

End Effects.



(** X16: no call of the service stores two users with one email, and
    every user it stores is as registration builds it: a non-empty name,
    an email that passed the check, the avatar of that email and, as
    password, the hash of a password of six characters or more; both hold
    in every store that the service reaches from the empty one. *)
Theorem served_users E isDate :
  (forall c st,
     one_user_per_email st ->
     one_user_per_email (snd (serve E isDate c st))) /\
  (forall c st,
     users_registered E st ->
     users_registered E (snd (serve E isDate c st))) /\
  (forall st,
     served E isDate st -> one_user_per_email st /\ users_registered E st).
Proof.
  split; [apply serve_one_email|]. split; [apply serve_users_registered|].
  induction 1 as [|st c _ [IH1 IH2]].
  - split.
    + intros id1 id2 u1 u2 H1. simpl in H1. by rewrite lookup_empty in H1.
    + intros id u H1. simpl in H1. by rewrite lookup_empty in H1.
  - split; [by apply serve_one_email | by apply serve_users_registered].
Qed.

Lemma served_users_witness :
  one_user_per_email
    (snd (serve sampleEnv allDates
            (Core (Register "u3" "s" 7 carolCredentials)) sampleStore)) /\
  users_registered sampleEnv
    (snd (serve sampleEnv allDates
            (Core (Register "u3" "s" 7 carolCredentials)) emptyStore)) /\
  users_registered sampleEnv
    (snd (serve sampleEnv allDates (DeleteAccount alice)
            (snd (serve sampleEnv allDates
                    (Core (Register "u1" "s" 7 aliceCredentials))
                    emptyStore)))).
Proof.
  destruct (served_users sampleEnv allDates) as (Hone & Hreg & Hall).
  split; [apply Hone, sampleStore_one_email|].
  split.
  - apply Hreg. intros id u H. simpl in H. by rewrite lookup_empty in H.
  - apply (Hall _). apply served_call, served_call, served_empty.
Defined.

(** ** The skills of a form *)

Section SkillFacts.

Lemma contains_append c s t :
  contains c (s ++ t) = contains c s || contains c t.
Proof.
  induction s as [|d s IH]; [done|].
  rewrite append_String. simpl. by rewrite IH, orb_assoc.
Qed.

Lemma split_single sep s : contains sep s = false -> Js.split sep s = [s].
Proof.
  induction s as [|c s IH]; [done|]. simpl.
  intros Hc. apply orb_false_iff in Hc as [Hne Hc].
  by rewrite Hne, (IH Hc).
Qed.

Lemma split_append sep s t :
  contains sep s = false ->
  Js.split sep (s ++ String sep t) = s :: Js.split sep t.
Proof.
  induction s as [|c s IH].
  - intros _. rewrite append_Empty. simpl. by rewrite Ascii.eqb_refl.
  - simpl. intros Hc. apply orb_false_iff in Hc as [Hne Hc].
    by rewrite Hne, (IH Hc).
Qed.

(** Splitting what was joined gives the list back, when it is not empty
    and no element holds the separator. *)
Lemma split_join sep (l : list string) :
  l <> [] -> Forall (fun s => contains sep s = false) l ->
  Js.split sep (Js.join sep l) = l.
Proof.
  induction l as [|s l IH]; [done|]. intros _ Hall.
  apply Forall_cons in Hall as [Hs Hl].
  destruct l as [|s2 l].
  - by apply split_single.
  - change (Js.join sep (s :: s2 :: l))
      with (s ++ String sep (Js.join sep (s2 :: l))).
    rewrite split_append by done. f_equal. by apply IH.
Qed.

Lemma trimEnd_fixed s : endsWithWhiteSpace s = false -> Js.trimEnd s = s.
Proof.
  induction s as [|c s IH]; [done|]. simpl.
  destruct s as [|d s].
  - simpl. by intros ->.
  - intros Hend. by rewrite (IH Hend).
Qed.

Lemma trim_fixed s :
  startsWithWhiteSpace s = false -> endsWithWhiteSpace s = false ->
  Js.trim s = s.
Proof.
  intros Hstart Hend. unfold Js.trim.
  assert (Js.trimStart s = s) as ->.
  { destruct s as [|c s]; [done|]. simpl in *. by rewrite Hstart. }
  by apply trimEnd_fixed.
Qed.

Lemma trim_no_separator c s :
  contains c s = false -> contains c (Js.trim s) = false.
Proof.
  intros Hc. destruct (trim_spec s) as (l & r & Heq & _).
  rewrite Heq, !contains_append in Hc.
  apply orb_false_iff in Hc as [_ Hc].
  by apply orb_false_iff in Hc as [Hc _].
Qed.

Lemma normalizeSkills_normalized s : Forall normalized (normalizeSkills s).
Proof.
  unfold normalizeSkills. rewrite map_fmap. apply Forall_fmap.
  eapply Forall_impl; [apply (split_no_separator "," s)|].
  intros seg Hseg. simpl.
  destruct (trim_spec seg) as (l & r & _ & _ & _ & Hstart & Hend).
  split; [by apply trim_no_separator | done].
Qed.

Lemma normalizeSkills_nonempty s : normalizeSkills s <> [].
Proof.
  unfold normalizeSkills. pose proof (split_nonempty "," s).
  by destruct (Js.split "," s).
Qed.

End SkillFacts.

(** X17: a non-empty list of skills that hold no comma and no leading or
    trailing white space, joined by commas as a form sends it, is
    normalized back to the same list; so sending the stored skills of a
    profile again, joined by commas, stores the same skills. *)
Theorem normalizeSkills_join :
  (forall l : list string,
     l <> [] -> Forall normalized l ->
     normalizeSkills (Js.join "," l) = l) /\
  (forall s,
     normalizeSkills (Js.join "," (normalizeSkills s)) = normalizeSkills s).
Proof.
  assert (forall l : list string,
            l <> [] -> Forall normalized l ->
            normalizeSkills (Js.join "," l) = l) as Hround.
  { intros l Hne Hall. unfold normalizeSkills.
    rewrite split_join; [|done|].
    - induction Hall as [|s l (_ & Hstart & Hend) _ IH]; [done|].
      simpl. rewrite trim_fixed by done. f_equal.
      destruct l; [done | by apply IH].
    - eapply Forall_impl; [exact Hall|]. by intros s (Hc & _). }
  split; [exact Hround|]. intros s.
  apply Hround; [apply normalizeSkills_nonempty|
                 apply normalizeSkills_normalized].
Qed.

Lemma normalizeSkills_join_witness :
  normalizeSkills (Js.join "," ["html"; "css"; "node js"])
    = ["html"; "css"; "node js"] /\
  normalizeSkills (Js.join "," (normalizeSkills " a ,b,, c "))
    = normalizeSkills " a ,b,, c ".
Proof.
  destruct normalizeSkills_join as [Hround Hstable].
  split; [|apply Hstable].
  apply Hround; [discriminate|].
  repeat constructor.
Defined.

(** ** Rejected forms *)

Section ValidationFacts.

(** The messages answered are those of the checks that failed, in the
    order the checks are declared. *)
Lemma validationResult_sublist (checks : list (bool * string)) :
  Validator.validationResult checks `sublist_of` List.map snd checks.
Proof.
  unfold Validator.validationResult.
  induction checks as [|[ok msg] checks IH]; simpl; [constructor|].
  destruct ok; simpl; by constructor.
Qed.

Lemma validationResult_elem (checks : list (bool * string)) msg :
  msg ∈ Validator.validationResult checks <-> (false, msg) ∈ checks.
Proof.
  unfold Validator.validationResult.
  induction checks as [|[ok m] checks IH]; simpl.
  - by rewrite !elem_of_nil.
  - destruct ok; simpl; rewrite !elem_of_cons, IH.
    + split; [by right | by intros [?|?]].
    + split; (intros [Heq|Hin]; [left | by right]).
      * by rewrite Heq.
      * by injection Heq.
Qed.

End ValidationFacts.

(** X18: a registration that fails a check answers 400 and stores
    nothing; its messages are exactly those of the checks that failed,
    one for each, in the order name, email, password. *)
Theorem register_invalid E oid salt now body st :
  ~ validCredentials E body ->
  exists errors,
    register E oid salt now body st = (Reply 400 (Errors errors), st) /\
    errors <> [] /\
    errors `sublist_of`
      [ "Name is required"; "Please include a valid email";
        "Please enter a password with 6 or more characters" ] /\
    ("Name is required" ∈ errors <->
     Validator.notEmpty (body_name body) = false) /\
    ("Please include a valid email" ∈ errors <->
     isEmail E (Validator.value (body_email body)) = false) /\
    ("Please enter a password with 6 or more characters" ∈ errors <->
     Validator.isLength 6 (Validator.shown (body_password body)) = false).
Proof.
  intros Hinvalid. unfold register.
  set (checks :=
         [ (Validator.notEmpty (body_name body), "Name is required");
           (isEmail E (Validator.value (body_email body)),
            "Please include a valid email");
           (Validator.isLength 6 (Validator.shown (body_password body)),
            "Please enter a password with 6 or more characters") ]).
  assert (Validator.validationResult checks <> []) as Hne.
  { unfold checks, validCredentials in *.
    destruct (Validator.notEmpty (body_name body));
      destruct (isEmail E (Validator.value (body_email body)));
      destruct (Validator.isLength 6 (Validator.shown (body_password body)));
      try done.
    by destruct Hinvalid. }
  exists (Validator.validationResult checks).
  split.
  { by destruct (Validator.validationResult checks). }
  split; [done|]. split; [apply (validationResult_sublist checks)|].
  rewrite !validationResult_elem. unfold checks.
  rewrite !elem_of_cons, !elem_of_nil.
  destruct (Validator.notEmpty (body_name body));
    destruct (isEmail E (Validator.value (body_email body)));
    destruct (Validator.isLength 6 (Validator.shown (body_password body)));
    intuition congruence.
Qed.

Lemma register_invalid_witness :
  exists errors,
    register sampleEnv "u3" "s" 7
      (mkCredentials None (Some "carol@example.com") (Some (Str "abc")))
      sampleStore
      = (Reply 400 (Errors errors), sampleStore) /\
    errors <> [] /\
    errors `sublist_of`
      [ "Name is required"; "Please include a valid email";
        "Please enter a password with 6 or more characters" ] /\
    ("Name is required" ∈ errors <->
     Validator.notEmpty None = false) /\
    ("Please include a valid email" ∈ errors <->
     isEmail sampleEnv "carol@example.com" = false) /\
    ("Please enter a password with 6 or more characters" ∈ errors <->
     Validator.isLength 6 (Some "abc") = false).
Proof.
  apply (register_invalid sampleEnv "u3" "s" 7
           (mkCredentials None (Some "carol@example.com") (Some (Str "abc")))
           sampleStore).
  by intros (Hname & _).
Defined.

(** ** routes/api/profile: the list of all profiles *)

(** X19: [listAllProfiles] answers one document for each stored profile
    and no other: a profile is stored under an id exactly when its
    document, with the user reference populated, is in the list, and no
    id is listed twice. *)
Theorem listAllProfiles_spec st :
  exists docs,
    listAllProfiles st = Sent (ProfileDocs docs) /\
    length docs = size (profiles st) /\
    NoDup (List.map pp_id docs) /\
    forall id p, profiles st !! id = Some p <-> populate st id p ∈ docs.
Proof.
  eexists. split; [reflexivity|]. split; [|split].
  - by rewrite length_map, length_map_to_list.
  - rewrite List.map_map. simpl. rewrite map_fmap.
    apply NoDup_fst_map_to_list.
  - intros id p. rewrite map_fmap, list_elem_of_fmap. split.
    + intros Hlook. exists (id, p). split; [done|].
      by apply elem_of_map_to_list.
    + intros ([id2 p2] & Heq & Hin). simpl in Heq.
      injection Heq as -> -> _. by apply elem_of_map_to_list.
Qed.

(** ** routes/api/profile: the order of the entries *)

(** X20: in a store where the caller has one profile, two experiences
    added one after the other are listed most recent first, in front of
    the entries that were there. *)
Theorem addExperience_twice isDate eid1 eid2 body1 body2 user st id p :
  one_profile_per_user st ->
  Profile_findOne_user st (tu_id user) = Some (id, p) ->
  validExperience body1 -> datesCast isDate (ein_from body1) (ein_to body1) ->
  validExperience body2 -> datesCast isDate (ein_from body2) (ein_to body2) ->
  exists p',
    addExperience isDate eid2 body2 user
      (snd (addExperience isDate eid1 body1 user st))
    = (Reply 200 (ProfileBody id p'), Profile_save st id p') /\
    experience p'
    = newExperience eid2 body2 :: newExperience eid1 body1 :: experience p.
Proof.
  intros Hone Hfound Hv1 Hd1 Hv2 Hd2.
  pose proof (Profile_findOne_only st _ id p Hone Hfound) as Honly.
  apply findOne_Some in Hfound as Hparts. destruct Hparts as [_ Hq].
  apply String.eqb_eq in Hq.
  rewrite (addExperience_added isDate eid1 body1 user st id p) by done.
  simpl.
  rewrite (addExperience_added isDate eid2 body2 user _ id
             (setExperience p (newExperience eid1 body1 :: experience p)));
    [|done|done|by apply Profile_findOne_saved].
  exists (setExperience p
            (newExperience eid2 body2 :: newExperience eid1 body1
               :: experience p)).
  split; [|reflexivity].
  f_equal. unfold Profile_save. simpl. by rewrite insert_insert_eq.
Qed.

Lemma addExperience_twice_witness :
  exists p',
    addExperience allDates "e4" jobInput alice
      (snd (addExperience allDates "e3" jobInput alice sampleStore))
    = (Reply 200 (ProfileBody "p1" p'), Profile_save sampleStore "p1" p') /\
    experience p'
    = newExperience "e4" jobInput :: newExperience "e3" jobInput
        :: experience sampleProfile.
Proof.
  apply (addExperience_twice allDates "e3" "e4" jobInput jobInput alice
           sampleStore "p1" sampleProfile).
  - apply sampleStore_one_profile.
  - reflexivity.
  - by repeat split.
  - by split.
  - by repeat split.
  - by split.
Defined.

(** ** The like lists in the whole service *)

Section LikesServed.
Variable E : Env.
Variable isDate : string -> bool.

Lemma addExperience_posts eid body user st :
  posts (snd (addExperience isDate eid body user st)) = posts st.
Proof.
  unfold addExperience. destruct (negb _); [done|].
  destruct (Profile_findOne_user st (tu_id user)) as [[id p]|]; [|done].
  simpl. by destruct (validateDates isDate _ _).
Qed.

Lemma addEducation_posts eid body user st :
  posts (snd (addEducation isDate eid body user st)) = posts st.
Proof.
  unfold addEducation. destruct (negb _); [done|].
  destruct (Profile_findOne_user st (tu_id user)) as [[id p]|]; [|done].
  simpl. by destruct (validateDates isDate _ _).
Qed.

Lemma deleteAccount_posts user st :
  posts (snd (deleteAccount user st)) = posts st.
Proof.
  simpl. unfold Profile_findOneAndRemove_user.
  by destruct (Profile_findOne_user st (tu_id user)) as [[id p]|].
Qed.

Lemma serve_likes c st :
  likes_invariant st -> likes_invariant (snd (serve E isDate c st)).
Proof.
  intros Hinv. destruct c as [op|eid body user|eid body user|user]; simpl.
  - by apply run_likes.
  - apply (likes_invariant_posts st); [apply addExperience_posts | done].
  - apply (likes_invariant_posts st); [apply addEducation_posts | done].
  - apply (likes_invariant_posts st); [apply deleteAccount_posts | done].
Qed.

End LikesServed.

(** X21: the routes that add an entry or delete the account keep the
    like lists free of repetition as the other operations do: no user is
    twice in a like list in any store that the whole service reaches from
    the empty one. Deleting an account leaves the likes of its user in
    place. *)
Theorem served_likes E isDate :
  (forall c st,
     likes_invariant st -> likes_invariant (snd (serve E isDate c st))) /\
  (forall st, served E isDate st -> likes_invariant st) /\
  (forall user st id p,
     posts st !! id = Some p ->
     posts (snd (serve E isDate (DeleteAccount user) st)) !! id = Some p).
Proof.
  split; [apply serve_likes|]. split.
  - induction 1 as [|st c _ IH].
    + intros id p H. simpl in H. by rewrite lookup_empty in H.
    + by apply serve_likes.
  - intros user st id p Hlook. simpl serve.
    by rewrite deleteAccount_posts.
Qed.

Lemma served_likes_witness :
  likes_invariant
    (snd (serve sampleEnv allDates (DeleteAccount bob) sampleStore)) /\
  likes_invariant
    (snd (serve sampleEnv allDates
            (Core (Feed (LikePost "post1") alice)) sampleStore)) /\
  posts (snd (serve sampleEnv allDates (DeleteAccount bob) sampleStore))
    !! "post1" = Some samplePost.
Proof.
  destruct (served_likes sampleEnv allDates) as (Hstep & _ & Hkept).
  split; [apply Hstep, sampleStore_likes|].
  split; [apply Hstep, sampleStore_likes|].
  apply Hkept. reflexivity.
Defined.

(** ** routes/api/posts: reading a post *)

(** X22: [getPost] answers the stored post with status 200, and 404
    otherwise, with the message "Post not found" when the id is
    well-formed and names no post and "Post not found:inside the catch"
    when the id is malformed; it never answers 500 and never changes the
    store, whoever reads. *)
Theorem getPost_spec E id reader st :
  (forall post,
     Post_findById E st id = Ok (Some post) ->
     getPost E id reader st = (Reply 200 (PostBody id post), st)) /\
  (isObjectId E id = true -> posts st !! id = None ->
   getPost E id reader st = (Reply 404 (Msg "Post not found"), st)) /\
  (isObjectId E id = false ->
   getPost E id reader st
     = (Reply 404 (Msg "Post not found:inside the catch"), st)) /\
  (statusOf (fst (getPost E id reader st)) = Some 200 \/
   statusOf (fst (getPost E id reader st)) = Some 404) /\
  snd (getPost E id reader st) = st.
Proof.
  unfold getPost, Post_findById. split; [|split; [|split; [|split]]].
  - intros post. destruct (isObjectId E id); [|discriminate].
    by intros [= ->].
  - intros -> Hnone. simpl. by rewrite Hnone.
  - by intros ->.
  - destruct (isObjectId E id); simpl; [|by right].
    destruct (posts st !! id); simpl; [by left | by right].
  - destruct (isObjectId E id); simpl; [|done].
    by destruct (posts st !! id).
Qed.

Lemma getPost_spec_witness :
  getPost sampleEnv "post1" bob sampleStore
    = (Reply 200 (PostBody "post1" samplePost), sampleStore) /\
  getPost sampleEnv "post9" bob sampleStore
    = (Reply 404 (Msg "Post not found"), sampleStore) /\
  getPost sampleEnv "" bob sampleStore
    = (Reply 404 (Msg "Post not found:inside the catch"), sampleStore).
Proof.
  destruct (getPost_spec sampleEnv "post1" bob sampleStore) as (Hok & _).
  destruct (getPost_spec sampleEnv "post9" bob sampleStore)
    as (_ & Habsent & _).
  destruct (getPost_spec sampleEnv "" bob sampleStore)
    as (_ & _ & Hbad & _).
  split; [apply Hok; reflexivity|].
  split; [apply Habsent; reflexivity|].
  apply Hbad. reflexivity.
Defined.

(** ** routes/api/profile: adding an education *)

(** X23: [addEducation] answers 400 with at least one message when the
    school, the degree, the field of study or the from date is missing or
    empty, and 500 when the caller has no profile or a date of the form is
    not a date, with the store unchanged; otherwise it puts a new entry in
    front of the education list, with the minted id and the school,
    degree, field of study, dates and description of the form, and answers
    the profile with that list and every other field as it was; that
    profile is what the store then holds under the profile's id, and no
    other profile, user or post has changed. *)
Theorem addEducation_spec isDate eid body user st :
  (~ validEducation body ->
   exists errors,
     errors <> [] /\
     addEducation isDate eid body user st = (Reply 400 (Errors errors), st))
  /\
  (validEducation body ->
   Profile_findOne_user st (tu_id user) = None ->
   addEducation isDate eid body user st
     = (Reply 500 (Text "Server Error"), st)) /\
  (validEducation body ->
   ~ datesCast isDate (din_from body) (din_to body) ->
   addEducation isDate eid body user st
     = (Reply 500 (Text "Server Error"), st)) /\
  (forall id p,
     validEducation body ->
     datesCast isDate (din_from body) (din_to body) ->
     Profile_findOne_user st (tu_id user) = Some (id, p) ->
     exists (e : Education) (p' : Profile) (st' : Store),
       addEducation isDate eid body user st
         = (Reply 200 (ProfileBody id p'), st') /\
       profile_stored st st' id p' /\
       education p' = e :: education p /\
       same_but_education p p' /\
       edu_id e = eid /\
       din_school body = Some (edu_school e) /\
       din_degree body = Some (edu_degree e) /\
       din_fieldofstudy body = Some (edu_fieldofstudy e) /\
       din_from body = Some (edu_from e) /\
       edu_to e = din_to body /\
       edu_description e = din_description body).
Proof.
  split; [|split; [|split]].
  - intros Hinvalid. unfold addEducation, validEducation in *.
    destruct (Validator.notEmpty (din_school body));
      destruct (Validator.notEmpty (din_degree body));
      destruct (Validator.notEmpty (din_fieldofstudy body));
      destruct (Validator.notEmpty (din_from body)); simpl;
      try (eexists; split; [|reflexivity]; discriminate).
    by destruct Hinvalid.
  - intros Hvalid Hnone. unfold addEducation.
    rewrite (validEducation_passes body Hvalid). simpl. by rewrite Hnone.
  - intros Hvalid Hdates. unfold addEducation.
    rewrite (validEducation_passes body Hvalid). simpl.
    destruct (Profile_findOne_user st (tu_id user)) as [[id p]|]; [|done].
    simpl. unfold validateDates, datesCast in *.
    destruct (castsToDate isDate (din_from body));
      destruct (castsToDate isDate (din_to body)); try done.
    by destruct Hdates.
  - intros id p Hvalid Hdates Hfound.
    exists (newEducation eid body),
      (setEducation p (newEducation eid body :: education p)),
      (Profile_save st id
         (setEducation p (newEducation eid body :: education p))).
    split; [by apply addEducation_added|].
    split; [apply Profile_save_stored|].
    split; [done|]. split; [apply setEducation_same_but|].
    destruct Hvalid as (Hs & Hd & Hf & Hfr). simpl.
    destruct (din_school body), (din_degree body), (din_fieldofstudy body),
      (din_from body); by try discriminate.
Qed.

Lemma addEducation_spec_witness :
  (exists errors,
     errors <> [] /\
     addEducation allDates "d2"
       (mkEducationInput (Some "ETH") None None None None None None) alice
       sampleStore = (Reply 400 (Errors errors), sampleStore)) /\
  addEducation allDates "d2" schoolInput bob sampleStore
    = (Reply 500 (Text "Server Error"), sampleStore) /\
  addEducation (fun _ => false) "d2" schoolInput alice sampleStore
    = (Reply 500 (Text "Server Error"), sampleStore) /\
  exists (e : Education) (p' : Profile) (st' : Store),
    addEducation allDates "d2" schoolInput alice sampleStore
      = (Reply 200 (ProfileBody "p1" p'), st') /\
    profile_stored sampleStore st' "p1" p' /\
    education p' = e :: education sampleProfile /\
    same_but_education sampleProfile p' /\
    edu_id e = "d2" /\
    din_school schoolInput = Some (edu_school e) /\
    din_degree schoolInput = Some (edu_degree e) /\
    din_fieldofstudy schoolInput = Some (edu_fieldofstudy e) /\
    din_from schoolInput = Some (edu_from e) /\
    edu_to e = din_to schoolInput /\
    edu_description e = din_description schoolInput.
Proof.
  destruct (addEducation_spec allDates "d2"
              (mkEducationInput (Some "ETH") None None None None None None)
              alice sampleStore) as (Hinvalid & _).
  destruct (addEducation_spec allDates "d2" schoolInput bob sampleStore)
    as (_ & Hnone & _).
  destruct (addEducation_spec (fun _ => false) "d2" schoolInput alice
              sampleStore) as (_ & _ & Hdates & _).
  destruct (addEducation_spec allDates "d2" schoolInput alice sampleStore)
    as (_ & _ & _ & Hok).
  split; [apply Hinvalid; by intros (_ & ? & _)|].
  split; [apply Hnone; [by repeat split | reflexivity]|].
  split; [apply Hdates; [by repeat split | by intros (? & _)]|].
  apply (Hok "p1" sampleProfile); [by repeat split | by split | reflexivity].
Defined.

(** ** routes/api/posts: the like lists *)

(** C6: a user appears at most once in the like list of a post, in every
    store the service reaches from the empty one, and every route of the
    service preserves it.  [likePost] answers 400 when the caller is listed
    and otherwise puts one entry for the caller in front; [unlikePost]
    answers 400 when the caller is not listed and otherwise removes the
    caller's entry; on success both answer the updated like list, and the
    post read back from the store, by lookup and by [getPost], holds that
    list and is otherwise as it was, while no other post, user or profile
    has changed. *)
Theorem likes_at_most_once :
  (forall E isDate c st,
     likes_invariant st -> likes_invariant (snd (serve E isDate c st))) /\
  (forall E isDate st, served E isDate st -> likes_invariant st) /\
  (forall E id user st post,
     Post_findById E st id = Ok (Some post) ->
     (tu_id user ∈ List.map like_user (post_likes post) ->
      likePost E id user st
        = (Reply 400 (Msg "Bad Request: Post already liked"), st)) /\
     (tu_id user ∉ List.map like_user (post_likes post) ->
      exists (post' : Post) (st' : Store),
        post' = mkPost (post_user post) (post_text post) (post_name post)
                  (post_avatar post) (mkLike (tu_id user) :: post_likes post)
                  (post_comments post) /\
        likePost E id user st
          = (Reply 200 (LikesBody (mkLike (tu_id user) :: post_likes post)),
             st') /\
        post_stored st st' id post' /\
        (forall reader,
           getPost E id reader st' = (Reply 200 (PostBody id post'), st'))))
  /\
  (forall E id user st post,
     Post_findById E st id = Ok (Some post) ->
     (tu_id user ∉ List.map like_user (post_likes post) ->
      unlikePost E id user st
        = (Reply 400 (Msg "Bad Request: Post has not yet been liked"), st)) /\
     (tu_id user ∈ List.map like_user (post_likes post) ->
      likes_unique post ->
      exists (likes' : list Like) (post' : Post) (st' : Store),
        post' = mkPost (post_user post) (post_text post) (post_name post)
                  (post_avatar post) likes' (post_comments post) /\
        unlikePost E id user st = (Reply 200 (LikesBody likes'), st') /\
        post_stored st st' id post' /\
        (forall reader,
           getPost E id reader st' = (Reply 200 (PostBody id post'), st')) /\
        likes' = List.filter (fun like => negb (likedBy user like))
                   (post_likes post) /\
        (tu_id user ∉ List.map like_user likes') /\
        S (length likes') = length (post_likes post))).
Proof.
  split; [intros E isDate; apply serve_likes|]. split.
  { intros E isDate st. induction 1 as [|st c _ IH].
    - intros id p H. simpl in H. by rewrite lookup_empty in H.
    - by apply serve_likes. }
  split.
  - intros E id user st post Hfound.
    pose proof Hfound as Hid. apply Post_findById_found in Hid as [Hid _].
    unfold likePost. rewrite Hfound. simpl.
    split; intros Hmem.
    + apply liked_count_pos in Hmem. by rewrite Hmem.
    + destruct (0 <? _) eqn:Hcount;
        [by apply liked_count_pos in Hcount|].
      eexists. eexists. split; [reflexivity|]. split; [reflexivity|].
      split; [apply Post_save_stored|].
      intros reader. unfold getPost. by rewrite Post_findById_saved.
  - intros E id user st post Hfound.
    pose proof Hfound as Hid. apply Post_findById_found in Hid as [Hid _].
    unfold unlikePost. rewrite Hfound. simpl.
    split.
    + intros Hnot. apply liked_count_zero in Hnot. by rewrite Hnot.
    + intros Hmem Huniq.
      destruct (_ =? 0) eqn:Hcount;
        [by apply liked_count_zero in Hcount|].
      destruct (indexOf_present _ _ Hmem) as (i & Hi & Hlt).
      rewrite length_map in Hlt.
      destruct (indexOf_first _ _ _ Hi) as [Hat _].
      rewrite Hi, splice_at by done.
      exists (delete i (post_likes post)).
      unfold likes_unique in Huniq. rewrite map_fmap in Huniq, Hat.
      pose proof (delete_unique (tu_id user) (post_likes post) i Huniq Hat)
        as Hdel.
      fold (likedBy user) in Hdel.
      eexists. eexists. split; [reflexivity|]. split; [reflexivity|].
      split; [apply Post_save_stored|]. split.
      { intros reader. unfold getPost. by rewrite Post_findById_saved. }
      split; [exact Hdel|]. split.
      * rewrite Hdel. apply filter_not_liked.
      * rewrite length_delete by (by apply lookup_lt_is_Some_2). lia.
Qed.

Lemma likes_at_most_once_witness :
  likes_invariant
    (snd (serve sampleEnv allDates (Core (Feed (LikePost "post1") alice))
            sampleStore)) /\
  likes_invariant
    (snd (serve sampleEnv allDates (AddExperience "e3" jobInput alice)
            sampleStore)) /\
  likePost sampleEnv "post1" bob sampleStore
    = (Reply 400 (Msg "Bad Request: Post already liked"), sampleStore) /\
  (exists (post' : Post) (st' : Store),
     post' = mkPost "u1" "hello" "Alice" "a.png" [mkLike "u1"; mkLike "u2"]
               [commentA; commentB; commentC] /\
     likePost sampleEnv "post1" alice sampleStore
       = (Reply 200 (LikesBody [mkLike "u1"; mkLike "u2"]), st') /\
     post_stored sampleStore st' "post1" post' /\
     (forall reader,
        getPost sampleEnv "post1" reader st'
        = (Reply 200 (PostBody "post1" post'), st'))) /\
  unlikePost sampleEnv "post1" alice sampleStore
    = (Reply 400 (Msg "Bad Request: Post has not yet been liked"),
       sampleStore) /\
  exists (likes' : list Like) (post' : Post) (st' : Store),
    post' = mkPost "u1" "hello" "Alice" "a.png" likes'
              [commentA; commentB; commentC] /\
    unlikePost sampleEnv "post1" bob sampleStore
      = (Reply 200 (LikesBody likes'), st') /\
    post_stored sampleStore st' "post1" post' /\
    (forall reader,
       getPost sampleEnv "post1" reader st'
       = (Reply 200 (PostBody "post1" post'), st')) /\
    likes' = List.filter (fun like => negb (likedBy bob like))
               (post_likes samplePost) /\
    (tu_id bob ∉ List.map like_user likes') /\
    S (length likes') = length (post_likes samplePost).
Proof.
  destruct likes_at_most_once as (Hserve & _ & Hlike & Hunlike).
  assert (tu_id bob ∈ List.map like_user (post_likes samplePost)) as Hbob
    by (simpl; left).
  assert (tu_id alice ∉ List.map like_user (post_likes samplePost))
    as Halice.
  { simpl. apply not_elem_of_cons.
    split; [discriminate | apply not_elem_of_nil]. }
  destruct (Hlike sampleEnv "post1" bob sampleStore samplePost)
    as [Hliked _]; [reflexivity|].
  destruct (Hlike sampleEnv "post1" alice sampleStore samplePost)
    as [_ Hfresh]; [reflexivity|].
  destruct (Hunlike sampleEnv "post1" alice sampleStore samplePost)
    as [Hnotyet _]; [reflexivity|].
  destruct (Hunlike sampleEnv "post1" bob sampleStore samplePost)
    as [_ Hremove]; [reflexivity|].
  split; [apply Hserve, sampleStore_likes|].
  split; [apply Hserve, sampleStore_likes|].
  split; [exact (Hliked Hbob)|].
  split; [exact (Hfresh Halice)|].
  split; [exact (Hnotyet Halice)|].
  apply (Hremove Hbob). apply (sampleStore_likes "post1"). reflexivity.
Defined.
